(** * satcfdi.create.cfd.cfdi40 : a shallow embedding

    The module builds a CFDI 4.0 [Comprobante] from concepts, computes the
    document totals and derives payment documents from earlier comprobantes.

    Conventions of the embedding.
    - A Python [Decimal] is modelled by its exact rational value in [Q];
      Python's comparison of decimals is numeric, hence [Qeq] / [Qeq_bool].
      The default decimal context keeps 28 significant digits, so sums,
      differences and products of currency amounts are exact.
      [Comprobante_init] takes every result at its exact value, a quotient
      too; [InContext.Comprobante_init] rounds every result to the context,
      as Python does, and is the one to read where the unrounded local
      values of a tax-inclusive concept matter.  Quantities, prices,
      discounts and rates are decimals: the arithmetic of Python's [int]
      (whose [/] gives a float) is outside the embedding.
    - A raised exception is a value [Err e] of the [result] monad; the
      constructors of [error] name the Python exception, and the text of a
      [ValueError] is the text in the source.
    - A dict entry read with [d[k]] is a [field]: the key may be missing
      ([KeyError]), hold [None], or hold a value.  An entry read with
      [d.get(k)] is an [option].
    - Functions imported from modules of the package that are not part of
      this file ([..compute], [.pago20], the signer, the clock) are the
      methods of type classes; every theorem that does not name an instance
      holds for all implementations of them. *)

From Stdlib Require Import QArith Qround Qabs Qpower Lqa Lia String Ascii List.
From stdpp Require Import base option list gmap strings.

Open Scope string_scope.

(** ** Exceptions and the [result] monad *)

Inductive error : Type :=
| IndexError
| TypeError
| AttributeError
| KeyError (k : string)
| DivisionByZero
| InvalidOperation
| ValueError (msg : string)
| ImportedError (what : string).

Inductive result (A : Type) : Type :=
| Ok (a : A)
| Err (e : error).

Arguments Ok {A} a.
Arguments Err {A} e.

#[global] Instance result_ret : MRet result := fun _ a => Ok a.

#[global] Instance result_bind : MBind result :=
  fun _ _ f m => match m with Ok a => f a | Err e => Err e end.

Definition is_Ok {A} (r : result A) : Prop := exists a, r = Ok a.
Definition is_Err {A} (r : result A) : Prop := exists e, r = Err e.

(** What a call into an imported function gives back: a value, or some
    exception of that function's own. *)
Inductive outcome (A : Type) : Type :=
| Done (a : A)
| Raised (what : string).

Arguments Done {A} a.
Arguments Raised {A} what.

Definition call {A} (o : outcome A) : result A :=
  match o with
  | Done a => Ok a
  | Raised w => Err (ImportedError w)
  end.

(** A dict entry that the code subscripts. *)
Inductive field (A : Type) : Type :=
| Missing
| PyNone
| Val (a : A).

Arguments Missing {A}.
Arguments PyNone {A}.
Arguments Val {A} a.

(** [d[k]] *)
Definition subscript {A} (k : string) (f : field A) : result (option A) :=
  match f with
  | Missing => Err (KeyError k)
  | PyNone => Ok None
  | Val a => Ok (Some a)
  end.

(** [d.get(k)] *)
Definition get {A} (f : field A) : option A :=
  match f with
  | Val a => Some a
  | _ => None
  end.

(** ** Decimals *)

Abbreviation Decimal := Q.

(** [sum(...)] of decimals: Python folds from the left, starting at 0. *)
Definition py_sum (l : list Decimal) : Decimal := fold_left Qplus l 0%Q.

(** [x or 0] for an optional decimal: [None] and a zero are both falsy. *)
Definition or_zero (x : option Decimal) : Decimal :=
  match x with
  | Some d => if Qeq_bool d 0 then 0%Q else d
  | None => 0%Q
  end.

(** [x or None] for a decimal. *)
Definition or_None (x : Decimal) : option Decimal :=
  if Qeq_bool x 0 then None else Some x.

(** [from decimal import Decimal]: the conversion of a string. *)
Class DecimalModule := {
  Decimal_of_str : string -> outcome Decimal
}.

(** *** The decimal context

    Python computes with decimals in the context of the thread, which this
    package never changes: 28 significant digits, ties to the even digit
    ([prec=28], [ROUND_HALF_EVEN]).  An operation takes its operands as
    they are, however many digits they have, and gives the exact result
    rounded to the context; a conversion from a string or an integer is
    exact.  The limits of the exponent ([Emin], [Emax]), far from any
    amount, are left out. *)

Module Context.

(** [getcontext().prec] *)
Definition prec : Z := 28.

(** [10 ^ k] for an integer [k]. *)
Definition pow10 (k : Z) : Q :=
  if (0 <=? k)%Z then inject_Z (10 ^ k) else 1 # Z.to_pos (10 ^ (- k)).

(** The number of decimal digits of a positive integer. *)
Fixpoint digits_of (fuel : nat) (n : Z) : Z :=
  match fuel with
  | O => 1%Z
  | S fuel' => if (n <? 10)%Z then 1%Z else (1 + digits_of fuel' (n / 10))%Z
  end.

Definition digits (n : Z) : Z := digits_of (Z.to_nat (Z.log2 n)) n.

(** The exponent [e] of the leading digit of a non-zero [x]:
    [10 ^ e <= |x| < 10 ^ (e + 1)] ([Decimal.adjusted]). *)
Definition adjusted (x : Q) : Z :=
  let e := (digits (Z.abs (Qnum x)) - digits (Zpos (Qden x)))%Z in
  if Qle_bool (pow10 e) (Qabs x) then e else (e - 1)%Z.

(** The nearest integer, a tie going to the even one. *)
Definition half_even (y : Q) : Z :=
  let f := Qfloor y in
  match (y - inject_Z f ?= 1 # 2)%Q with
  | Lt => f
  | Gt => (f + 1)%Z
  | Eq => if Z.even f then f else (f + 1)%Z
  end.

(** The rounding of an exact result to the context: [prec] significant
    digits are kept. *)
Definition round (x : Q) : Decimal :=
  if Qeq_bool x 0 then 0%Q
  else
    let s := (prec - 1 - adjusted x)%Z in
    Qred (inject_Z (half_even (x * pow10 s)) * pow10 (- s)).

(** [x + y], [x - y], [x * y] and [x / y] on decimals; a decimal and an
    [int] give the same, the [int] being converted exactly. *)
Definition add (x y : Decimal) : Decimal := round (x + y).
Definition sub (x y : Decimal) : Decimal := round (x - y).
Definition mul (x y : Decimal) : Decimal := round (x * y).

Definition div (x y : Decimal) : result Decimal :=
  if Qeq_bool y 0
  then (if Qeq_bool x 0 then Err InvalidOperation else Err DivisionByZero)
  else Ok (round (x / y)).

(** [sum(...)] of decimals: from the left, starting at the [int] 0. *)
Definition sum (l : list Decimal) : Decimal := fold_left add l 0%Q.

End Context.

(** ** Strings *)

(** [s.split(sep)] for a one-character separator: one part more than there
    are separators, empty parts kept. *)
Fixpoint split (sep : ascii) (s : string) : list string :=
  match s with
  | EmptyString => [EmptyString]
  | String c s' =>
      if Ascii.eqb c sep then EmptyString :: split sep s'
      else match split sep s' with
           | p :: ps => String c p :: ps
           | [] => [String c EmptyString]
           end
  end.

Fixpoint contains (sep : ascii) (s : string) : bool :=
  match s with
  | EmptyString => false
  | String c s' => if Ascii.eqb c sep then true else contains sep s'
  end.

(** [parts[i]] *)
Definition index {A} (l : list A) (i : nat) : result A :=
  match l !! i with
  | Some a => Ok a
  | None => Err IndexError
  end.

(** ** Impuesto *)

Definition _impuestos : gmap string string :=
  <["ISR" := "001"]> (<["IVA" := "002"]> (<["IEPS" := "003"]> ∅)).

Module Impuesto.
Record t := mk {
  Base : option Decimal;
  Impuesto : string;
  TipoFactor : string;
  TasaOCuota : option Decimal;
  Importe : option Decimal
}.
End Impuesto.

(** [Impuesto.__init__] *)
Definition Impuesto_init (impuesto tipo_factor : string)
    (tasa_o_cuota importe base : option Decimal) : Impuesto.t :=
  {| Impuesto.Base := base;
     Impuesto.Impuesto := default impuesto (_impuestos !! impuesto);
     Impuesto.TipoFactor := tipo_factor;
     Impuesto.TasaOCuota := tasa_o_cuota;
     Impuesto.Importe := importe |}.

(** [Impuesto.parse] *)
Definition Impuesto_parse `{DecimalModule} (impuesto : string) : result Impuesto.t :=
  let parts := split "|" impuesto in
  p0 ← index parts 0;
  p1 ← index parts 1;
  tasa ← (if decide (2 < length parts)%nat
          then p2 ← index parts 2; d ← call (Decimal_of_str p2); mret (Some d)
          else mret None);
  mret (Impuesto_init p0 p1 tasa None None).

(** ** Concepto *)

(** An entry of [traslados] / [retenciones] as the caller may give it:
    an [Impuesto], the compact string, or a plain dict. *)
Inductive tax_item : Type :=
| Obj (i : Impuesto.t)
| Str (s : string)
| Dict (i : Impuesto.t).

(** The ['Impuestos'] entry of a concept.  The lists are what
    [iterate] yields: [None] and the empty sequence both give [[]], a
    single item gives a one-element list. *)
Module ConceptoImpuestos.
Record t := mk {
  Traslados : list tax_item;
  Retenciones : list tax_item
}.
End ConceptoImpuestos.

Module Concepto.
Record t := mk {
  ClaveProdServ : string;
  Cantidad : Decimal;
  ClaveUnidad : string;
  Descripcion : string;
  ValorUnitario : Decimal;
  ObjetoImp : option string;
  NoIdentificacion : option string;
  Unidad : option string;
  Descuento : option Decimal;
  Impuestos : field ConceptoImpuestos.t;
  _traslados_incluidos : bool;
  Importe : option Decimal
}.
End Concepto.

(** [Concepto.__init__] (the pass-through nodes [ACuentaTerceros],
    [InformacionAduanera], [CuentaPredial], [ComplementoConcepto] and
    [Parte] are never read by this module and are left out). *)
Definition Concepto_init (clave_prod_serv : string) (cantidad : Decimal)
    (clave_unidad descripcion : string) (valor_unitario : Decimal)
    (objeto_imp no_identificacion unidad : option string)
    (descuento : option Decimal) (traslados retenciones : list tax_item)
    (traslados_incluidos : bool) : Concepto.t :=
  {| Concepto.ClaveProdServ := clave_prod_serv;
     Concepto.Cantidad := cantidad;
     Concepto.ClaveUnidad := clave_unidad;
     Concepto.Descripcion := descripcion;
     Concepto.ValorUnitario := valor_unitario;
     Concepto.ObjetoImp := objeto_imp;
     Concepto.NoIdentificacion := no_identificacion;
     Concepto.Unidad := unidad;
     Concepto.Descuento := descuento;
     Concepto.Impuestos :=
       Val {| ConceptoImpuestos.Traslados := traslados;
              ConceptoImpuestos.Retenciones := retenciones |};
     Concepto._traslados_incluidos := traslados_incluidos;
     Concepto.Importe := None |}.

(** ** Document-level nodes *)

(** A generic element for the sub-documents this module only carries
    along (complements, addenda, related documents). *)
#[warnings="-register-all"]
Inductive Node : Type :=
| node (tag : string) (attrs : list (string * string)) (children : list Node).

(** The ['Impuestos'] node of a comprobante, as [make_impuestos] gives it. *)
Module DocImpuestos.
Record t := mk {
  Retenciones : list Impuesto.t;
  Traslados : list Impuesto.t;
  TotalImpuestosRetenidos : field Decimal;
  TotalImpuestosTrasladados : field Decimal
}.
End DocImpuestos.

Module ImpuestoDR.
Record t := mk {
  BaseDR : Decimal;
  ImpuestoDR : string;
  TipoFactorDR : string;
  TasaOCuotaDR : option Decimal;
  ImporteDR : option Decimal
}.
End ImpuestoDR.

Module ImpuestosDR.
Record t := mk {
  RetencionesDR : list ImpuestoDR.t;
  TrasladosDR : list ImpuestoDR.t
}.
End ImpuestosDR.

Module Receptor.
Record t := mk {
  Rfc : string;
  Nombre : string;
  DomicilioFiscalReceptor : option string;
  RegimenFiscalReceptor : option string;
  UsoCFDI : string;
  ResidenciaFiscal : option string;
  NumRegIdTrib : option string
}.
End Receptor.

Module Emisor.
Record t := mk {
  Rfc : string;
  Nombre : string;
  RegimenFiscal : string
}.
End Emisor.

Definition datetime := string.

Module Comprobante.
Record t := mk {
  Version : string;
  Fecha : datetime;
  NoCertificado : string;
  Certificado : string;
  Sello : string;
  SubTotal : Decimal;
  Moneda : string;
  Total : Decimal;
  TipoDeComprobante : string;
  Exportacion : string;
  LugarExpedicion : string;
  Serie : option string;
  Folio : option string;
  FormaPago : option string;
  CondicionesDePago : option string;
  Descuento : option Decimal;
  TipoCambio : option Decimal;
  MetodoPago : option string;
  Confirmacion : option string;
  InformacionGlobal : option Node;
  CfdiRelacionados : list Node;
  Emisor : Emisor.t;
  Receptor : Receptor.t;
  Conceptos : list Concepto.t;
  Impuestos : option DocImpuestos.t;
  Complemento : option Node;
  Addenda : option Node
}.
End Comprobante.

(** [satcfdi.create.Issuer] *)
Module Signer.
Record t := mk {
  certificate_base64 : string;
  sign_sha256 : string -> outcome string
}.
End Signer.

Module Issuer.
Record t := mk {
  rfc : string;
  legal_name : string;
  tax_system : string;
  certificate_number : string;
  signer : option Signer.t
}.
End Issuer.

(** ** Imported functions *)

(** [from ..compute import rounder, make_impuesto, make_impuestos,
    make_impuestos_dr, make_impuestos_dr_parcial] *)
Class ComputeModule := {
  rounder : string -> outcome (Decimal -> Decimal);
  make_impuesto :
    Impuesto.t -> Decimal -> (Decimal -> Decimal) -> outcome Impuesto.t;
  make_impuestos : list Concepto.t -> outcome (option DocImpuestos.t);
  make_impuestos_dr : list Concepto.t -> outcome (option ImpuestosDR.t);
  make_impuestos_dr_parcial :
    list Concepto.t -> Decimal -> Decimal -> Decimal ->
    (Decimal -> Decimal) -> outcome (option ImpuestosDR.t)
}.

(** [from ...cfdi import CFDI, get_timezone]: the canonical string of an
    assembled document, and the local time at a postal code. *)
Class CfdiModule := {
  cadena_original : Comprobante.t -> outcome string;
  now : string -> datetime
}.

(** ** Comprobante.__init__ : the loop over the concepts *)

Section Constructor.
Context `{DecimalModule} `{ComputeModule} `{CfdiModule}.

(** [x if isinstance(x, Impuesto) else Impuesto.parse(x)]; a plain dict has
    no [split]. *)
Definition as_Impuesto (x : tax_item) : result Impuesto.t :=
  match x with
  | Obj i => Ok i
  | Str s => Impuesto_parse s
  | Dict _ => Err AttributeError
  end.

(** [iterate(concepto.get("Impuestos", {}).get(key))] *)
Definition tax_items (sel : ConceptoImpuestos.t -> list tax_item)
    (concepto : Concepto.t) : result (list tax_item) :=
  match Concepto.Impuestos concepto with
  | Missing => Ok []
  | PyNone => Err AttributeError
  | Val d => Ok (sel d)
  end.

(** [sum(c["TasaOCuota"] for c in trasladados if c["TipoFactor"] == factor)],
    with the running total as accumulator; adding [None] is a [TypeError]. *)
Fixpoint sum_TasaOCuota (factor : string) (l : list Impuesto.t)
    (acc : Decimal) : result Decimal :=
  match l with
  | [] => Ok acc
  | c :: l' =>
      if String.eqb (Impuesto.TipoFactor c) factor then
        match Impuesto.TasaOCuota c with
        | Some r => sum_TasaOCuota factor l' (acc + r)%Q
        | None => Err TypeError
        end
      else sum_TasaOCuota factor l' acc
  end.

(** The condition of the [any(...)] at the head of the back-solve. *)
Definition carries_Base_or_Importe (c : Impuesto.t) : bool :=
  (String.eqb (Impuesto.TipoFactor c) "Tasa"
   || String.eqb (Impuesto.TipoFactor c) "Cuota")
  && (bool_decide (is_Some (Impuesto.Base c))
      || bool_decide (is_Some (Impuesto.Importe c))).

Definition msg_traslados_incluidos : string :=
  "Not possible to compute '_traslados_incluidos' if any 'trasladados' contains 'Base' or 'Importe'".

(** [x / y] on decimals raises on a zero divisor: [decimal.DivisionByZero],
    and [decimal.InvalidOperation] for 0 / 0.  The quotient is the exact
    one; [Context.div] is the quotient as the context leaves it. *)
Definition py_div (x y : Decimal) : result Decimal :=
  if Qeq_bool y 0
  then (if Qeq_bool x 0 then Err InvalidOperation else Err DivisionByZero)
  else Ok (x / y)%Q.

(** The local [valor_unitario] of the loop body, together with the value
    left in [concepto['ValorUnitario']]. *)
Definition unit_price (rnd_fn : Decimal -> Decimal) (concepto : Concepto.t)
    (trasladados : list Impuesto.t) : result (Decimal * Decimal) :=
  if Concepto._traslados_incluidos concepto then
    s_tasa ← sum_TasaOCuota "Tasa" trasladados 0%Q;
    s_cuota ← sum_TasaOCuota "Cuota" trasladados 0%Q;
    if existsb carries_Base_or_Importe trasladados
    then Err (ValueError msg_traslados_incluidos)
    else
      valor_unitario ← py_div (Concepto.ValorUnitario concepto - s_cuota)%Q
                              (s_tasa + 1)%Q;
      mret (valor_unitario, rnd_fn valor_unitario)
  else mret (Concepto.ValorUnitario concepto, Concepto.ValorUnitario concepto).

Definition not_subject (objeto_imp : option string) : bool :=
  match objeto_imp with
  | Some o => String.eqb o "01" || String.eqb o "03"
  | None => false
  end.

(** [[make_impuesto(i, base=base, rnd_fn=rnd_fn) for i in imp]] *)
Definition make_all (rnd_fn : Decimal -> Decimal) (base : Decimal)
    (imp : list Impuesto.t) : result (list Impuesto.t) :=
  mapM (fun i => call (make_impuesto i base rnd_fn)) imp.

Definition set_amounts (concepto : Concepto.t) (valor_unitario importe : Decimal)
    (objeto_imp : option string) (impuestos : field ConceptoImpuestos.t)
    : Concepto.t :=
  {| Concepto.ClaveProdServ := Concepto.ClaveProdServ concepto;
     Concepto.Cantidad := Concepto.Cantidad concepto;
     Concepto.ClaveUnidad := Concepto.ClaveUnidad concepto;
     Concepto.Descripcion := Concepto.Descripcion concepto;
     Concepto.ValorUnitario := valor_unitario;
     Concepto.ObjetoImp := objeto_imp;
     Concepto.NoIdentificacion := Concepto.NoIdentificacion concepto;
     Concepto.Unidad := Concepto.Unidad concepto;
     Concepto.Descuento := Concepto.Descuento concepto;
     Concepto.Impuestos := impuestos;
     Concepto._traslados_incluidos := Concepto._traslados_incluidos concepto;
     Concepto.Importe := Some importe |}.

(** The base the loop body hands to [make_impuesto], product and
    difference at their exact value; [InContext.tax_base] is the base as
    the context leaves it. *)
Definition tax_base (concepto : Concepto.t) (valor_unitario : Decimal) : Decimal :=
  (Concepto.Cantidad concepto * valor_unitario
   - or_zero (Concepto.Descuento concepto))%Q.

(** One turn of [for concepto in iterate(conceptos)]: the concept as the
    turn leaves it. *)
Definition process_concepto (rnd_fn : Decimal -> Decimal)
    (concepto : Concepto.t) : result Concepto.t :=
  ts ← tax_items ConceptoImpuestos.Traslados concepto;
  trasladados ← mapM as_Impuesto ts;
  rs ← tax_items ConceptoImpuestos.Retenciones concepto;
  retenciones ← mapM as_Impuesto rs;
  '(valor_unitario, stored) ← unit_price rnd_fn concepto trasladados;
  let importe := (Concepto.Cantidad concepto * valor_unitario)%Q in
  if not_subject (Concepto.ObjetoImp concepto) then
    mret (set_amounts concepto stored (rnd_fn importe)
            (Concepto.ObjetoImp concepto) PyNone)
  else
    let base := tax_base concepto valor_unitario in
    ts' ← make_all rnd_fn base trasladados;
    rs' ← make_all rnd_fn base retenciones;
    match ts', rs' with
    | [], [] =>
        mret (set_amounts concepto stored (rnd_fn importe) (Some "01") PyNone)
    | _, _ =>
        mret (set_amounts concepto stored (rnd_fn importe) (Some "02")
                (Val {| ConceptoImpuestos.Traslados := Obj <$> ts';
                        ConceptoImpuestos.Retenciones := Obj <$> rs' |}))
    end.

(** [c['Importe']] *)
Definition Importe_of (c : Concepto.t) : result Decimal :=
  match Concepto.Importe c with
  | Some i => Ok i
  | None => Err (KeyError "Importe")
  end.

(** [impuestos.get(key, 0)] followed by the in-place [+=] / [-=]. *)
Definition get_total (f : field Decimal) : result Decimal :=
  match f with
  | Missing => Ok 0%Q
  | PyNone => Err TypeError
  | Val v => Ok v
  end.

Definition add_taxes (total : Decimal) (impuestos : option DocImpuestos.t)
    : result Decimal :=
  match impuestos with
  | Some i =>
      tt ← get_total (DocImpuestos.TotalImpuestosTrasladados i);
      tr ← get_total (DocImpuestos.TotalImpuestosRetenidos i);
      mret (total + tt - tr)%Q
  | None => mret total
  end.

Definition with_Sello (c : Comprobante.t) (sello : string) : Comprobante.t :=
  {| Comprobante.Version := Comprobante.Version c;
     Comprobante.Fecha := Comprobante.Fecha c;
     Comprobante.NoCertificado := Comprobante.NoCertificado c;
     Comprobante.Certificado := Comprobante.Certificado c;
     Comprobante.Sello := sello;
     Comprobante.SubTotal := Comprobante.SubTotal c;
     Comprobante.Moneda := Comprobante.Moneda c;
     Comprobante.Total := Comprobante.Total c;
     Comprobante.TipoDeComprobante := Comprobante.TipoDeComprobante c;
     Comprobante.Exportacion := Comprobante.Exportacion c;
     Comprobante.LugarExpedicion := Comprobante.LugarExpedicion c;
     Comprobante.Serie := Comprobante.Serie c;
     Comprobante.Folio := Comprobante.Folio c;
     Comprobante.FormaPago := Comprobante.FormaPago c;
     Comprobante.CondicionesDePago := Comprobante.CondicionesDePago c;
     Comprobante.Descuento := Comprobante.Descuento c;
     Comprobante.TipoCambio := Comprobante.TipoCambio c;
     Comprobante.MetodoPago := Comprobante.MetodoPago c;
     Comprobante.Confirmacion := Comprobante.Confirmacion c;
     Comprobante.InformacionGlobal := Comprobante.InformacionGlobal c;
     Comprobante.CfdiRelacionados := Comprobante.CfdiRelacionados c;
     Comprobante.Emisor := Comprobante.Emisor c;
     Comprobante.Receptor := Comprobante.Receptor c;
     Comprobante.Conceptos := Comprobante.Conceptos c;
     Comprobante.Impuestos := Comprobante.Impuestos c;
     Comprobante.Complemento := Comprobante.Complemento c;
     Comprobante.Addenda := Comprobante.Addenda c |}.

(** [Comprobante.__init__] *)
Definition Comprobante_init (emisor : Issuer.t) (lugar_expedicion : string)
    (receptor : Receptor.t) (conceptos : list Concepto.t)
    (moneda tipo_de_comprobante exportacion : string)
    (serie folio forma_pago condiciones_de_pago : option string)
    (tipo_cambio : option Decimal) (metodo_pago confirmacion : option string)
    (informacion_global : option Node) (cfdi_relacionados : list Node)
    (complemento addenda : option Node) (fecha : option datetime)
    : result Comprobante.t :=
  rnd_fn ← call (rounder moneda);
  conceptos ← mapM (process_concepto rnd_fn) conceptos;
  importes ← mapM Importe_of conceptos;
  let sub_total := py_sum importes in
  let descuento := py_sum ((fun c => or_zero (Concepto.Descuento c)) <$> conceptos) in
  impuestos ← call (make_impuestos conceptos);
  total ← add_taxes (sub_total - descuento)%Q impuestos;
  let cfdi :=
    {| Comprobante.Version := "4.0";
       Comprobante.Fecha := default (now lugar_expedicion) fecha;
       Comprobante.NoCertificado := Issuer.certificate_number emisor;
       Comprobante.Certificado :=
         match Issuer.signer emisor with
         | Some s => Signer.certificate_base64 s
         | None => ""
         end;
       Comprobante.Sello := "";
       Comprobante.SubTotal := sub_total;
       Comprobante.Moneda := moneda;
       Comprobante.Total := total;
       Comprobante.TipoDeComprobante := tipo_de_comprobante;
       Comprobante.Exportacion := exportacion;
       Comprobante.LugarExpedicion := lugar_expedicion;
       Comprobante.Serie := serie;
       Comprobante.Folio := folio;
       Comprobante.FormaPago := forma_pago;
       Comprobante.CondicionesDePago := condiciones_de_pago;
       Comprobante.Descuento := or_None descuento;
       Comprobante.TipoCambio := tipo_cambio;
       Comprobante.MetodoPago := metodo_pago;
       Comprobante.Confirmacion := confirmacion;
       Comprobante.InformacionGlobal := informacion_global;
       Comprobante.CfdiRelacionados := cfdi_relacionados;
       Comprobante.Emisor :=
         {| Emisor.Rfc := Issuer.rfc emisor;
            Emisor.Nombre := Issuer.legal_name emisor;
            Emisor.RegimenFiscal := Issuer.tax_system emisor |};
       Comprobante.Receptor := receptor;
       Comprobante.Conceptos := conceptos;
       Comprobante.Impuestos := impuestos;
       Comprobante.Complemento := complemento;
       Comprobante.Addenda := addenda |} in
  match Issuer.signer emisor with
  | Some s =>
      cadena ← call (cadena_original cfdi);
      sello ← call (Signer.sign_sha256 s cadena);
      mret (with_Sello cfdi sello)
  | None => mret cfdi
  end.

End Constructor.

(** The tax records of one side ([Traslados] or [Retenciones]) of a concept
    that has been through the constructor. *)
Definition records_of (sel : ConceptoImpuestos.t -> list tax_item)
    (c : Concepto.t) : list Impuesto.t :=
  match Concepto.Impuestos c with
  | Val d => omap (fun x => match x with Obj i => Some i | _ => None end) (sel d)
  | _ => []
  end.

(** ** Payment documents *)

(** A comprobante handed to [pago_comprobante] / [pago_comprobantes]: a CFDI
    read back from XML or built earlier.  Only the entries the two methods
    read are kept. *)
Module CFDI.
Record t := mk {
  Moneda : string;
  Emisor : Emisor.t;
  Receptor : Receptor.t;
  Complemento : field (field (field string));
  Serie : field string;
  Folio : field string;
  MetodoPago : field string;
  Total : Decimal;
  has_Impuestos : bool;
  Conceptos : list Concepto.t
}.
End CFDI.

Module DoctoRelacionado.
Record t := mk {
  IdDocumento : option string;
  Serie : option string;
  Folio : option string;
  MonedaDR : string;
  EquivalenciaDR : Decimal;
  MetodoDePagoDR : option string;
  NumParcialidad : Z;
  ImpSaldoAnt : Decimal;
  ImpPagado : Decimal;
  ObjetoImpDR : string;
  ImpuestosDR : option ImpuestosDR.t
}.
End DoctoRelacionado.

Module Pago.
Record t := mk {
  DoctoRelacionado : list DoctoRelacionado.t;
  FechaPago : datetime;
  FormaDePagoP : string;
  MonedaP : string;
  TipoCambioP : option Decimal
}.
End Pago.

(** [from . import pago20]: the class of the payment complement. *)
Class Pago20Module := {
  Pagos : list Pago.t -> outcome Node;
  Pagos_version : string
}.

Section Payments.
Context `{DecimalModule} `{ComputeModule} `{CfdiModule} `{Pago20Module}.

(** Subscripting the value of an entry: [None[k]] is a [TypeError]. *)
Definition item {A} (k : string) (d : option (field A)) : result (option A) :=
  match d with
  | Some f => subscript k f
  | None => Err TypeError
  end.

(** [c["Complemento"]["TimbreFiscalDigital"]["UUID"]] *)
Definition UUID_of (c : CFDI.t) : result (option string) :=
  complemento ← subscript "Complemento" (CFDI.Complemento c);
  timbre ← item "TimbreFiscalDigital" complemento;
  item "UUID" timbre.

Definition with_UsoCFDI (r : Receptor.t) (uso : string) : Receptor.t :=
  {| Receptor.Rfc := Receptor.Rfc r;
     Receptor.Nombre := Receptor.Nombre r;
     Receptor.DomicilioFiscalReceptor := Receptor.DomicilioFiscalReceptor r;
     Receptor.RegimenFiscalReceptor := Receptor.RegimenFiscalReceptor r;
     Receptor.UsoCFDI := uso;
     Receptor.ResidenciaFiscal := Receptor.ResidenciaFiscal r;
     Receptor.NumRegIdTrib := Receptor.NumRegIdTrib r |}.

(** [Comprobante.pago] ([cls.version] is ['4.0']). *)
Definition Comprobante_pago (emisor : Issuer.t) (lugar_expedicion : string)
    (receptor : Receptor.t) (complemento_pago : Node)
    (cfdi_relacionados : list Node) (confirmacion serie folio : option string)
    (addenda : option Node) (fecha : option datetime) : result Comprobante.t :=
  Comprobante_init emisor lugar_expedicion (with_UsoCFDI receptor "CP01")
    [Concepto_init "84111506" 1%Q "ACT" "Pago" 0%Q (Some "01") None None None
       [] [] false]
    "XXX" "P" "01" serie folio None None None None confirmacion None
    cfdi_relacionados (Some complemento_pago) addenda fecha.

(** The adjustment of [tipo_cambio] (rule CRP204). *)
Definition adjust_tipo_cambio (moneda : string) (tipo_cambio : option Decimal)
    : option Decimal :=
  if String.eqb Pagos_version "1.0" then
    match tipo_cambio with
    | Some t => if String.eqb moneda "MXN" && Qeq_bool t 1 then None else Some t
    | None => None
    end
  else
    match tipo_cambio with
    | None => if String.eqb moneda "MXN" then Some 1%Q else None
    | Some t => Some t
    end.

Definition msg_moneda_pago : string :=
  "Moneda de comprobante es diferente de Moneda de Pago".

(** The entry of ['DoctoRelacionado'] that [pago_comprobante] builds. *)
Definition docto_parcial (c : CFDI.t) (num_parcialidad : Z)
    (imp_saldo_ant imp_pagado : Decimal) : result DoctoRelacionado.t :=
  uuid ← UUID_of c;
  metodo ← subscript "MetodoPago" (CFDI.MetodoPago c);
  impuestos_dr ←
    (if CFDI.has_Impuestos c then
       rnd_fn ← call (rounder (CFDI.Moneda c));
       call (make_impuestos_dr_parcial (CFDI.Conceptos c) imp_saldo_ant
               imp_pagado (CFDI.Total c) rnd_fn)
     else mret None);
  mret {| DoctoRelacionado.IdDocumento := uuid;
          DoctoRelacionado.Serie := get (CFDI.Serie c);
          DoctoRelacionado.Folio := get (CFDI.Folio c);
          DoctoRelacionado.MonedaDR := CFDI.Moneda c;
          DoctoRelacionado.EquivalenciaDR := 1%Q;
          DoctoRelacionado.MetodoDePagoDR := metodo;
          DoctoRelacionado.NumParcialidad := num_parcialidad;
          DoctoRelacionado.ImpSaldoAnt := imp_saldo_ant;
          DoctoRelacionado.ImpPagado := imp_pagado;
          DoctoRelacionado.ObjetoImpDR :=
            if CFDI.has_Impuestos c then "02" else "01";
          DoctoRelacionado.ImpuestosDR := impuestos_dr |}.

(** [Comprobante.pago_comprobante] *)
Definition pago_comprobante (emisor : Issuer.t) (lugar_expedicion : string)
    (comprobante : CFDI.t) (num_parcialidad : Z)
    (imp_saldo_ant imp_pagado : Decimal) (fecha_pago : datetime)
    (forma_pago : string) (tipo_cambio : option Decimal)
    (cfdi_relacionados : list Node) (confirmacion serie folio : option string)
    (addenda : option Node) (fecha : option datetime) : result Comprobante.t :=
  let moneda := CFDI.Moneda comprobante in
  let receptor := CFDI.Receptor comprobante in
  let tipo_cambio := adjust_tipo_cambio moneda tipo_cambio in
  let c := comprobante in
  if negb (String.eqb (CFDI.Moneda c) moneda)
  then Err (ValueError msg_moneda_pago)
  else
    docto ← docto_parcial c num_parcialidad imp_saldo_ant imp_pagado;
    complemento ← call (Pagos
      [ {| Pago.DoctoRelacionado := [docto];
           Pago.FechaPago := fecha_pago;
           Pago.FormaDePagoP := forma_pago;
           Pago.MonedaP := moneda;
           Pago.TipoCambioP := tipo_cambio |} ]);
    Comprobante_pago emisor lugar_expedicion receptor complemento
      cfdi_relacionados confirmacion serie folio addenda fecha.

(** The condition under [all(...)] in [pago_comprobantes]. *)
Definition agrees (moneda : string) (emisor : Issuer.t) (receptor : Receptor.t)
    (c : CFDI.t) : bool :=
  String.eqb (CFDI.Moneda c) moneda
  && String.eqb (Emisor.Rfc (CFDI.Emisor c)) (Issuer.rfc emisor)
  && String.eqb (Emisor.RegimenFiscal (CFDI.Emisor c)) (Issuer.tax_system emisor)
  && String.eqb (Receptor.Rfc (CFDI.Receptor c)) (Receptor.Rfc receptor)
  && bool_decide (Receptor.RegimenFiscalReceptor (CFDI.Receptor c)
                  = Receptor.RegimenFiscalReceptor receptor).

(** The same condition in words: what makes a comprobante disagree with
    the first one's currency and receiver, or with the paying issuer. *)
Definition differs (moneda : string) (emisor : Issuer.t) (receptor : Receptor.t)
    (c : CFDI.t) : Prop :=
  CFDI.Moneda c <> moneda
  \/ Emisor.Rfc (CFDI.Emisor c) <> Issuer.rfc emisor
  \/ Emisor.RegimenFiscal (CFDI.Emisor c) <> Issuer.tax_system emisor
  \/ Receptor.Rfc (CFDI.Receptor c) <> Receptor.Rfc receptor
  \/ Receptor.RegimenFiscalReceptor (CFDI.Receptor c)
     <> Receptor.RegimenFiscalReceptor receptor.

Definition msg_mismatch : string :=
  "CFDIS are of different RFC's Emisor/Receptor o Moneda".

(** The entry of ['DoctoRelacionado'] that [pago_comprobantes] builds for
    one comprobante. *)
Definition docto_total (c : CFDI.t) : result DoctoRelacionado.t :=
  uuid ← UUID_of c;
  metodo ← subscript "MetodoPago" (CFDI.MetodoPago c);
  impuestos_dr ←
    (if CFDI.has_Impuestos c then call (make_impuestos_dr (CFDI.Conceptos c))
     else mret None);
  mret {| DoctoRelacionado.IdDocumento := uuid;
          DoctoRelacionado.Serie := get (CFDI.Serie c);
          DoctoRelacionado.Folio := get (CFDI.Folio c);
          DoctoRelacionado.MonedaDR := CFDI.Moneda c;
          DoctoRelacionado.EquivalenciaDR := 1%Q;
          DoctoRelacionado.MetodoDePagoDR := metodo;
          DoctoRelacionado.NumParcialidad := 1%Z;
          DoctoRelacionado.ImpSaldoAnt := CFDI.Total c;
          DoctoRelacionado.ImpPagado := CFDI.Total c;
          DoctoRelacionado.ObjetoImpDR :=
            if CFDI.has_Impuestos c then "02" else "01";
          DoctoRelacionado.ImpuestosDR := impuestos_dr |}.

(** [Comprobante.pago_comprobantes] *)
Definition pago_comprobantes (emisor : Issuer.t) (lugar_expedicion : string)
    (comprobantes : list CFDI.t) (fecha_pago : datetime) (forma_pago : string)
    (tipo_cambio : option Decimal) (cfdi_relacionados : list Node)
    (confirmacion serie folio : option string) (addenda : option Node)
    (fecha : option datetime) : result Comprobante.t :=
  first_cfdi ← index comprobantes 0;
  let moneda := CFDI.Moneda first_cfdi in
  let receptor := CFDI.Receptor first_cfdi in
  let tipo_cambio := adjust_tipo_cambio moneda tipo_cambio in
  if negb (forallb (agrees moneda emisor receptor) comprobantes)
  then Err (ValueError msg_mismatch)
  else
    doctos ← mapM docto_total comprobantes;
    complemento ← call (Pagos
      [ {| Pago.DoctoRelacionado := doctos;
           Pago.FechaPago := fecha_pago;
           Pago.FormaDePagoP := forma_pago;
           Pago.MonedaP := moneda;
           Pago.TipoCambioP := tipo_cambio |} ]);
    Comprobante_pago emisor lugar_expedicion receptor complemento
      cfdi_relacionados confirmacion serie folio addenda fecha.

End Payments.

(** ** Payroll documents *)

(** The payroll complement handed to [nomina]: the three totals the method
    reads with [get], and the complement itself. *)
Module Nomina.
Record t := mk {
  TotalPercepciones : field Decimal;
  TotalOtrosPagos : field Decimal;
  TotalDeducciones : field Decimal;
  nodo : Node
}.
End Nomina.

Section Payroll.
Context `{DecimalModule} `{ComputeModule} `{CfdiModule}.

(** [Comprobante.nomina] ([cls.version] is ['4.0']).  The two [get(key, 0)]
    are added, so a total stored as [None] is a [TypeError]. *)
Definition Comprobante_nomina (emisor : Issuer.t) (lugar_expedicion : string)
    (receptor : Receptor.t) (complemento_nomina : Nomina.t)
    (cfdi_relacionados : list Node) (confirmacion serie folio : option string)
    (addenda : option Node) (fecha : option datetime) : result Comprobante.t :=
  percepciones ← get_total (Nomina.TotalPercepciones complemento_nomina);
  otros_pagos ← get_total (Nomina.TotalOtrosPagos complemento_nomina);
  let concepto :=
    Concepto_init "84111505" 1%Q "ACT" "Pago de nómina"
      (percepciones + otros_pagos)%Q (Some "03") None None
      (get (Nomina.TotalDeducciones complemento_nomina)) [] [] false in
  Comprobante_init emisor lugar_expedicion (with_UsoCFDI receptor "CN01")
    [concepto] "MXN" "N" "01" serie folio (Some "99") None None (Some "PUE")
    confirmacion None cfdi_relacionados
    (Some (Nomina.nodo complemento_nomina)) addenda fecha.

End Payroll.

(** ** Readings of a concept and of a document *)

Section Readings.
Context `{DecimalModule}.

(** The parsed entries of one side of a concept. *)
Definition parsed (sel : ConceptoImpuestos.t -> list tax_item)
    (concepto : Concepto.t) : result (list Impuesto.t) :=
  tax_items sel concepto ≫= mapM as_Impuesto.

End Readings.

(** The value [impuestos.get(key, 0)] contributes to the total. *)
Definition total_or_zero (f : field Decimal) : Decimal :=
  match f with
  | Val v => v
  | _ => 0%Q
  end.

Definition trasladados_of (impuestos : option DocImpuestos.t) : Decimal :=
  match impuestos with
  | Some i => total_or_zero (DocImpuestos.TotalImpuestosTrasladados i)
  | None => 0%Q
  end.

Definition retenidos_of (impuestos : option DocImpuestos.t) : Decimal :=
  match impuestos with
  | Some i => total_or_zero (DocImpuestos.TotalImpuestosRetenidos i)
  | None => 0%Q
  end.

(** The discounts [c.get('Descuento') or 0] of a concept list. *)
Definition descuentos (conceptos : list Concepto.t) : list Decimal :=
  (fun c => or_zero (Concepto.Descuento c)) <$> conceptos.

(** The transferred and the withheld groups of a related document's
    ['ImpuestosDR'] entry, none when the entry is absent. *)
Definition traslados_dr (o : option ImpuestosDR.t) : list ImpuestoDR.t :=
  match o with
  | Some dr => ImpuestosDR.TrasladosDR dr
  | None => []
  end.

Definition retenciones_dr (o : option ImpuestosDR.t) : list ImpuestoDR.t :=
  match o with
  | Some dr => ImpuestosDR.RetencionesDR dr
  | None => []
  end.

(** The price the round-trip law of tax-inclusive concepts recomputes: the
    unit price plus the rate taxes on it and the fees. *)
Definition inclusive_price (unit_price s_tasa s_cuota : Decimal) : Decimal :=
  (unit_price + unit_price * s_tasa + s_cuota)%Q.

(** ** Comprobante.__init__ in the decimal context

    [Comprobante_init] above takes sums, products and quotients at their
    exact value, which is what the code computes as long as no result
    needs more than 28 significant digits.  That holds for sums and
    products of amounts, not for the back-solve of a tax-inclusive price:
    its quotient has as a rule no finite expansion, so the local unit
    price, its product with the quantity and the tax base are what the
    decimal context leaves of them.  The definitions of this module are
    those of the constructor with every arithmetic operation of the source
    taken in the context.  Quantities, prices, discounts and rates are
    decimals; the [int] 0 that an empty [sum] gives and the [int] 1 of
    [s_tasa + 1] are converted exactly. *)

Module InContext.

Section Constructor.
Context `{DecimalModule} `{ComputeModule} `{CfdiModule}.

(** [sum(c["TasaOCuota"] for c in trasladados if c["TipoFactor"] == factor)] *)
Fixpoint sum_TasaOCuota (factor : string) (l : list Impuesto.t)
    (acc : Decimal) : result Decimal :=
  match l with
  | [] => Ok acc
  | c :: l' =>
      if String.eqb (Impuesto.TipoFactor c) factor then
        match Impuesto.TasaOCuota c with
        | Some r => sum_TasaOCuota factor l' (Context.add acc r)
        | None => Err TypeError
        end
      else sum_TasaOCuota factor l' acc
  end.

(** The local [valor_unitario] of the loop body, together with the value
    left in [concepto['ValorUnitario']]:
    [(valor_unitario - s_cuota) / (s_tasa + 1)], a difference, a sum and a
    quotient in the context. *)
Definition unit_price (rnd_fn : Decimal -> Decimal) (concepto : Concepto.t)
    (trasladados : list Impuesto.t) : result (Decimal * Decimal) :=
  if Concepto._traslados_incluidos concepto then
    s_tasa ← sum_TasaOCuota "Tasa" trasladados 0%Q;
    s_cuota ← sum_TasaOCuota "Cuota" trasladados 0%Q;
    if existsb carries_Base_or_Importe trasladados
    then Err (ValueError msg_traslados_incluidos)
    else
      valor_unitario ←
        Context.div (Context.sub (Concepto.ValorUnitario concepto) s_cuota)
                    (Context.add s_tasa 1);
      mret (valor_unitario, rnd_fn valor_unitario)
  else mret (Concepto.ValorUnitario concepto, Concepto.ValorUnitario concepto).

(** The local [importe = concepto["Cantidad"] * valor_unitario]. *)
Definition importe (concepto : Concepto.t) (valor_unitario : Decimal) : Decimal :=
  Context.mul (Concepto.Cantidad concepto) valor_unitario.

(** [base = importe - (concepto.get("Descuento") or 0)] *)
Definition tax_base (concepto : Concepto.t) (valor_unitario : Decimal) : Decimal :=
  Context.sub (importe concepto valor_unitario)
              (or_zero (Concepto.Descuento concepto)).

(** One turn of [for concepto in iterate(conceptos)]. *)
Definition process_concepto (rnd_fn : Decimal -> Decimal)
    (concepto : Concepto.t) : result Concepto.t :=
  ts ← tax_items ConceptoImpuestos.Traslados concepto;
  trasladados ← mapM as_Impuesto ts;
  rs ← tax_items ConceptoImpuestos.Retenciones concepto;
  retenciones ← mapM as_Impuesto rs;
  '(valor_unitario, stored) ← unit_price rnd_fn concepto trasladados;
  let stored_importe := rnd_fn (importe concepto valor_unitario) in
  if not_subject (Concepto.ObjetoImp concepto) then
    mret (set_amounts concepto stored stored_importe
            (Concepto.ObjetoImp concepto) PyNone)
  else
    let base := tax_base concepto valor_unitario in
    ts' ← make_all rnd_fn base trasladados;
    rs' ← make_all rnd_fn base retenciones;
    match ts', rs' with
    | [], [] =>
        mret (set_amounts concepto stored stored_importe (Some "01") PyNone)
    | _, _ =>
        mret (set_amounts concepto stored stored_importe (Some "02")
                (Val {| ConceptoImpuestos.Traslados := Obj <$> ts';
                        ConceptoImpuestos.Retenciones := Obj <$> rs' |}))
    end.

(** [total += impuestos.get(..., 0)] and [total -= impuestos.get(..., 0)] *)
Definition add_taxes (total : Decimal) (impuestos : option DocImpuestos.t)
    : result Decimal :=
  match impuestos with
  | Some i =>
      tt ← get_total (DocImpuestos.TotalImpuestosTrasladados i);
      tr ← get_total (DocImpuestos.TotalImpuestosRetenidos i);
      mret (Context.sub (Context.add total tt) tr)
  | None => mret total
  end.

(** [Comprobante.__init__] *)
Definition Comprobante_init (emisor : Issuer.t) (lugar_expedicion : string)
    (receptor : Receptor.t) (conceptos : list Concepto.t)
    (moneda tipo_de_comprobante exportacion : string)
    (serie folio forma_pago condiciones_de_pago : option string)
    (tipo_cambio : option Decimal) (metodo_pago confirmacion : option string)
    (informacion_global : option Node) (cfdi_relacionados : list Node)
    (complemento addenda : option Node) (fecha : option datetime)
    : result Comprobante.t :=
  rnd_fn ← call (rounder moneda);
  conceptos ← mapM (process_concepto rnd_fn) conceptos;
  importes ← mapM Importe_of conceptos;
  let sub_total := Context.sum importes in
  let descuento := Context.sum (descuentos conceptos) in
  impuestos ← call (make_impuestos conceptos);
  total ← add_taxes (Context.sub sub_total descuento) impuestos;
  let cfdi :=
    {| Comprobante.Version := "4.0";
       Comprobante.Fecha := default (now lugar_expedicion) fecha;
       Comprobante.NoCertificado := Issuer.certificate_number emisor;
       Comprobante.Certificado :=
         match Issuer.signer emisor with
         | Some s => Signer.certificate_base64 s
         | None => ""
         end;
       Comprobante.Sello := "";
       Comprobante.SubTotal := sub_total;
       Comprobante.Moneda := moneda;
       Comprobante.Total := total;
       Comprobante.TipoDeComprobante := tipo_de_comprobante;
       Comprobante.Exportacion := exportacion;
       Comprobante.LugarExpedicion := lugar_expedicion;
       Comprobante.Serie := serie;
       Comprobante.Folio := folio;
       Comprobante.FormaPago := forma_pago;
       Comprobante.CondicionesDePago := condiciones_de_pago;
       Comprobante.Descuento := or_None descuento;
       Comprobante.TipoCambio := tipo_cambio;
       Comprobante.MetodoPago := metodo_pago;
       Comprobante.Confirmacion := confirmacion;
       Comprobante.InformacionGlobal := informacion_global;
       Comprobante.CfdiRelacionados := cfdi_relacionados;
       Comprobante.Emisor :=
         {| Emisor.Rfc := Issuer.rfc emisor;
            Emisor.Nombre := Issuer.legal_name emisor;
            Emisor.RegimenFiscal := Issuer.tax_system emisor |};
       Comprobante.Receptor := receptor;
       Comprobante.Conceptos := conceptos;
       Comprobante.Impuestos := impuestos;
       Comprobante.Complemento := complemento;
       Comprobante.Addenda := addenda |} in
  match Issuer.signer emisor with
  | Some s =>
      cadena ← call (cadena_original cfdi);
      sello ← call (Signer.sign_sha256 s cadena);
      mret (with_Sello cfdi sello)
  | None => mret cfdi
  end.

(** How the loop derives the amounts of a concept [c], leaving [c']: the
    local [valor_unitario] is the given unit price, or for a tax-inclusive
    concept the back-solved price before [rnd_fn] rounds it; the rounded
    back-solved price is what [c'] stores as [ValorUnitario]; and [Importe]
    rounds the product of the quantity and that local value. *)
Definition amounts_of (rnd_fn : Decimal -> Decimal) (c c' : Concepto.t)
    (trasladados : list Impuesto.t) (valor_unitario : Decimal) : Prop :=
  parsed ConceptoImpuestos.Traslados c = Ok trasladados
  /\ Concepto.Importe c'
     = Some (rnd_fn (Context.mul (Concepto.Cantidad c) valor_unitario))
  /\ (Concepto._traslados_incluidos c = false ->
      valor_unitario = Concepto.ValorUnitario c
      /\ Concepto.ValorUnitario c' = Concepto.ValorUnitario c)
  /\ (Concepto._traslados_incluidos c = true ->
      exists s_tasa s_cuota,
        sum_TasaOCuota "Tasa" trasladados 0%Q = Ok s_tasa
        /\ sum_TasaOCuota "Cuota" trasladados 0%Q = Ok s_cuota
        /\ ~ (Context.add s_tasa 1 == 0)%Q
        /\ valor_unitario
           = Context.round
               (Context.sub (Concepto.ValorUnitario c) s_cuota
                / Context.add s_tasa 1)
        /\ Concepto.ValorUnitario c' = rnd_fn valor_unitario).

End Constructor.

End InContext.

(** ** The imported functions, from their specification

    The module [..compute], the decimal constructor, the payment complement
    and the canonical string are not part of this file.  The instances below
    are used wherever a statement is about what those functions compute, and
    to evaluate the methods above on concrete documents. *)

Module Spec.

(** *** Rounding at a currency's precision *)

(** [10 ^ decimals] *)
Definition scale (decimals : nat) : positive :=
  Z.to_pos (10 ^ Z.of_nat decimals).

(** The nearest integer, a tie going away from zero (Python's
    [ROUND_HALF_UP], the commercial rule). *)
Definition nearest (y : Q) : Z :=
  if Qle_bool 0 y then Qfloor (y + (1 # 2)) else (- Qfloor (- y + (1 # 2)))%Z.

(** Modelled from the spec: [rounder]'s result, missing from the sources;
    the spec gives a currency a decimal rounding precision and rounds
    amounts at it.  [quantize decimals x] is the multiple of
    [10 ^ - decimals] nearest to [x]. *)
Definition quantize (decimals : nat) (x : Decimal) : Decimal :=
  nearest (x * inject_Z (Zpos (scale decimals))) # scale decimals.

(** The rounding unit of a currency with [decimals] decimals. *)
Definition unit_of (decimals : nat) : Q := 1 # scale decimals.

(** Modelled from the spec: the currency/rounding table, an external
    configuration that maps a currency code to its precision.  The
    entries are the ISO 4217 minor units of the codes used below. *)
Definition moneda_decimales : gmap string nat :=
  <["MXN" := 2%nat]> (<["USD" := 2%nat]> (<["EUR" := 2%nat]>
    (<["JPY" := 0%nat]> (<["XXX" := 0%nat]> ∅)))).

(** Modelled from the spec: [rounder], missing from the sources; it fails
    with [UnknownCurrency] on a currency absent from the table. *)
Definition rounder (moneda : string) : outcome (Decimal -> Decimal) :=
  match moneda_decimales !! moneda with
  | Some d => Done (quantize d)
  | None => Raised "UnknownCurrency"
  end.

(** *** One tax record *)

(** Modelled from the spec: [make_impuesto], missing from the sources
    ([TaxRecord.compute]): it fills in base and amount by the factor type,
    [amount = round(base * rate)] for a rate, the rounded fee for a fee,
    neither rate nor amount for an exempt record, and fails with
    [AmbiguousTaxBase] when base or amount are already set. *)
Definition make_impuesto (i : Impuesto.t) (base : Decimal)
    (rnd_fn : Decimal -> Decimal) : outcome Impuesto.t :=
  match Impuesto.Base i, Impuesto.Importe i with
  | None, None =>
      if String.eqb (Impuesto.TipoFactor i) "Exento" then
        Done {| Impuesto.Base := Some base;
                Impuesto.Impuesto := Impuesto.Impuesto i;
                Impuesto.TipoFactor := Impuesto.TipoFactor i;
                Impuesto.TasaOCuota := None;
                Impuesto.Importe := None |}
      else
        match Impuesto.TasaOCuota i with
        | Some rate =>
            Done {| Impuesto.Base := Some base;
                    Impuesto.Impuesto := Impuesto.Impuesto i;
                    Impuesto.TipoFactor := Impuesto.TipoFactor i;
                    Impuesto.TasaOCuota := Some rate;
                    Impuesto.Importe :=
                      Some (if String.eqb (Impuesto.TipoFactor i) "Tasa"
                            then rnd_fn (base * rate)%Q
                            else rnd_fn rate) |}
        | None => Raised "MalformedTaxSpec"
        end
  | _, _ => Raised "AmbiguousTaxBase"
  end.

(** *** Groups *)

Definition rate_eqb (a b : option Decimal) : bool :=
  match a, b with
  | Some x, Some y => Qeq_bool x y
  | None, None => true
  | _, _ => false
  end.

(** Two records fall in one group when kind, factor and rate agree, the
    rates compared as exact decimals; exempt records by kind alone. *)
Definition same_group (a b : Impuesto.t) : bool :=
  String.eqb (Impuesto.Impuesto a) (Impuesto.Impuesto b)
  && String.eqb (Impuesto.TipoFactor a) (Impuesto.TipoFactor b)
  && (String.eqb (Impuesto.TipoFactor a) "Exento"
      || rate_eqb (Impuesto.TasaOCuota a) (Impuesto.TasaOCuota b)).

Definition add_opt (a b : option Decimal) : option Decimal :=
  match a, b with
  | Some x, Some y => Some (x + y)%Q
  | Some x, None => Some x
  | None, y => y
  end.

Definition merge (g x : Impuesto.t) : Impuesto.t :=
  {| Impuesto.Base := add_opt (Impuesto.Base g) (Impuesto.Base x);
     Impuesto.Impuesto := Impuesto.Impuesto g;
     Impuesto.TipoFactor := Impuesto.TipoFactor g;
     Impuesto.TasaOCuota := Impuesto.TasaOCuota g;
     Impuesto.Importe := add_opt (Impuesto.Importe g) (Impuesto.Importe x) |}.

Fixpoint add_to_groups (x : Impuesto.t) (groups : list Impuesto.t)
    : list Impuesto.t :=
  match groups with
  | [] => [x]
  | g :: groups' =>
      if same_group g x then merge g x :: groups'
      else g :: add_to_groups x groups'
  end.

Definition group (records : list Impuesto.t) : list Impuesto.t :=
  fold_left (fun groups x => add_to_groups x groups) records [].

Definition groups_of (sel : ConceptoImpuestos.t -> list tax_item)
    (conceptos : list Concepto.t) : list Impuesto.t :=
  group (conceptos ≫= records_of sel).

Definition total_of (groups : list Impuesto.t) : field Decimal :=
  match groups with
  | [] => Missing
  | _ => Val (py_sum ((fun g => or_zero (Impuesto.Importe g)) <$> groups))
  end.

(** Modelled from the spec: [make_impuestos], missing from the sources
    (the document-level aggregation): the concept-level records of the
    whole list grouped by (kind, factor, rate), base and amount summed in
    each group, and the two grand totals as the sums of the group
    amounts. *)
Definition make_impuestos (conceptos : list Concepto.t)
    : outcome (option DocImpuestos.t) :=
  let traslados := groups_of ConceptoImpuestos.Traslados conceptos in
  let retenciones := groups_of ConceptoImpuestos.Retenciones conceptos in
  match traslados, retenciones with
  | [], [] => Done None
  | _, _ =>
      Done (Some {| DocImpuestos.Retenciones := retenciones;
                    DocImpuestos.Traslados := traslados;
                    DocImpuestos.TotalImpuestosRetenidos := total_of retenciones;
                    DocImpuestos.TotalImpuestosTrasladados := total_of traslados |})
  end.

(** *** Taxes of a related document *)

(** The share of [x] that a payment of [paid_now] takes out of [total]. *)
Definition prorate (rnd_fn : Decimal -> Decimal) (paid_now total x : Decimal)
    : Decimal :=
  rnd_fn (x * paid_now / total)%Q.

Definition exento (g : Impuesto.t) : bool :=
  String.eqb (Impuesto.TipoFactor g) "Exento".

Definition as_DR (share : Decimal -> Decimal) (g : Impuesto.t) : ImpuestoDR.t :=
  {| ImpuestoDR.BaseDR := share (or_zero (Impuesto.Base g));
     ImpuestoDR.ImpuestoDR := Impuesto.Impuesto g;
     ImpuestoDR.TipoFactorDR := Impuesto.TipoFactor g;
     ImpuestoDR.TasaOCuotaDR :=
       if exento g then None else Impuesto.TasaOCuota g;
     ImpuestoDR.ImporteDR :=
       if exento g then None else Some (share (or_zero (Impuesto.Importe g))) |}.

Definition impuestos_dr (share : Decimal -> Decimal)
    (conceptos : list Concepto.t) : option ImpuestosDR.t :=
  let traslados := groups_of ConceptoImpuestos.Traslados conceptos in
  let retenciones := groups_of ConceptoImpuestos.Retenciones conceptos in
  match traslados, retenciones with
  | [], [] => None
  | _, _ =>
      Some {| ImpuestosDR.RetencionesDR := as_DR share <$> retenciones;
              ImpuestosDR.TrasladosDR := as_DR share <$> traslados |}
  end.

(** Modelled from the spec: [make_impuestos_dr], missing from the sources:
    the groups of the related document, paid in full. *)
Definition make_impuestos_dr (conceptos : list Concepto.t)
    : outcome (option ImpuestosDR.t) :=
  Done (impuestos_dr (fun x => x) conceptos).

(** Modelled from the spec: [make_impuestos_dr_parcial], missing from the
    sources (partial-payment proration): the groups mirror those of the
    original document, each carries
    [round(group_amount * paid_now / total)] at the rounding of the
    original document, and an exempt group only a prorated base. *)
Definition make_impuestos_dr_parcial (conceptos : list Concepto.t)
    (imp_saldo_ant imp_pagado total : Decimal) (rnd_fn : Decimal -> Decimal)
    : outcome (option ImpuestosDR.t) :=
  if Qeq_bool total 0 then Raised "DivisionByZero"
  else Done (impuestos_dr (prorate rnd_fn imp_pagado total) conceptos).

(** *** The decimal constructor, the clock, the complement *)

Definition digit_of (c : ascii) : option Z :=
  let n := nat_of_ascii c in
  if ((48 <=? n) && (n <=? 57))%nat then Some (Z.of_nat n - 48)%Z else None.

Fixpoint digits (s : string) (acc : Z) : option Z :=
  match s with
  | EmptyString => Some acc
  | String c s' =>
      match digit_of c with
      | Some d => digits s' (10 * acc + d)%Z
      | None => None
      end
  end.

(** An unsigned numeral [digits], [digits.digits], [digits.] or [.digits]. *)
Definition unsigned_of_str (s : string) : option Q :=
  match split "." s with
  | [i] => if String.eqb i "" then None else (fun n => n # 1) <$> digits i 0
  | [i; f] =>
      if String.eqb i "" && String.eqb f "" then None
      else n ← digits (i ++ f) 0; Some (n # scale (String.length f))
  | _ => None
  end.

(** [Decimal(text)] on the plain fixed-point notation the compact tax
    strings use, an optional sign and digits around an optional point.
    The exponent notation and the special values that Python accepts as
    well are not covered: this function refuses them. *)
Definition Decimal_of_str (s : string) : outcome Decimal :=
  let r := match s with
           | String "-" s' => Qopp <$> unsigned_of_str s'
           | String "+" s' => unsigned_of_str s'
           | _ => unsigned_of_str s
           end in
  match r with
  | Some q => Done q
  | None => Raised "decimal.InvalidOperation"
  end.


(** A payment complement that lists the related documents by their
    identifier. *)
Definition Pagos (pago : list Pago.t) : outcome Node :=
  Done (node "pago20:Pagos" [("Version", "2.0")]
    ((fun p => node "pago20:Pago"
         [("FechaPago", Pago.FechaPago p);
          ("FormaDePagoP", Pago.FormaDePagoP p);
          ("MonedaP", Pago.MonedaP p)]
         ((fun d => node "pago20:DoctoRelacionado"
              [("IdDocumento", default "" (DoctoRelacionado.IdDocumento d));
               ("MonedaDR", DoctoRelacionado.MonedaDR d);
               ("ObjetoImpDR", DoctoRelacionado.ObjetoImpDR d)] [])
            <$> Pago.DoctoRelacionado p)) <$> pago)).

Module Instances.

#[export] Instance compute : ComputeModule :=
  Build_ComputeModule rounder make_impuesto make_impuestos make_impuestos_dr
    make_impuestos_dr_parcial.

#[export] Instance decimal : DecimalModule :=
  Build_DecimalModule Decimal_of_str.

(** The canonical string comes from a transform outside this module; the
    documents evaluated below have an issuer without signer, for which
    it is never requested.  The clock is stopped. *)
#[export] Instance cfdi : CfdiModule :=
  Build_CfdiModule (fun _ => Raised "cadena_original")
                   (fun _ => "2020-01-01T22:40:38").

#[export] Instance pago20 : Pago20Module := Build_Pago20Module Pagos "2.0".

End Instances.

End Spec.

(** A record [r] of a related document is the counterpart of the group [g]
    of the original document for a payment of [paid_now] out of [total]:
    same tax and factor, and as amount
    [round(group_amount * paid_now / total)] at [decimals] decimals (none
    for an exempt group). *)
Definition prorated (decimals : nat) (paid_now total : Decimal)
    (g : Impuesto.t) (r : ImpuestoDR.t) : Prop :=
  ImpuestoDR.ImpuestoDR r = Impuesto.Impuesto g
  /\ ImpuestoDR.TipoFactorDR r = Impuesto.TipoFactor g
  /\ ImpuestoDR.ImporteDR r
     = if Spec.exento g then None
       else Some (Spec.quantize decimals
                    (or_zero (Impuesto.Importe g) * paid_now / total)%Q).


(** ** Sample documents *)

Module Ejemplo.

Definition emisor : Issuer.t :=
  Issuer.mk "H&E951128469" "HERRERIA & ELECTRICOS" "606" "30001000000400002460"
    None.

Definition receptor : Receptor.t :=
  Receptor.mk "KIJ0906199R1" "KIJ, S.A DE C.V." (Some "59820") (Some "601")
    "G03" None None.

(** 1.5 tonnes of steel with a transferred and a withheld rate. *)
Definition acero : Concepto.t :=
  Concepto_init "01010101" 1.5%Q "C81" "ACERO" 1500000%Q None (Some "00001")
    (Some "TONELADA") None [Str "IVA|Tasa|0.160000"] [Str "ISR|Tasa|0.100000"]
    false.

(** A service with a discount and no taxes. *)
Definition servicio : Concepto.t :=
  Concepto_init "84111506" 2%Q "E48" "Servicio" 250.25%Q None None None
    (Some 100.50%Q) [] [] false.

(** 100 pieces at 1.00 each, the 16% rate included in the price. *)
Definition incluido : Concepto.t :=
  Concepto_init "01010101" 100%Q "H87" "Pieza" 1.00%Q None None None None
    [Str "IVA|Tasa|0.16"] [] true.

(** Half a unit at 0.31. *)
Definition fraccion : Concepto.t :=
  Concepto_init "01010101" 0.5%Q "H87" "Media pieza" 0.31%Q None None None None
    [Str "IVA|Tasa|0.16"] [] false.

(** A price of 1.08 that includes two rates, 160% and 53%. *)
Definition tabaco : Concepto.t :=
  Concepto_init "50211503" 1%Q "H87" "Cigarros" 1.08%Q None None None None
    [Str "IEPS|Tasa|1.6"; Str "IEPS|Tasa|0.53"] [] true.

(** A tax-inclusive concept whose rate record already carries a base. *)
Definition con_base : Impuesto.t :=
  Impuesto_init "IVA" "Tasa" (Some 0.16%Q) None (Some 100%Q).

Definition ambiguo : Concepto.t :=
  Concepto_init "01010101" 1%Q "H87" "Pieza" 116%Q None None None None
    [Obj con_base] [] true.

(** A stamped invoice with total 1500 whose transferred group amounts to
    360000 and whose withheld group to 247500. *)
Definition factura (uuid : string) : CFDI.t :=
  {| CFDI.Moneda := "MXN";
     CFDI.Emisor := Emisor.mk "H&E951128469" "HERRERIA & ELECTRICOS" "606";
     CFDI.Receptor := receptor;
     CFDI.Complemento := Val (Val (Val uuid));
     CFDI.Serie := Val "A";
     CFDI.Folio := Val "123ABC";
     CFDI.MetodoPago := Val "PPD";
     CFDI.Total := 1500%Q;
     CFDI.has_Impuestos := true;
     CFDI.Conceptos :=
       [ {| Concepto.ClaveProdServ := "01010101";
            Concepto.Cantidad := 1.5%Q;
            Concepto.ClaveUnidad := "C81";
            Concepto.Descripcion := "ACERO";
            Concepto.ValorUnitario := 1500000%Q;
            Concepto.ObjetoImp := Some "02";
            Concepto.NoIdentificacion := Some "00001";
            Concepto.Unidad := Some "TONELADA";
            Concepto.Descuento := None;
            Concepto.Impuestos :=
              Val {| ConceptoImpuestos.Traslados :=
                       [Obj (Impuesto.mk (Some 2250000%Q) "002" "Tasa"
                               (Some 1.600000%Q) (Some 360000%Q))];
                     ConceptoImpuestos.Retenciones :=
                       [Obj (Impuesto.mk (Some 2250000%Q) "001" "Tasa"
                               (Some 0.300000%Q) (Some 247500%Q))] |};
            Concepto._traslados_incluidos := false;
            Concepto.Importe := Some 2250000%Q |} ] |}.

(** A comprobante read back from XML that has neither a stamp nor a
    [MetodoPago] (the shape of [tests/test_cfdi/comprobante40/cfdv40-ieeh]). *)
Definition sin_timbre : CFDI.t :=
  {| CFDI.Moneda := "XXX";
     CFDI.Emisor := Emisor.mk "H&E951128469" "HERRERIA & ELECTRICOS" "606";
     CFDI.Receptor := receptor;
     CFDI.Complemento := Val Missing;
     CFDI.Serie := Missing;
     CFDI.Folio := Missing;
     CFDI.MetodoPago := Missing;
     CFDI.Total := 0%Q;
     CFDI.has_Impuestos := false;
     CFDI.Conceptos :=
       [Concepto_init "84111506" 1%Q "ACT" "Descripcion" 0%Q (Some "01")
          None None None [] [] false] |}.

(** An income comprobante in pesos over the given concepts. *)
Definition comprobante `{DecimalModule} `{ComputeModule} `{CfdiModule}
    (conceptos : list Concepto.t) : result Comprobante.t :=
  Comprobante_init emisor "56820" receptor conceptos "MXN" "I" "01" None None
    None None None None None None [] None None None.

(** The payment of the given instalment of an invoice. *)
Definition parcialidad `{DecimalModule} `{ComputeModule} `{CfdiModule}
    `{Pago20Module} (c : CFDI.t) (imp_saldo_ant imp_pagado : Decimal)
    : result Comprobante.t :=
  pago_comprobante emisor "56820" c 1 imp_saldo_ant imp_pagado
    "2020-01-02T22:40:38" "03" None [] None None None None None.

(** The payment in full of the given comprobantes. *)
Definition pago_total `{DecimalModule} `{ComputeModule} `{CfdiModule}
    `{Pago20Module} (comprobantes : list CFDI.t) : result Comprobante.t :=
  pago_comprobantes emisor "56820" comprobantes "2020-01-02T22:40:38" "03" None
    [] None None None None None.

End Ejemplo.


(** * satcfdi.portal : sessions on the tax authority's portals

    The methods talk to a web server through [requests.Session].  A method
    is a function of the session: it returns a value or raises, and leaves a
    session behind in either case.  The transport, the clock, the source of
    random identifiers and the helpers of [.utils] are the methods of
    [PortalModule].  The session records, besides the two attributes the
    class keeps, every request handed to the transport, in order.  The
    [assert] statements are taken as enabled. *)

Module Portal.

(** A parsed JSON value ([res.json()]); a number by its exact value. *)
#[warnings="-register-all"]
Inductive Json : Type :=
| JNull
| JBool (b : bool)
| JNum (q : Q)
| JStr (s : string)
| JArr (l : list Json)
| JObj (members : list (string * Json)).

(** A value of a query parameter. *)
Inductive value : Type :=
| VStr (s : string)
| VBool (b : bool)
| VInt (n : Z).

Record Request := mkRequest {
  method : string;
  url : string;
  headers : list (string * option string);
  data : option (list (string * string));
  params : option (list (string * value));
  allow_redirects : bool
}.

(** A response: its status, the URL of the request that produced it
    ([res.request.url]) and its body. *)
Record Response := mkResponse {
  status_code : Z;
  request_url : string;
  content : string
}.

Inductive failure : Type :=
| Py (e : error)
| AssertionError
| ResponseError (res : Response)
| ResponseErrorOf (body : Json).

Inductive answer (A : Type) : Type :=
| Returns (a : A)
| Raises (f : failure).

Arguments Returns {A} a.
Arguments Raises {A} f.

Definition lift {A} (r : result A) : answer A :=
  match r with
  | Ok a => Returns a
  | Err e => Raises (Py e)
  end.

(** [from .utils import ...], [requests.Session.request], [time],
    [json.loads], [str.upper] and the signer's part in the login. *)
Class PortalModule := {
  World : Type;
  Signer : Type;
  send : Request -> World -> result Response * World;
  random_ajax_id : World -> string * World;
  time_ms : World -> Z * World;
  get_form : Response -> option string -> result (string * list (string * string));
  request_ref_headers : string -> list (string * option string);
  request_verification_token : Response -> result (option string);
  generate_token : Signer -> string -> World -> result string * World;
  fert : Signer -> result string;
  json : Response -> result Json;
  json_loads : Json -> result Json;
  upper : string -> string
}.

Section Sessions.
Context `{PortalModule}.

Record Session := mkSession {
  signer : Signer;
  _request_verification_token : option string;
  _ajax_id : string;
  sent : list Request;
  world : World
}.

Definition M (A : Type) : Type := Session -> answer A * Session.

Definition ret {A} (a : A) : M A := fun s => (Returns a, s).

Definition raise {A} (f : failure) : M A := fun s => (Raises f, s).

Definition bind {A B} (m : M A) (k : A -> M B) : M B :=
  fun s => match m s with
           | (Returns a, s') => k a s'
           | (Raises f, s') => (Raises f, s')
           end.

Definition pure {A} (r : result A) : M A := fun s => (lift r, s).

(** [self.request(...)]: the request goes to the transport and is
    recorded, whether the transport answers or raises. *)
Definition request (r : Request) : M Response :=
  fun s =>
    let (res, w) := send r (world s) in
    (lift res,
     {| signer := signer s;
        _request_verification_token := _request_verification_token s;
        _ajax_id := _ajax_id s;
        sent := sent s ++ [r];
        world := w |}).

(** A call that only draws on the world (random identifier, clock). *)
Definition draw {A} (f : World -> A * World) : M A :=
  fun s =>
    let (a, w) := f (world s) in
    (Returns a,
     {| signer := signer s;
        _request_verification_token := _request_verification_token s;
        _ajax_id := _ajax_id s;
        sent := sent s;
        world := w |}).

Definition draw_result {A} (f : World -> result A * World) : M A :=
  fun s =>
    let (a, w) := f (world s) in
    (lift a,
     {| signer := signer s;
        _request_verification_token := _request_verification_token s;
        _ajax_id := _ajax_id s;
        sent := sent s;
        world := w |}).

Definition read {A} (f : Session -> A) : M A := fun s => (Returns (f s), s).

Definition set_token (t : option string) : M unit :=
  fun s =>
    (Returns tt,
     {| signer := signer s;
        _request_verification_token := t;
        _ajax_id := _ajax_id s;
        sent := sent s;
        world := world s |}).

Definition set_ajax_id (a : string) : M unit :=
  fun s =>
    (Returns tt,
     {| signer := signer s;
        _request_verification_token := _request_verification_token s;
        _ajax_id := a;
        sent := sent s;
        world := world s |}).

(** [assert cond] *)
Definition assert_ (cond : bool) : M unit :=
  if cond then ret tt else raise AssertionError.

Notation "'let*' x ':=' m 'in' k" := (bind m (fun x => k))
  (at level 10, x pattern, m at level 100, k at level 200, only parsing).

(** ** Dicts and strings *)

(** [d[k]] on a dict of strings. *)
Fixpoint dict_get (d : list (string * string)) (k : string) : result string :=
  match d with
  | [] => Err (KeyError k)
  | (k', v) :: d' => if String.eqb k' k then Ok v else dict_get d' k
  end.

(** [d[k] = v]: an existing key keeps its place, a new one goes last. *)
Fixpoint dict_set (d : list (string * string)) (k v : string)
    : list (string * string) :=
  match d with
  | [] => [(k, v)]
  | (k', v') :: d' =>
      if String.eqb k' k then (k, v) :: d' else (k', v') :: dict_set d' k v
  end.

(** [d1 | d2] *)
Definition dict_or (d1 d2 : list (string * string)) : list (string * string) :=
  fold_left (fun d kv => dict_set d (fst kv) (snd kv)) d2 d1.

(** [sub in s] *)
Fixpoint contains_str (sub s : string) : bool :=
  String.prefix sub s
  || match s with
     | EmptyString => false
     | String _ s' => contains_str sub s'
     end.

(** [s.replace(old, new)] for a non-empty [old]: every occurrence, from
    the left, without overlap.  [skip] counts the characters of a matched
    occurrence still to be passed over. *)
Fixpoint replace_from (old new : string) (skip : nat) (s : string) : string :=
  match s with
  | EmptyString => EmptyString
  | String c s' =>
      match skip with
      | S k => replace_from old new k s'
      | O =>
          if String.prefix old s
          then new ++ replace_from old new (String.length old - 1) s'
          else String c (replace_from old new 0 s')
      end
  end.

Definition replace (old new s : string) : string := replace_from old new 0 s.

(** [body[k]] on a parsed JSON value: the last member of that name of an
    object; anything else cannot be subscripted by a string. *)
Fixpoint member (members : list (string * Json)) (k : string) : option Json :=
  match members with
  | [] => None
  | (k', v) :: rest =>
      match member rest k with
      | Some later => Some later
      | None => if String.eqb k' k then Some v else None
      end
  end.

Definition json_get (body : Json) (k : string) : result Json :=
  match body with
  | JObj members =>
      match member members k with
      | Some v => Ok v
      | None => Err (KeyError k)
      end
  | _ => Err TypeError
  end.

(** The truth value of a parsed JSON value. *)
Definition truthy (v : Json) : bool :=
  match v with
  | JNull => false
  | JBool b => b
  | JNum q => negb (Qeq_bool q 0)
  | JStr s => negb (String.eqb s "")
  | JArr l => match l with [] => false | _ => true end
  | JObj l => match l with [] => false | _ => true end
  end.

(** ** PortalManager *)

Definition GET (u : string) (h : list (string * option string))
    (redirects : bool) : Request :=
  {| method := "GET"; url := u; headers := h; data := None; params := None;
     allow_redirects := redirects |}.

Definition POST (u : string) (h : list (string * option string))
    (d : option (list (string * string))) (redirects : bool) : Request :=
  {| method := "POST"; url := u; headers := h; data := d; params := None;
     allow_redirects := redirects |}.

(** [PortalManager.form] *)
Definition form (action referer_url : string) (d : list (string * string))
    : M Response :=
  let* res := request (POST action (request_ref_headers referer_url) (Some d) true) in
  let* _ := assert_ (status_code res =? 200)%Z in
  ret res.

(** [PortalManager.fiel_login] *)
Definition fiel_login (login_response : Response) : M Response :=
  let* (action, d) := pure (get_form login_response (Some "certform")) in
  let* guid := pure (dict_get d "guid") in
  let* s := read signer in
  let* token := draw_result (generate_token s guid) in
  let* f := pure (fert s) in
  form action (request_url login_response)
    (dict_or d [("token", token); ("fert", f)]).

(** ** SATPortal *)

Definition SATPortal_BASE_URL : string := "https://loginda.siat.sat.gob.mx".

(** [SATPortal.login] *)
Definition SATPortal_login : M Response :=
  let* res := request (GET (SATPortal_BASE_URL ++ "/nidp/app/login?id=fiel") [] true) in
  let* _ := assert_ (status_code res =? 200)%Z in
  let* (action, d) := pure (get_form res None) in
  let* posted := form action (request_url res) d in
  fiel_login posted.

(** [SATPortal.home_page] *)
Definition SATPortal_home_page : M Response :=
  request (GET (SATPortal_BASE_URL ++ "/nidp/app?sid=0") [] true).

(** [SATPortal.logout] *)
Definition SATPortal_logout : M Response :=
  request (GET (SATPortal_BASE_URL ++ "/nidp/app/logout")
             [("referer", Some (SATPortal_BASE_URL ++ "/nidp/app?sid=0"))] false).

(** [SATPortal.declaraciones_provisionales_login] *)
Definition declaraciones_provisionales_login : M Response :=
  let* res := request (GET "https://ptscdecprov.clouda.sat.gob.mx" [] true) in
  let* _ := assert_ (status_code res =? 200)%Z in
  let* (action, d) := pure (get_form res None) in
  form action (request_url res) d.

(** ** SATFacturaElectronica *)

Definition BASE_URL : string := "https://portal.facturaelectronica.sat.gob.mx".

Definition REQUEST_CONTEXT : string :=
  "appId=cid-v1:20ff76f4-0bca-495f-b7fd-09ca520e39f7".

(** [SATFacturaElectronica.__init__] *)
Definition new_session (sg : Signer) (w : World) : Session :=
  let (a, w') := random_ajax_id w in
  {| signer := sg;
     _request_verification_token := None;
     _ajax_id := a;
     sent := [];
     world := w' |}.

(** [get_form(res)] under [try ... except IndexError]. *)
Definition login_form (res : Response)
    : M (string * list (string * string)) :=
  match get_form res None with
  | Err IndexError =>
      raise (Py (ValueError "Login form not found, please try again"))
  | r => pure r
  end.

(** [SATFacturaElectronica.login] *)
Definition login : M Response :=
  let* res := request (GET BASE_URL [] true) in
  let* _ := assert_ (status_code res =? 200)%Z in
  let* (action, d) := login_form res in
  let* (res, action, d) :=
    (if String.prefix "https://cfdiau.sat.gob.mx/" action then
       let* _ := assert_ (contains_str "nidp/wsfed/ep?id=SATUPCFDiCon" action) in
       let* posted :=
         form (replace "nidp/wsfed/ep?id=SATUPCFDiCon"
                       "nidp/app/login?id=SATx509Custom" action)
              (request_url res) d in
       let* res := fiel_login posted in
       let* (action, d) := pure (get_form res None) in
       let* res := form action (request_url res) d in
       let* (action, d) := pure (get_form res None) in
       ret (res, action, d)
     else ret (res, action, d)) in
  let* res := form action (request_url res) d in
  let* t := pure (request_verification_token res) in
  let* _ := set_token t in
  let* a := draw random_ajax_id in
  let* _ := set_ajax_id a in
  ret res.

(** [SATFacturaElectronica._reload_verification_token] *)
Definition _reload_verification_token : M unit :=
  let* res := request (GET (BASE_URL ++ "/Factura/GeneraFactura") [] false) in
  if (status_code res =? 200)%Z then
    let* t := pure (request_verification_token res) in
    set_token t
  else raise (Py (ValueError "Please Login Again")).

(** The value of ['Request-Id']: [f'|{self._ajax_id}.{random_ajax_id()}'] *)
Definition request_id : M string :=
  let* a := read _ajax_id in
  let* r := draw random_ajax_id in
  ret ("|" ++ a ++ "." ++ r).

(** [SATFacturaElectronica.reactivate_session] *)
Definition reactivate_session : M Response :=
  let* rid := request_id in
  request (POST (BASE_URL ++ "/Home/ReActiveSession")
             [("Origin", Some BASE_URL);
              ("Request-Context", Some REQUEST_CONTEXT);
              ("Request-Id", Some rid)] None false).

(** [SATFacturaElectronica._request] *)
Definition _request (meth path : string) (d : option (list (string * string)))
    (p : option (list (string * value))) : M Json :=
  let* cached := read _request_verification_token in
  let* _ := (match cached with
             | None => _reload_verification_token
             | Some _ => ret tt
             end) in
  let* token := read _request_verification_token in
  let* rid := request_id in
  let* res :=
    request {| method := meth;
               url := BASE_URL ++ "/" ++ path;
               headers := [("Origin", Some BASE_URL);
                           ("Authority", Some BASE_URL);
                           ("Request-Context", Some REQUEST_CONTEXT);
                           ("__RequestVerificationToken", token);
                           ("Request-Id", Some rid)];
               data := d;
               params := p;
               allow_redirects := false |} in
  if (status_code res =? 200)%Z then pure (json res)
  else raise (ResponseError res).

(** The request [_reload_verification_token] sends. *)
Definition reload_request : Request :=
  GET (BASE_URL ++ "/Factura/GeneraFactura") [] false.

(** A request carries the verification token [t]. *)
Definition token_header (t : option string) (r : Request) : Prop :=
  In ("__RequestVerificationToken", t) (headers r).

(** A request of [_request] for the given method, path, form data and
    query parameters. *)
Definition api_request (meth path : string)
    (d : option (list (string * string))) (p : option (list (string * value)))
    (r : Request) : Prop :=
  method r = meth /\ url r = BASE_URL ++ "/" ++ path /\ data r = d
  /\ params r = p /\ allow_redirects r = false.

(** A request as [form] makes it: a POST of form data that follows
    redirects. *)
Definition posts_form (r : Request) : Prop :=
  method r = "POST" /\ allow_redirects r = true /\ data r <> None
  /\ params r = None.

(** The tail of [legal_name_valid] and [rfc_valid]. *)
Definition resultado (body : Json) : M Json :=
  let* exitoso := pure (json_get body "exitoso") in
  if truthy exitoso then pure (json_get body "resultado")
  else raise (ResponseErrorOf body).

(** [SATFacturaElectronica.legal_name_valid] *)
Definition legal_name_valid (rfc legal_name : string) : M Json :=
  let* body := _request "POST" "Clientes/ValidaRazonSocialRFC"
                 (Some [("rfcValidar", upper rfc);
                        ("razonSocial", upper legal_name)]) None in
  resultado body.

(** [SATFacturaElectronica.rfc_valid] *)
Definition rfc_valid (rfc : string) : M Json :=
  let* body := _request "POST" "Clientes/ExisteLrfc"
                 (Some [("rfcValidar", upper rfc)]) None in
  resultado body.

(** [SATFacturaElectronica.lco_details] *)
Definition lco_details (rfc : string) (apply_border_region : bool) : M Json :=
  let* now := draw time_ms in
  let* body := _request "GET" "Clientes/ValidaLco" None
                 (Some [("rfcValidar", VStr (upper rfc));
                        ("aplicaRegionFronteriza", VBool apply_border_region);
                        ("_", VInt now)]) in
  pure (json_loads body).

End Sessions.

End Portal.

(** A transport that plays back a list of answers, for running the portal
    methods on examples: each request takes the next answer, the form of a
    response is read off its body (the body is the [action], the only
    field is a [guid]; an empty body has no form), and the verification
    token is the body. *)
Module Guion.

Definition send (r : Portal.Request) (w : list (result Portal.Response))
    : result Portal.Response * list (result Portal.Response) :=
  match w with
  | [] => (Err (ImportedError "requests"), [])
  | x :: w' => (x, w')
  end.

Definition get_form (res : Portal.Response) (id : option string)
    : result (string * list (string * string)) :=
  if String.eqb (Portal.content res) "" then Err IndexError
  else Ok (Portal.content res, [("guid", "0")]).

(** The body ["si"] stands for a successful answer, any other non-empty
    body for an unsuccessful one, the empty body for none. *)
Definition json (res : Portal.Response) : result Portal.Json :=
  if String.eqb (Portal.content res) "" then Err (ValueError "Expecting value")
  else Ok (Portal.JObj
             [("exitoso", Portal.JBool (String.eqb (Portal.content res) "si"));
              ("resultado", Portal.JStr (Portal.content res))]).

Definition portal : Portal.PortalModule :=
  {| Portal.World := list (result Portal.Response);
     Portal.Signer := unit;
     Portal.send := send;
     Portal.random_ajax_id := fun w => ("pR4Px", w);
     Portal.time_ms := fun w => (0%Z, w);
     Portal.get_form := get_form;
     Portal.request_ref_headers := fun u => [("referer", Some u)];
     Portal.request_verification_token := fun res => Ok (Some (Portal.content res));
     Portal.generate_token := fun _ guid w => (Ok guid, w);
     Portal.fert := fun _ => Ok "250101000000Z";
     Portal.json := json;
     Portal.json_loads := fun j => Ok j;
     Portal.upper := fun x => x |}.

(** A fresh session whose transport will give the answers [w]. *)
Definition session (w : list (result Portal.Response)) : @Portal.Session portal :=
  @Portal.new_session portal tt w.

End Guion.

(** ** More sample inputs *)

Module Muestra.

(** A tax entry that is not a compact tax string. *)
Definition sin_barra : Concepto.t :=
  Concepto_init "01010101" 1%Q "H87" "Pieza" 100%Q None None None None
    [Str "IVA"] [] false.

(** A tax-inclusive concept whose only transferred tax is exempt. *)
Definition exento : Concepto.t :=
  Concepto_init "01010101" 1%Q "H87" "Libro" 100%Q None None None None
    [Str "IVA|Exento"] [] true.

(** A tax-inclusive concept whose rate record has no rate. *)
Definition sin_tasa : Concepto.t :=
  Concepto_init "01010101" 1%Q "H87" "Pieza" 116%Q None None None None
    [Str "IVA|Tasa"] [] true.

(** A tax-inclusive concept whose rates sum to -1. *)
Definition tasa_menos_uno : Concepto.t :=
  Concepto_init "01010101" 1%Q "H87" "Pieza" 100%Q None None None None
    [Obj (Impuesto_init "ISR" "Tasa" (Some (-1)%Q) None None)] [] true.

(** An issuer that signs. *)
Definition firmante : Issuer.t :=
  Issuer.mk "H&E951128469" "HERRERIA & ELECTRICOS" "606" "30001000000400002460"
    (Some (Signer.mk "MIIFuzCCA6OgAwIBAgIU"
             (fun cadena => Done ("sello de " ++ cadena)))).

(** A canonical string that shows the seal it is computed over. *)
Definition cfdi_firmado : CfdiModule :=
  Build_CfdiModule
    (fun doc => Done ("||4.0|" ++ Comprobante.Sello doc ++ "||"))
    (fun _ => "2020-01-01T22:40:38").

(** 0.29 of a unit at a price of 1.50 that includes the 16% rate. *)
Definition fraccion_incluida : Concepto.t :=
  Concepto_init "01010101" 0.29%Q "H87" "Pieza" 1.50%Q None None None None
    [Str "IVA|Tasa|0.16"] [] true.

(** An income comprobante in pesos over the given concepts, computed in
    the decimal context. *)
Definition comprobante `{DecimalModule} `{ComputeModule} `{CfdiModule}
    (conceptos : list Concepto.t) : result Comprobante.t :=
  InContext.Comprobante_init Ejemplo.emisor "56820" Ejemplo.receptor conceptos
    "MXN" "I" "01" None None None None None None None None [] None None None.

(** A stamped invoice whose transferred tax amount, 0.105, has one decimal
    more than the peso. *)
Definition factura_fina : CFDI.t :=
  {| CFDI.Moneda := "MXN";
     CFDI.Emisor := Emisor.mk "H&E951128469" "HERRERIA & ELECTRICOS" "606";
     CFDI.Receptor := Ejemplo.receptor;
     CFDI.Complemento := Val (Val (Val "0c5c2b0d"));
     CFDI.Serie := Val "A";
     CFDI.Folio := Val "124";
     CFDI.MetodoPago := Val "PPD";
     CFDI.Total := 0.765%Q;
     CFDI.has_Impuestos := true;
     CFDI.Conceptos :=
       [ {| Concepto.ClaveProdServ := "01010101";
            Concepto.Cantidad := 1%Q;
            Concepto.ClaveUnidad := "H87";
            Concepto.Descripcion := "Pieza";
            Concepto.ValorUnitario := 0.66%Q;
            Concepto.ObjetoImp := Some "02";
            Concepto.NoIdentificacion := None;
            Concepto.Unidad := None;
            Concepto.Descuento := None;
            Concepto.Impuestos :=
              Val {| ConceptoImpuestos.Traslados :=
                       [Obj (Impuesto.mk (Some 0.66%Q) "002" "Tasa"
                               (Some 0.16%Q) (Some 0.105%Q))];
                     ConceptoImpuestos.Retenciones := [] |};
            Concepto._traslados_incluidos := false;
            Concepto.Importe := Some 0.66%Q |} ] |}.

(** A payroll complement without other payments. *)
Definition nomina : Nomina.t :=
  Nomina.mk (Val 1000.00%Q) Missing (Val 150.50%Q)
    (node "nomina12:Nomina" [("Version", "1.2")] []).

(** The page the invoicing portal answers with when it wants a login. *)
Definition redirigido : Portal.Response :=
  Portal.mkResponse 302 "https://portal.facturaelectronica.sat.gob.mx/Factura/GeneraFactura" "".

(** A first page without a form. *)
Definition sin_formulario : Portal.Response :=
  Portal.mkResponse 200 "https://portal.facturaelectronica.sat.gob.mx" "".

(** A page with a form that posts to the portal itself, and the page that
    carries the verification token. *)
Definition con_formulario : Portal.Response :=
  Portal.mkResponse 200 "https://portal.facturaelectronica.sat.gob.mx"
    "https://portal.facturaelectronica.sat.gob.mx/".

Definition con_token : Portal.Response :=
  Portal.mkResponse 200 "https://portal.facturaelectronica.sat.gob.mx/"
    "CfDJ8".

Definition exitoso : Portal.Response :=
  Portal.mkResponse 200
    "https://portal.facturaelectronica.sat.gob.mx/Clientes/ExisteLrfc" "si".

Definition rechazado : Portal.Response :=
  Portal.mkResponse 200
    "https://portal.facturaelectronica.sat.gob.mx/Clientes/ExisteLrfc" "no".

End Muestra.


(** * Properties *)

(** ** The [result] monad *)

Lemma bind_Ok {A B} (m : result A) (f : A -> result B) (b : B) :
  m ≫= f = Ok b -> exists a, m = Ok a /\ f a = Ok b.
Proof. destruct m as [a|e]; simpl; [eauto | discriminate]. Qed.

Lemma bind_Err {A B} (m : result A) (f : A -> result B) (e : error) :
  m ≫= f = Err e -> m = Err e \/ exists a, m = Ok a /\ f a = Err e.
Proof. destruct m as [a|e']; simpl; [eauto | intros [= ->]; auto]. Qed.

Lemma is_Err_bind {A B} (m : result A) (f : A -> result B) :
  (forall a, m = Ok a -> is_Err (f a)) -> is_Err (m ≫= f).
Proof.
  intros Hf. destruct m as [a|e]; simpl.
  - apply Hf. reflexivity.
  - eexists. reflexivity.
Qed.

Lemma mapM_Ok {A B} (f : A -> result B) (l : list A) (l' : list B) :
  mapM f l = Ok l' <-> Forall2 (fun a b => f a = Ok b) l l'.
Proof.
  revert l'. induction l as [|a l IH]; intros l'; simpl.
  - split.
    + intros [= <-]. constructor.
    + intros Hf. inversion Hf. reflexivity.
  - split.
    + intros Hm. apply bind_Ok in Hm as (b & Hb & Hm).
      apply bind_Ok in Hm as (k & Hk & [= <-]).
      constructor; [exact Hb | apply IH, Hk].
    + intros Hf. inversion Hf as [|? b ? k Hb Hk]; subst.
      rewrite Hb. simpl. apply IH in Hk. rewrite Hk. reflexivity.
Qed.

(** The loop stops at the first element that raises. *)
Lemma mapM_stops {A B} (f : A -> result B) (pre post : list A) (pre' : list B)
    (a : A) (e : error) :
  mapM f pre = Ok pre' -> f a = Err e -> mapM f (pre ++ a :: post) = Err e.
Proof.
  revert pre'. induction pre as [|x pre IH]; intros pre' Hpre Ha; simpl.
  - rewrite Ha. reflexivity.
  - simpl in Hpre. apply bind_Ok in Hpre as (y & Hy & Hpre).
    apply bind_Ok in Hpre as (k & Hk & _).
    rewrite Hy. simpl. rewrite (IH k Hk Ha). reflexivity.
Qed.

(** An element that raises makes the whole loop raise. *)
Lemma mapM_raises {A B} (f : A -> result B) (pre post : list A) (a : A) :
  is_Err (f a) -> is_Err (mapM f (pre ++ a :: post)).
Proof.
  intros [e Ha]. induction pre as [|x pre IH]; simpl.
  - rewrite Ha. eexists. reflexivity.
  - apply is_Err_bind. intros y _. apply is_Err_bind. intros k Hk.
    destruct IH as [e' IH]. congruence.
Qed.

Lemma mapM_is_Ok {A B} (f : A -> result B) (l : list A) :
  Forall (fun a => is_Ok (f a)) l -> is_Ok (mapM f l).
Proof.
  intros Hall. induction Hall as [|a l [b Hb] _ [k Hk]]; simpl.
  - eexists. reflexivity.
  - rewrite Hb. simpl. rewrite Hk. eexists. reflexivity.
Qed.

(** ** Splitting on a separator *)

Lemma split_nonempty (sep : ascii) (s : string) : split sep s <> [].
Proof.
  destruct s as [|c s]; simpl; [discriminate|].
  destruct (Ascii.eqb c sep); [discriminate|].
  destruct (split sep s); discriminate.
Qed.

Lemma split_join (sep : ascii) (s : string) :
  String.concat (String sep EmptyString) (split sep s) = s.
Proof.
  induction s as [|c s IH]; simpl; [reflexivity|].
  destruct (Ascii.eqb_spec c sep) as [->|Hne].
  - pose proof (split_nonempty sep s) as Hs.
    change (String.concat (String sep "") ("" :: split sep s)) with
      (match split sep s with
       | [] => ""
       | _ :: _ => "" ++ String sep "" ++ String.concat (String sep "") (split sep s)
       end).
    destruct (split sep s) as [|p ps] eqn:E; [contradiction|].
    rewrite IH. reflexivity.
  - pose proof (split_nonempty sep s) as Hs.
    destruct (split sep s) as [|p ps] eqn:E; [contradiction|].
    rewrite <- IH. destruct ps; reflexivity.
Qed.

Lemma split_one_part (sep : ascii) (s : string) :
  contains sep s = false <-> split sep s = [s].
Proof.
  induction s as [|c s IH]; simpl.
  - split; reflexivity.
  - pose proof (split_nonempty sep s) as Hs.
    destruct (Ascii.eqb c sep).
    + split; discriminate.
    + rewrite IH. split.
      * intros ->. reflexivity.
      * destruct (split sep s) as [|p ps]; [contradiction|].
        intros [= -> ->]. reflexivity.
Qed.

Lemma split_two_parts (sep : ascii) (s : string) :
  contains sep s = true <-> (2 <= length (split sep s))%nat.
Proof.
  pose proof (split_one_part sep s) as [Hone Hone'].
  pose proof (split_nonempty sep s) as Hne.
  destruct (contains sep s).
  - split; [intros _ | reflexivity].
    destruct (split sep s) as [|p [|q ps]] eqn:E; simpl; try lia.
    + contradiction.
    + assert (p = s) as ->.
      { pose proof (split_join sep s) as Hj. rewrite E in Hj. exact Hj. }
      specialize (Hone' eq_refl). discriminate.
  - split; [discriminate|]. rewrite (Hone eq_refl). simpl. lia.
Qed.

(** ** Impuesto *)

Lemma _impuestos_other (k : string) :
  k <> "ISR" -> k <> "IVA" -> k <> "IEPS" -> _impuestos !! k = None.
Proof.
  intros H1 H2 H3. unfold _impuestos.
  rewrite !lookup_insert_ne by congruence. apply lookup_empty.
Qed.

(** C9. [Impuesto.__init__] stores the kinds ['ISR'], ['IVA'] and ['IEPS'] as
    the codes ['001'], ['002'] and ['003'], and every other kind string as it
    is given; the constructor is total, so no kind is rejected, and the
    other arguments are stored unchanged. *)
Theorem C9_Impuesto_kind_code (impuesto tipo_factor : string)
    (tasa_o_cuota importe base : option Decimal) :
  let i := Impuesto_init impuesto tipo_factor tasa_o_cuota importe base in
  Impuesto.Impuesto i =
    (if String.eqb impuesto "ISR" then "001"
     else if String.eqb impuesto "IVA" then "002"
     else if String.eqb impuesto "IEPS" then "003"
     else impuesto)
  /\ Impuesto.TipoFactor i = tipo_factor
  /\ Impuesto.TasaOCuota i = tasa_o_cuota
  /\ Impuesto.Importe i = importe
  /\ Impuesto.Base i = base.
Proof.
  simpl. split; [|repeat split].
  destruct (String.eqb_spec impuesto "ISR") as [->|H1]; [reflexivity|].
  destruct (String.eqb_spec impuesto "IVA") as [->|H2]; [reflexivity|].
  destruct (String.eqb_spec impuesto "IEPS") as [->|H3]; [reflexivity|].
  rewrite (_impuestos_other impuesto H1 H2 H3). reflexivity.
Qed.

Section Parse.
Context `{DecimalModule}.

Lemma parse_parts (text kind factor : string) (rest : list string) :
  split "|" text = kind :: factor :: rest ->
  Impuesto_parse text =
    match rest with
    | [] => Ok (Impuesto_init kind factor None None None)
    | rate :: _ =>
        d ← call (Decimal_of_str rate);
        mret (Impuesto_init kind factor (Some d) None None)
    end.
Proof.
  intros E. unfold Impuesto_parse. rewrite E. simpl.
  destruct rest as [|rate rest]; simpl.
  - reflexivity.
  - destruct (decide (2 < S (S (S (length rest))))%nat) as [_|Hn]; [|lia].
    simpl. destruct (call (Decimal_of_str rate)); reflexivity.
Qed.

(** C8, as the code has it.  [Impuesto.parse] splits the text at every
    ['|'] (joining the parts with ['|'] gives the text back).  A text
    without ['|'] has no factor part and raises [IndexError]; with two
    parts they are the kind and the factor, whatever they are, the empty
    string included, and the rate is absent; with more, the third part is
    converted to the decimal rate.  [IndexError] is raised for the missing
    factor part and for nothing else: an empty kind or an empty factor is
    not refused. *)
Theorem C8_Impuesto_parse (text : string) :
  String.concat "|" (split "|" text) = text
  /\ (contains "|" text = true <-> (2 <= length (split "|" text))%nat)
  /\ (Impuesto_parse text = Err IndexError <-> contains "|" text = false)
  /\ (forall kind factor,
        split "|" text = [kind; factor] ->
        Impuesto_parse text = Ok (Impuesto_init kind factor None None None))
  /\ (forall kind factor rate rest,
        split "|" text = kind :: factor :: rate :: rest ->
        Impuesto_parse text =
          d ← call (Decimal_of_str rate);
          mret (Impuesto_init kind factor (Some d) None None)).
Proof.
  split; [apply split_join|].
  split; [apply split_two_parts|].
  split; [|split].
  - split.
    + intros Hp. destruct (contains "|" text) eqn:Hc; [exfalso | reflexivity].
      apply split_two_parts in Hc.
      destruct (split "|" text) as [|kind [|factor rest]] eqn:E;
        simpl in Hc; try lia.
      rewrite (parse_parts _ _ _ _ E) in Hp.
      destruct rest as [|rate rest]; [discriminate|].
      destruct (Decimal_of_str rate); discriminate.
    + intros Hc. apply split_one_part in Hc.
      unfold Impuesto_parse. rewrite Hc. reflexivity.
  - intros kind factor E. apply (parse_parts _ _ _ _ E).
  - intros kind factor rate rest E. apply (parse_parts _ _ _ _ E).
Qed.

End Parse.

(** ** The decimal context

    [Context.round] keeps 28 significant digits and rounds to the nearest:
    [digits] counts decimal digits, [adjusted] is the exponent of the
    leading digit, and a rounding is within half a unit of the last digit
    kept, a relative error of at most [5e-28]. *)

Lemma digits_of_spec (fuel : nat) (n : Z) :
  (0 < n)%Z -> (n < 10 ^ (Z.of_nat fuel + 1))%Z ->
  (1 <= Context.digits_of fuel n)%Z
  /\ (10 ^ (Context.digits_of fuel n - 1) <= n < 10 ^ Context.digits_of fuel n)%Z.
Proof.
  revert n. induction fuel as [|fuel IH]; intros n Hpos Hlt.
  - simpl in *. split; [lia|]. change (10 ^ (1 - 1))%Z with 1%Z.
    change (10 ^ 1)%Z with 10%Z. change (10 ^ (0 + 1))%Z with 10%Z in Hlt. lia.
  - cbn [Context.digits_of]. destruct (n <? 10)%Z eqn:E.
    + apply Z.ltb_lt in E. split; [lia|]. change (10 ^ (1 - 1))%Z with 1%Z.
      change (10 ^ 1)%Z with 10%Z. lia.
    + apply Z.ltb_ge in E.
      assert (Hq : (0 < n / 10)%Z) by (apply Z.div_str_pos; lia).
      assert (Hlt' : (n / 10 < 10 ^ (Z.of_nat fuel + 1))%Z).
      { apply Z.div_lt_upper_bound; [lia|].
        rewrite <- Z.pow_succ_r by lia.
        replace (Z.succ (Z.of_nat fuel + 1)) with (Z.of_nat (S fuel) + 1)%Z by lia.
        exact Hlt. }
      destruct (IH (n / 10)%Z Hq Hlt') as (H1 & Hlo & Hhi).
      set (d := Context.digits_of fuel (n / 10)) in *.
      split; [lia|].
      replace (1 + d - 1)%Z with (Z.succ (d - 1)) by lia.
      replace (1 + d)%Z with (Z.succ d) by lia.
      rewrite !Z.pow_succ_r by lia.
      pose proof (Z.div_mod n 10 ltac:(lia)) as Hdm.
      pose proof (Z.mod_pos_bound n 10 ltac:(lia)) as Hm.
      split; lia.
Qed.

Lemma digits_spec (n : Z) :
  (0 < n)%Z ->
  (1 <= Context.digits n)%Z
  /\ (10 ^ (Context.digits n - 1) <= n < 10 ^ Context.digits n)%Z.
Proof.
  intros Hpos. unfold Context.digits. apply digits_of_spec; [exact Hpos|].
  pose proof (Z.log2_nonneg n) as Hl.
  rewrite Z2Nat.id by exact Hl.
  destruct (Z.log2_spec n Hpos) as [_ Hhi].
  eapply Z.lt_le_trans; [exact Hhi|].
  replace (Z.succ (Z.log2 n)) with (Z.log2 n + 1)%Z by lia.
  apply Z.pow_le_mono_l. lia.
Qed.

Lemma pow10_Qpower (k : Z) : (Context.pow10 k == 10 ^ k)%Q.
Proof.
  unfold Context.pow10. destruct (0 <=? k)%Z eqn:E.
  - apply Z.leb_le in E. rewrite (Zpower_Qpower 10 k E). reflexivity.
  - apply Z.leb_gt in E.
    assert (Hp : (0 < 10 ^ (- k))%Z) by (apply Z.pow_pos_nonneg; lia).
    replace k with (- (- k))%Z at 2 by lia.
    rewrite Qpower_opp, <- (Zpower_Qpower 10 (- k)) by lia.
    destruct (10 ^ (- k))%Z as [|p|p] eqn:Ep; try lia.
    reflexivity.
Qed.

Lemma pow10_pos (k : Z) : (0 < Context.pow10 k)%Q.
Proof. rewrite pow10_Qpower. apply Qpower_0_lt. reflexivity. Qed.

Lemma pow10_add (a b : Z) :
  (Context.pow10 (a + b) == Context.pow10 a * Context.pow10 b)%Q.
Proof. rewrite !pow10_Qpower. apply Qpower_plus. discriminate. Qed.

Lemma pow10_inverse (s : Z) :
  (Context.pow10 s * Context.pow10 (- s) == 1)%Q.
Proof.
  rewrite <- pow10_add. replace (s + - s)%Z with 0%Z by lia. reflexivity.
Qed.

Lemma pow10_inject (k : Z) :
  (0 <= k)%Z -> (Context.pow10 k == inject_Z (10 ^ k))%Q.
Proof.
  intros Hk. unfold Context.pow10. apply Z.leb_le in Hk. rewrite Hk. reflexivity.
Qed.

Lemma Qabs_fraction (x : Q) :
  (Qabs x * inject_Z (Zpos (Qden x)) == inject_Z (Z.abs (Qnum x)))%Q.
Proof.
  destruct x as [n d]. unfold Qabs, Qeq, Qmult, inject_Z. simpl. lia.
Qed.

Lemma Qle_scaled (a b c : Q) : (0 < c)%Q -> (a * c <= b * c)%Q -> (a <= b)%Q.
Proof. intros Hc H'. nra. Qed.

Lemma Qlt_scaled (a b c : Q) : (0 < c)%Q -> (a * c < b * c)%Q -> (a < b)%Q.
Proof. intros Hc H'. nra. Qed.

(** [adjusted] is the exponent of the leading digit. *)
Lemma adjusted_spec (x : Q) :
  ~ (x == 0)%Q ->
  (Context.pow10 (Context.adjusted x) <= Qabs x)%Q
  /\ (Qabs x < Context.pow10 (Context.adjusted x + 1))%Q.
Proof.
  intros Hx.
  assert (Hp : (0 < Z.abs (Qnum x))%Z).
  { destruct x as [n d]. unfold Qeq in Hx. simpl in *. lia. }
  destruct (digits_spec _ Hp) as (Hdp & Hplo & Hphi).
  destruct (digits_spec (Zpos (Qden x)) eq_refl) as (Hdq & Hqlo & Hqhi).
  set (dp := Context.digits (Z.abs (Qnum x))) in *.
  set (dq := Context.digits (Zpos (Qden x))) in *.
  pose proof (Qabs_fraction x) as Hfrac.
  set (X := Qabs x) in *.
  set (P := inject_Z (Z.abs (Qnum x))) in *.
  set (D := inject_Z (Zpos (Qden x))) in *.
  assert (HD : (0 < D)%Q) by (unfold D; reflexivity).
  assert (HA : (Context.pow10 (dp - 1) <= P)%Q).
  { rewrite pow10_inject by lia. unfold P. rewrite <- Zle_Qle. exact Hplo. }
  assert (HA' : (P < Context.pow10 dp)%Q).
  { rewrite pow10_inject by lia. unfold P. rewrite <- Zlt_Qlt. exact Hphi. }
  assert (HB : (Context.pow10 (dq - 1) <= D)%Q).
  { rewrite pow10_inject by lia. unfold D. rewrite <- Zle_Qle. exact Hqlo. }
  assert (HB' : (D < Context.pow10 dq)%Q).
  { rewrite pow10_inject by lia. unfold D. rewrite <- Zlt_Qlt. exact Hqhi. }
  assert (Hlow : (Context.pow10 (dp - dq - 1) <= X)%Q).
  { apply (Qle_scaled _ _ D HD). rewrite Hfrac.
    apply Qle_trans with (Context.pow10 (dp - dq - 1) * Context.pow10 dq)%Q.
    - pose proof (pow10_pos (dp - dq - 1)). nra.
    - rewrite <- pow10_add. replace (dp - dq - 1 + dq)%Z with (dp - 1)%Z by lia.
      exact HA. }
  assert (Hhigh : (X < Context.pow10 (dp - dq + 1))%Q).
  { apply (Qlt_scaled _ _ D HD). rewrite Hfrac.
    apply Qlt_le_trans with (Context.pow10 dp); [exact HA'|].
    replace dp with (dp - dq + 1 + (dq - 1))%Z at 1 by lia.
    rewrite pow10_add. pose proof (pow10_pos (dp - dq + 1)). nra. }
  unfold Context.adjusted. fold dp dq. cbv zeta. fold X.
  destruct (Qle_bool (Context.pow10 (dp - dq)) X) eqn:E.
  - apply Qle_bool_iff in E. split; [exact E | exact Hhigh].
  - split.
    + exact Hlow.
    + replace (dp - dq - 1 + 1)%Z with (dp - dq)%Z by lia.
      apply Qnot_le_lt. intros Hle. apply Qle_bool_iff in Hle. congruence.
Qed.

Lemma half_even_error (y : Q) :
  (Qabs (inject_Z (Context.half_even y) - y) <= 1 # 2)%Q.
Proof.
  unfold Context.half_even.
  pose proof (Qfloor_le y) as Hlo. pose proof (Qlt_floor y) as Hhi.
  set (f := Qfloor y) in *.
  assert (Hf1 : (inject_Z (f + 1) == inject_Z f + 1)%Q)
    by (rewrite inject_Z_plus; reflexivity).
  rewrite Hf1 in Hhi.
  destruct (y - inject_Z f ?= 1 # 2)%Q eqn:E.
  - apply Qeq_alt in E.
    destruct (Z.even f); [|rewrite Hf1]; apply Qabs_Qle_condition; split; lra.
  - apply Qlt_alt in E. apply Qabs_Qle_condition. split; lra.
  - apply Qgt_alt in E. rewrite Hf1. apply Qabs_Qle_condition. split; lra.
Qed.

Lemma half_even_inject_Z (n : Z) : Context.half_even (inject_Z n) = n.
Proof.
  unfold Context.half_even. rewrite Qfloor_Z.
  assert (E : (inject_Z n - inject_Z n ?= 1 # 2)%Q = Lt).
  { unfold Qcompare, Qminus, Qplus, Qopp, inject_Z. simpl.
    apply Z.compare_lt_iff. lia. }
  rewrite E. reflexivity.
Qed.

Lemma half_even_comp (x y : Q) :
  (x == y)%Q -> Context.half_even x = Context.half_even y.
Proof.
  intros E. unfold Context.half_even. rewrite (Qfloor_comp _ _ E).
  assert (Hc : ((x - inject_Z (Qfloor y) ?= 1 # 2)
                = (y - inject_Z (Qfloor y) ?= 1 # 2))%Q).
  { apply Qcompare_comp; [rewrite E|]; reflexivity. }
  rewrite Hc. reflexivity.
Qed.

(** The context rounds to the nearest: the result is within half a unit of
    the last digit kept. *)
Lemma round_error (x : Q) :
  (Qabs (Context.round x - x)
   <= (1 # 2) * Context.pow10 (Context.adjusted x + 1 - Context.prec))%Q.
Proof.
  unfold Context.round.
  destruct (Qeq_bool x 0) eqn:Ez.
  - apply Qeq_bool_iff in Ez.
    pose proof (pow10_pos (Context.adjusted x + 1 - Context.prec)) as Hp.
    apply Qabs_Qle_condition. split; lra.
  - cbv zeta. rewrite Qred_correct.
    set (s := (Context.prec - 1 - Context.adjusted x)%Z).
    replace (Context.adjusted x + 1 - Context.prec)%Z with (- s)%Z
      by (unfold s; lia).
    pose proof (half_even_error (x * Context.pow10 s)) as He.
    pose proof (pow10_pos (- s)) as Hp.
    pose proof (pow10_inverse s) as Hi.
    set (r := inject_Z (Context.half_even (x * Context.pow10 s))) in *.
    assert (E : (r * Context.pow10 (- s) - x
                 == (r - x * Context.pow10 s) * Context.pow10 (- s))%Q).
    { transitivity (r * Context.pow10 (- s)
                    - x * (Context.pow10 s * Context.pow10 (- s)))%Q;
        [rewrite Hi|]; ring. }
    rewrite E, Qabs_Qmult, (Qabs_pos (Context.pow10 (- s))) by lra.
    apply Qmult_le_compat_r; [exact He | lra].
Qed.

(** The relative error of a rounding is at most [5e-28]. *)
Lemma round_relative_error (x : Q) :
  (Qabs (Context.round x - x)
   <= (1 # 2) * Context.pow10 (1 - Context.prec) * Qabs x)%Q.
Proof.
  destruct (Qeq_dec x 0) as [Ez|Hnz].
  - assert (Hb : Qeq_bool x 0 = true) by (apply Qeq_bool_iff; exact Ez).
    unfold Context.round. rewrite Hb, Ez. vm_compute. discriminate.
  - eapply Qle_trans; [apply round_error|].
    destruct (adjusted_spec x Hnz) as [Hlo _].
    replace (Context.adjusted x + 1 - Context.prec)%Z
      with ((1 - Context.prec) + Context.adjusted x)%Z by lia.
    rewrite pow10_add.
    pose proof (pow10_pos (1 - Context.prec)) as Hp.
    rewrite <- Qmult_assoc.
    apply Qmult_le_l; [reflexivity|].
    apply Qmult_le_l; [exact Hp | exact Hlo].
Qed.

(** A number of at most 28 significant digits is left as it is. *)
Lemma round_exact (x : Q) (n : Z) :
  (x * Context.pow10 (Context.prec - 1 - Context.adjusted x) == inject_Z n)%Q ->
  (Context.round x == x)%Q.
Proof.
  intros Hn. unfold Context.round.
  destruct (Qeq_bool x 0) eqn:Ez; [apply Qeq_bool_iff in Ez; lra|].
  cbv zeta. rewrite Qred_correct.
  set (s := (Context.prec - 1 - Context.adjusted x)%Z) in *.
  rewrite (half_even_comp _ _ Hn), half_even_inject_Z, <- Hn.
  rewrite <- Qmult_assoc, pow10_inverse. ring.
Qed.

(** ** The loop over the concepts *)

Lemma call_Ok {A} (o : outcome A) (a : A) : call o = Ok a -> o = Done a.
Proof. destruct o; simpl; congruence. Qed.

Lemma omap_Obj (l : list Impuesto.t) :
  omap (fun x => match x with Obj i => Some i | _ => None end) (Obj <$> l) = l.
Proof. induction l as [|i l IH]; csimpl; [reflexivity | rewrite IH; reflexivity]. Qed.

Section Loop.
Context `{DecimalModule} `{ComputeModule}.

Lemma make_all_each rnd_fn base imp imp' :
  make_all rnd_fn base imp = Ok imp' ->
  Forall2 (fun i o => make_impuesto i base rnd_fn = Done o) imp imp'.
Proof.
  unfold make_all. intros Hm. apply mapM_Ok in Hm.
  eapply Forall2_impl; [exact Hm|]. intros i o Hc. apply call_Ok, Hc.
Qed.

(** What a turn of the loop that does not raise has done. *)
Lemma process_concepto_Ok rnd_fn c c' :
  process_concepto rnd_fn c = Ok c' ->
  exists trasladados retenciones valor_unitario,
    parsed ConceptoImpuestos.Traslados c = Ok trasladados
    /\ parsed ConceptoImpuestos.Retenciones c = Ok retenciones
    /\ unit_price rnd_fn c trasladados
       = Ok (valor_unitario, Concepto.ValorUnitario c')
    /\ Concepto.Importe c'
       = Some (rnd_fn (Concepto.Cantidad c * valor_unitario)%Q)
    /\ Concepto.Cantidad c' = Concepto.Cantidad c
    /\ Concepto.Descuento c' = Concepto.Descuento c
    /\ (not_subject (Concepto.ObjetoImp c) = true ->
        Concepto.Impuestos c' = PyNone
        /\ Concepto.ObjetoImp c' = Concepto.ObjetoImp c)
    /\ (not_subject (Concepto.ObjetoImp c) = false ->
        make_all rnd_fn (tax_base c valor_unitario) trasladados
          = Ok (records_of ConceptoImpuestos.Traslados c')
        /\ make_all rnd_fn (tax_base c valor_unitario) retenciones
          = Ok (records_of ConceptoImpuestos.Retenciones c')).
Proof.
  unfold process_concepto, parsed. intros Hp.
  apply bind_Ok in Hp as (ts & Hts & Hp). rewrite Hts.
  apply bind_Ok in Hp as (trasladados & Htr & Hp).
  apply bind_Ok in Hp as (rs & Hrs & Hp). rewrite Hrs.
  apply bind_Ok in Hp as (retenciones & Hre & Hp).
  apply bind_Ok in Hp as ([valor_unitario stored] & Hup & Hp).
  exists trasladados, retenciones, valor_unitario. simpl.
  destruct (not_subject (Concepto.ObjetoImp c)) eqn:Hns.
  - injection Hp as <-. simpl. rewrite Hup.
    repeat split; try assumption; discriminate.
  - apply bind_Ok in Hp as (ts' & Hts' & Hp).
    apply bind_Ok in Hp as (rs' & Hrs' & Hp).
    assert (Hc' : Concepto.ValorUnitario c' = stored
              /\ Concepto.Importe c'
                 = Some (rnd_fn (Concepto.Cantidad c * valor_unitario)%Q)
              /\ Concepto.Cantidad c' = Concepto.Cantidad c
              /\ Concepto.Descuento c' = Concepto.Descuento c
              /\ records_of ConceptoImpuestos.Traslados c' = ts'
              /\ records_of ConceptoImpuestos.Retenciones c' = rs').
    { destruct ts' as [|t ts'], rs' as [|r rs']; injection Hp as <-;
        unfold records_of; simpl; rewrite ?omap_Obj; repeat split. }
    destruct Hc' as (-> & -> & -> & -> & -> & ->).
    repeat split; try assumption; discriminate.
Qed.

Lemma unit_price_given rnd_fn c trasladados :
  Concepto._traslados_incluidos c = false ->
  unit_price rnd_fn c trasladados
  = Ok (Concepto.ValorUnitario c, Concepto.ValorUnitario c).
Proof. unfold unit_price. intros ->. reflexivity. Qed.

(** The back-solve of a tax-inclusive price, when it does not raise. *)
Lemma unit_price_back_solved rnd_fn c trasladados valor_unitario stored :
  Concepto._traslados_incluidos c = true ->
  unit_price rnd_fn c trasladados = Ok (valor_unitario, stored) ->
  exists s_tasa s_cuota,
    sum_TasaOCuota "Tasa" trasladados 0%Q = Ok s_tasa
    /\ sum_TasaOCuota "Cuota" trasladados 0%Q = Ok s_cuota
    /\ existsb carries_Base_or_Importe trasladados = false
    /\ ~ (s_tasa + 1 == 0)%Q
    /\ valor_unitario = ((Concepto.ValorUnitario c - s_cuota) / (s_tasa + 1))%Q
    /\ stored = rnd_fn valor_unitario.
Proof.
  unfold unit_price. intros -> Hup.
  apply bind_Ok in Hup as (s_tasa & Ht & Hup).
  apply bind_Ok in Hup as (s_cuota & Hc & Hup).
  exists s_tasa, s_cuota.
  destruct (existsb carries_Base_or_Importe trasladados); [discriminate|].
  apply bind_Ok in Hup as (vu & Hdiv & [= <- <-]).
  unfold py_div in Hdiv.
  destruct (Qeq_bool (s_tasa + 1) 0) eqn:Hz;
    [destruct (Qeq_bool (Concepto.ValorUnitario c - s_cuota) 0);
     discriminate Hdiv|].
  injection Hdiv as <-.
  repeat split; try assumption.
  intros Hq. apply Qeq_bool_iff in Hq. congruence.
Qed.

End Loop.

(** ** Comprobante.__init__ *)

Lemma Importe_of_all (cs : list Concepto.t) (importes : list Decimal) :
  mapM Importe_of cs = Ok importes ->
  Forall2 (fun c x => Concepto.Importe c = Some x) cs importes.
Proof.
  intros Hm. apply mapM_Ok in Hm.
  eapply Forall2_impl; [exact Hm|]. intros c x. unfold Importe_of.
  destruct (Concepto.Importe c); congruence.
Qed.

Lemma Importe_of_omap (cs : list Concepto.t) (importes : list Decimal) :
  mapM Importe_of cs = Ok importes -> omap Concepto.Importe cs = importes.
Proof.
  intros Hm. apply Importe_of_all in Hm.
  induction Hm as [|c x l l' Hc _ IH]; [reflexivity|].
  csimpl. rewrite Hc, IH. reflexivity.
Qed.

Lemma fold_left_Qplus_zeros (l : list Concepto.t) (acc : Decimal) :
  Forall (fun c => Concepto.Descuento c = None) l ->
  fold_left Qplus ((fun c => or_zero (Concepto.Descuento c)) <$> l) acc = acc.
Proof.
  intros Hall. revert acc. induction Hall as [|c l Hc _ IH]; intros acc; csimpl.
  - reflexivity.
  - rewrite Hc. simpl. rewrite IH. unfold Qplus. simpl.
    destruct acc as [n d]. simpl. f_equal; [ring | lia].
Qed.

Lemma or_zero_or_None (x : Decimal) : (or_zero (or_None x) == x)%Q.
Proof.
  unfold or_None, or_zero. destruct (Qeq_bool x 0) eqn:E.
  - apply Qeq_bool_iff in E. symmetry. exact E.
  - rewrite E. reflexivity.
Qed.

Lemma get_total_Ok (f : field Decimal) (v : Decimal) :
  get_total f = Ok v -> v = total_or_zero f.
Proof. destruct f; simpl; congruence. Qed.

Lemma add_taxes_Ok (total0 total : Decimal) (impuestos : option DocImpuestos.t) :
  add_taxes total0 impuestos = Ok total ->
  (total == total0 + trasladados_of impuestos - retenidos_of impuestos)%Q.
Proof.
  unfold add_taxes. destruct impuestos as [i|]; simpl.
  - intros Ha. apply bind_Ok in Ha as (tt & Htt & Ha).
    apply bind_Ok in Ha as (tr & Htr & [= <-]).
    rewrite (get_total_Ok _ _ Htt), (get_total_Ok _ _ Htr). reflexivity.
  - intros [= <-]. ring.
Qed.

(** Rounding the back-solved price moves the recomputed inclusive price by
    the rounding error times [1 + s_tasa]. *)
Lemma back_solve_round_trip (rnd_fn : Decimal -> Decimal)
    (u P s_tasa s_cuota : Decimal) :
  (forall x, Qabs (rnd_fn x - x) <= u / 2)%Q ->
  ~ (s_tasa + 1 == 0)%Q ->
  let stored := rnd_fn ((P - s_cuota) / (s_tasa + 1))%Q in
  (Qabs (inclusive_price stored s_tasa s_cuota - P)
   <= Qabs (1 + s_tasa) * (u / 2))%Q
  /\ ((Qabs (1 + s_tasa) <= 2)%Q ->
      (Qabs (inclusive_price stored s_tasa s_cuota - P) <= u)%Q).
Proof.
  intros Hr Hnz stored.
  set (vu := ((P - s_cuota) / (s_tasa + 1))%Q) in *.
  assert (E : (inclusive_price stored s_tasa s_cuota - P
               == (stored - vu) * (1 + s_tasa))%Q).
  { unfold inclusive_price, vu. field. exact Hnz. }
  assert (Hu : (0 <= u / 2)%Q).
  { eapply Qle_trans; [apply Qabs_nonneg | apply (Hr 0%Q)]. }
  assert (Hb : (Qabs (inclusive_price stored s_tasa s_cuota - P)
                <= Qabs (1 + s_tasa) * (u / 2))%Q).
  { rewrite E, Qabs_Qmult, Qmult_comm.
    rewrite (Qmult_comm (Qabs (1 + s_tasa))), (Qmult_comm (Qabs (1 + s_tasa))).
    apply Qmult_le_compat_r; [apply Hr | apply Qabs_nonneg]. }
  split; [exact Hb|].
  intros H2. eapply Qle_trans; [exact Hb|].
  apply Qle_trans with (2 * (u / 2))%Q;
    [apply Qmult_le_compat_r; assumption |].
  assert (Eu : (2 * (u / 2) == u)%Q) by field.
  rewrite Eu. apply Qle_refl.
Qed.

Section Init.
Context `{DecimalModule} `{ComputeModule} `{CfdiModule}.
Variables (emisor : Issuer.t) (lugar_expedicion : string)
  (receptor : Receptor.t) (moneda tipo_de_comprobante exportacion : string)
  (serie folio forma_pago condiciones_de_pago : option string)
  (tipo_cambio : option Decimal) (metodo_pago confirmacion : option string)
  (informacion_global : option Node) (cfdi_relacionados : list Node)
  (complemento addenda : option Node) (fecha : option datetime).

(** The constructor on a concept list, the other arguments fixed. *)
Local Abbreviation build conceptos :=
  (Comprobante_init emisor lugar_expedicion receptor conceptos moneda
     tipo_de_comprobante exportacion serie folio forma_pago
     condiciones_de_pago tipo_cambio metodo_pago confirmacion
     informacion_global cfdi_relacionados complemento addenda fecha).

(** What a call of the constructor that returns has computed. *)
Lemma build_Ok conceptos doc :
  build conceptos = Ok doc ->
  exists rnd_fn importes total,
    rounder moneda = Done rnd_fn
    /\ mapM (process_concepto rnd_fn) conceptos = Ok (Comprobante.Conceptos doc)
    /\ mapM Importe_of (Comprobante.Conceptos doc) = Ok importes
    /\ make_impuestos (Comprobante.Conceptos doc) = Done (Comprobante.Impuestos doc)
    /\ add_taxes (py_sum importes
                  - py_sum (descuentos (Comprobante.Conceptos doc)))%Q
                 (Comprobante.Impuestos doc) = Ok total
    /\ Comprobante.SubTotal doc = py_sum importes
    /\ Comprobante.Descuento doc
       = or_None (py_sum (descuentos (Comprobante.Conceptos doc)))
    /\ Comprobante.Total doc = total
    /\ Comprobante.Moneda doc = moneda
    /\ Comprobante.Receptor doc = receptor
    /\ Comprobante.Complemento doc = complemento.
Proof.
  unfold Comprobante_init. intros Hb.
  apply bind_Ok in Hb as (rnd_fn & Hr & Hb). apply call_Ok in Hr.
  apply bind_Ok in Hb as (cs & Hcs & Hb).
  apply bind_Ok in Hb as (importes & Him & Hb).
  apply bind_Ok in Hb as (impuestos & Hmi & Hb). apply call_Ok in Hmi.
  apply bind_Ok in Hb as (total & Htot & Hb).
  exists rnd_fn, importes, total.
  destruct (Issuer.signer emisor) as [s|].
  - apply bind_Ok in Hb as (cadena & _ & Hb).
    apply bind_Ok in Hb as (sello & _ & [= <-]).
    simpl. repeat split; assumption.
  - injection Hb as <-. simpl. repeat split; assumption.
Qed.

Lemma processed_Descuento rnd_fn conceptos cs :
  mapM (process_concepto rnd_fn) conceptos = Ok cs ->
  descuentos cs = descuentos conceptos.
Proof.
  intros Hm. apply mapM_Ok in Hm. unfold descuentos.
  induction Hm as [|c c' l l' Hc _ IH]; [reflexivity|].
  csimpl. rewrite IH.
  apply process_concepto_Ok in Hc as (? & ? & ? & _ & _ & _ & _ & _ & -> & _).
  reflexivity.
Qed.


(** C10. The document-level [Descuento] is absent exactly when the sum of
    the concepts' discounts is zero, and holds the sum otherwise; it is
    absent in particular when no concept carries a discount. *)
Theorem C10_Descuento_absent_iff_zero (conceptos : list Concepto.t)
    (doc : Comprobante.t) :
  build conceptos = Ok doc ->
  let descuento := py_sum (descuentos conceptos) in
  (Comprobante.Descuento doc = None <-> (descuento == 0)%Q)
  /\ (Comprobante.Descuento doc = Some descuento <-> ~ (descuento == 0)%Q)
  /\ (Forall (fun c => Concepto.Descuento c = None) conceptos ->
      Comprobante.Descuento doc = None).
Proof.
  intros Hb.
  apply build_Ok in Hb
    as (rnd_fn & importes & total & _ & Hcs & _ & _ & _ & _ & Hdes & _).
  rewrite (processed_Descuento _ _ _ Hcs) in Hdes.
  cbv zeta. rewrite Hdes. unfold or_None.
  assert (Hiff : Qeq_bool (py_sum (descuentos conceptos)) 0 = true
                 <-> (py_sum (descuentos conceptos) == 0)%Q)
    by apply Qeq_bool_iff.
  split; [|split].
  - destruct (Qeq_bool (py_sum (descuentos conceptos)) 0).
    + split; [intros _; apply Hiff; reflexivity | reflexivity].
    + split; [discriminate | intros Hz; apply Hiff in Hz; discriminate].
  - destruct (Qeq_bool (py_sum (descuentos conceptos)) 0).
    + split; [discriminate | intros Hz; exfalso; apply Hz, Hiff; reflexivity].
    + split; [intros _ Hz; apply Hiff in Hz; discriminate | reflexivity].
  - intros Hall.
    unfold py_sum, descuentos. rewrite (fold_left_Qplus_zeros _ _ Hall).
    reflexivity.
Qed.

(** *** The amounts of a concept, in the decimal context *)

Lemma InContext_process_concepto_Ok rnd_fn c c' :
  InContext.process_concepto rnd_fn c = Ok c' ->
  exists trasladados retenciones valor_unitario,
    parsed ConceptoImpuestos.Traslados c = Ok trasladados
    /\ parsed ConceptoImpuestos.Retenciones c = Ok retenciones
    /\ InContext.unit_price rnd_fn c trasladados
       = Ok (valor_unitario, Concepto.ValorUnitario c')
    /\ Concepto.Importe c'
       = Some (rnd_fn (Context.mul (Concepto.Cantidad c) valor_unitario))
    /\ (not_subject (Concepto.ObjetoImp c) = false ->
        make_all rnd_fn (InContext.tax_base c valor_unitario) trasladados
          = Ok (records_of ConceptoImpuestos.Traslados c')
        /\ make_all rnd_fn (InContext.tax_base c valor_unitario) retenciones
          = Ok (records_of ConceptoImpuestos.Retenciones c')).
Proof.
  unfold InContext.process_concepto, parsed. intros Hp.
  apply bind_Ok in Hp as (ts & Hts & Hp). rewrite Hts.
  apply bind_Ok in Hp as (trasladados & Htr & Hp).
  apply bind_Ok in Hp as (rs & Hrs & Hp). rewrite Hrs.
  apply bind_Ok in Hp as (retenciones & Hre & Hp).
  apply bind_Ok in Hp as ([valor_unitario stored] & Hup & Hp).
  exists trasladados, retenciones, valor_unitario. simpl.
  destruct (not_subject (Concepto.ObjetoImp c)) eqn:Hns.
  - injection Hp as <-. simpl. rewrite Hup.
    repeat split; try assumption; discriminate.
  - apply bind_Ok in Hp as (ts' & Hts' & Hp).
    apply bind_Ok in Hp as (rs' & Hrs' & Hp).
    assert (Hc' : Concepto.ValorUnitario c' = stored
              /\ Concepto.Importe c'
                 = Some (rnd_fn (Context.mul (Concepto.Cantidad c)
                                   valor_unitario))
              /\ records_of ConceptoImpuestos.Traslados c' = ts'
              /\ records_of ConceptoImpuestos.Retenciones c' = rs').
    { destruct ts' as [|t ts'], rs' as [|r rs']; injection Hp as <-;
        unfold records_of; simpl; rewrite ?omap_Obj; repeat split. }
    destruct Hc' as (-> & -> & -> & ->).
    repeat split; try assumption; discriminate.
Qed.

(** The back-solve of a tax-inclusive price in the context, when it does
    not raise. *)
Lemma InContext_unit_price_back_solved rnd_fn c trasladados valor_unitario
    stored :
  Concepto._traslados_incluidos c = true ->
  InContext.unit_price rnd_fn c trasladados = Ok (valor_unitario, stored) ->
  exists s_tasa s_cuota,
    InContext.sum_TasaOCuota "Tasa" trasladados 0%Q = Ok s_tasa
    /\ InContext.sum_TasaOCuota "Cuota" trasladados 0%Q = Ok s_cuota
    /\ existsb carries_Base_or_Importe trasladados = false
    /\ ~ (Context.add s_tasa 1 == 0)%Q
    /\ valor_unitario
       = Context.round
           (Context.sub (Concepto.ValorUnitario c) s_cuota
            / Context.add s_tasa 1)
    /\ stored = rnd_fn valor_unitario.
Proof.
  unfold InContext.unit_price. intros -> Hup.
  apply bind_Ok in Hup as (s_tasa & Ht & Hup).
  apply bind_Ok in Hup as (s_cuota & Hc & Hup).
  exists s_tasa, s_cuota.
  destruct (existsb carries_Base_or_Importe trasladados); [discriminate|].
  apply bind_Ok in Hup as (vu & Hdiv & [= <- <-]).
  unfold Context.div in Hdiv.
  destruct (Qeq_bool (Context.add s_tasa 1) 0) eqn:Hz.
  { destruct (Qeq_bool (Context.sub (Concepto.ValorUnitario c) s_cuota) 0);
      discriminate Hdiv. }
  injection Hdiv as <-.
  repeat split; try assumption.
  intros Hq. apply Qeq_bool_iff in Hq. congruence.
Qed.

Lemma InContext_process_concepto_amounts rnd_fn c c' :
  InContext.process_concepto rnd_fn c = Ok c' ->
  exists trasladados retenciones valor_unitario,
    InContext.amounts_of rnd_fn c c' trasladados valor_unitario
    /\ parsed ConceptoImpuestos.Retenciones c = Ok retenciones
    /\ (not_subject (Concepto.ObjetoImp c) = false ->
        Forall2 (fun i o =>
                   make_impuesto i (InContext.tax_base c valor_unitario) rnd_fn
                   = Done o)
                trasladados (records_of ConceptoImpuestos.Traslados c')
        /\ Forall2 (fun i o =>
                   make_impuesto i (InContext.tax_base c valor_unitario) rnd_fn
                   = Done o)
                retenciones (records_of ConceptoImpuestos.Retenciones c')).
Proof.
  intros Hp. apply InContext_process_concepto_Ok in Hp
    as (trasladados & retenciones & vu & Htr & Hre & Hup & Him & Htax).
  exists trasladados, retenciones, vu. split; [|split].
  - unfold InContext.amounts_of.
    split; [exact Htr|]. split; [exact Him|]. split.
    + intros Hgiven. unfold InContext.unit_price in Hup.
      rewrite Hgiven in Hup. injection Hup as Hv Hs. split; congruence.
    + intros Hincl.
      apply (InContext_unit_price_back_solved _ _ _ _ _ Hincl) in Hup
        as (s_tasa & s_cuota & Ht & Hc & _ & Hnz & Hvu & Hst).
      exists s_tasa, s_cuota. repeat split; assumption.
  - exact Hre.
  - intros Hns. destruct (Htax Hns) as [Ht Hr].
    split; apply make_all_each; assumption.
Qed.

(** The constructor in the context on a concept list, the other arguments
    fixed. *)
Local Abbreviation build_in_context conceptos :=
  (InContext.Comprobante_init emisor lugar_expedicion receptor conceptos
     moneda tipo_de_comprobante exportacion serie folio forma_pago
     condiciones_de_pago tipo_cambio metodo_pago confirmacion
     informacion_global cfdi_relacionados complemento addenda fecha).

Lemma InContext_build_Ok conceptos doc :
  build_in_context conceptos = Ok doc ->
  exists rnd_fn,
    rounder moneda = Done rnd_fn
    /\ mapM (InContext.process_concepto rnd_fn) conceptos
       = Ok (Comprobante.Conceptos doc).
Proof.
  unfold InContext.Comprobante_init. intros Hb.
  apply bind_Ok in Hb as (rnd_fn & Hr & Hb). apply call_Ok in Hr.
  apply bind_Ok in Hb as (cs & Hcs & Hb).
  apply bind_Ok in Hb as (importes & Him & Hb).
  apply bind_Ok in Hb as (impuestos & Hmi & Hb).
  apply bind_Ok in Hb as (total & Htot & Hb).
  exists rnd_fn.
  destruct (Issuer.signer emisor) as [s|].
  - apply bind_Ok in Hb as (cadena & _ & Hb).
    apply bind_Ok in Hb as (sello & _ & [= <-]).
    simpl. split; assumption.
  - injection Hb as <-. simpl. split; assumption.
Qed.

(** C6, as the code has it.  For every concept of a document the
    constructor returns, the stored [Importe] is
    [rnd_fn(Cantidad * valor_unitario)], the product taken in the decimal
    context, where [valor_unitario] is the given unit price, and for a
    tax-inclusive concept the back-solved price
    [(ValorUnitario - s_cuota) / (s_tasa + 1)] as the context gives it,
    before [rnd_fn] rounds it; the rounded back-solved price is only what
    the concept stores as its [ValorUnitario]. *)
Theorem C6_Importe_from_unrounded_price (conceptos : list Concepto.t)
    (doc : Comprobante.t) :
  build_in_context conceptos = Ok doc ->
  exists rnd_fn,
    rounder moneda = Done rnd_fn
    /\ Forall2 (fun c c' => exists trasladados valor_unitario,
                  InContext.amounts_of rnd_fn c c' trasladados valor_unitario)
               conceptos (Comprobante.Conceptos doc).
Proof.
  intros Hb. apply InContext_build_Ok in Hb as (rnd_fn & Hr & Hcs).
  exists rnd_fn. split; [exact Hr|].
  apply mapM_Ok in Hcs. eapply Forall2_impl; [exact Hcs|].
  intros c c' Hp. apply InContext_process_concepto_amounts in Hp
    as (trasladados & _ & vu & Ham & _).
  exists trasladados, vu. exact Ham.
Qed.

(** C3, as the code has it.  For every concept not declared
    not-subject-to-tax (an [ObjetoImp] other than ['01'] and ['03']), each
    transferred and each withheld record is [make_impuesto] of the parsed
    entry at [base = Cantidad * valor_unitario - Descuento], product and
    difference taken in the decimal context: the product is the local one,
    before [rnd_fn] rounds it (it is not the stored [Importe]),
    [valor_unitario] is the unrounded local unit price of C6, and an absent
    discount counts 0. *)
Theorem C3_tax_base_is_unrounded (conceptos : list Concepto.t)
    (doc : Comprobante.t) :
  build_in_context conceptos = Ok doc ->
  exists rnd_fn,
    rounder moneda = Done rnd_fn
    /\ Forall2
         (fun c c' =>
            not_subject (Concepto.ObjetoImp c) = false ->
            exists trasladados retenciones valor_unitario,
              InContext.amounts_of rnd_fn c c' trasladados valor_unitario
              /\ parsed ConceptoImpuestos.Retenciones c = Ok retenciones
              /\ let base :=
                   Context.sub
                     (Context.mul (Concepto.Cantidad c) valor_unitario)
                     (or_zero (Concepto.Descuento c)) in
                 Forall2 (fun i o => make_impuesto i base rnd_fn = Done o)
                   trasladados (records_of ConceptoImpuestos.Traslados c')
                 /\ Forall2 (fun i o => make_impuesto i base rnd_fn = Done o)
                   retenciones (records_of ConceptoImpuestos.Retenciones c'))
         conceptos (Comprobante.Conceptos doc).
Proof.
  intros Hb. apply InContext_build_Ok in Hb as (rnd_fn & Hr & Hcs).
  exists rnd_fn. split; [exact Hr|].
  apply mapM_Ok in Hcs. eapply Forall2_impl; [exact Hcs|].
  intros c c' Hp Hns. apply InContext_process_concepto_amounts in Hp
    as (trasladados & retenciones & vu & Ham & Hre & Htax).
  exists trasladados, retenciones, vu. auto.
Qed.

(** X7. In the decimal context the back-solve is exact to 28 digits.  For
    every tax-inclusive concept of a document the constructor returns, the
    local unit price [valor_unitario], from which [Importe] is computed,
    times [s_tasa + 1] gives [ValorUnitario - s_cuota] back up to a relative
    error of [5e-28], sum and difference being those of the context; and
    [s_tasa + 1] is not zero. *)
Theorem X7_back_solve_to_28_digits (conceptos : list Concepto.t)
    (doc : Comprobante.t) :
  build_in_context conceptos = Ok doc ->
  exists rnd_fn,
    rounder moneda = Done rnd_fn
    /\ Forall2
         (fun c c' =>
            Concepto._traslados_incluidos c = true ->
            exists trasladados s_tasa s_cuota valor_unitario,
              parsed ConceptoImpuestos.Traslados c = Ok trasladados
              /\ InContext.sum_TasaOCuota "Tasa" trasladados 0%Q = Ok s_tasa
              /\ InContext.sum_TasaOCuota "Cuota" trasladados 0%Q = Ok s_cuota
              /\ ~ (Context.add s_tasa 1 == 0)%Q
              /\ (Qabs (valor_unitario * Context.add s_tasa 1
                        - Context.sub (Concepto.ValorUnitario c) s_cuota)
                  <= (1 # 2) * Context.pow10 (1 - Context.prec)
                     * Qabs (Context.sub (Concepto.ValorUnitario c) s_cuota))%Q
              /\ Concepto.ValorUnitario c' = rnd_fn valor_unitario
              /\ Concepto.Importe c'
                 = Some (rnd_fn (Context.mul (Concepto.Cantidad c)
                                   valor_unitario)))
         conceptos (Comprobante.Conceptos doc).
Proof.
  intros Hb. apply InContext_build_Ok in Hb as (rnd_fn & Hr & Hcs).
  exists rnd_fn. split; [exact Hr|].
  apply mapM_Ok in Hcs. eapply Forall2_impl; [exact Hcs|].
  intros c c' Hp Hincl.
  apply InContext_process_concepto_Ok in Hp
    as (trasladados & _ & vu & Htr & _ & Hup & Him & _).
  apply (InContext_unit_price_back_solved _ _ _ _ _ Hincl) in Hup
    as (s_tasa & s_cuota & Ht & Hc & _ & Hnz & Hvu & Hst).
  exists trasladados, s_tasa, s_cuota, vu.
  repeat (split; [assumption|]).
  split; [|split; assumption].
  set (n := Context.sub (Concepto.ValorUnitario c) s_cuota) in *.
  set (d := Context.add s_tasa 1) in *.
  pose proof (round_relative_error (n / d)) as He. rewrite <- Hvu in He.
  assert (E : (vu * d - n == (vu - n / d) * d)%Q) by (field; exact Hnz).
  assert (En : (Qabs n == Qabs (n / d) * Qabs d)%Q).
  { rewrite <- Qabs_Qmult. apply Qabs_wd. field. exact Hnz. }
  rewrite E, Qabs_Qmult, En, Qmult_assoc.
  apply Qmult_le_compat_r; [exact He | apply Qabs_nonneg].
Qed.

(** *** Tax-inclusive concepts whose records carry a base or an amount *)

Lemma carries_Base_or_Importe_iff (i : Impuesto.t) :
  carries_Base_or_Importe i = true <->
  (Impuesto.TipoFactor i = "Tasa" \/ Impuesto.TipoFactor i = "Cuota")
  /\ (Impuesto.Base i <> None \/ Impuesto.Importe i <> None).
Proof.
  unfold carries_Base_or_Importe.
  rewrite andb_true_iff, !orb_true_iff, !String.eqb_eq, !bool_decide_eq_true.
  rewrite <- !not_eq_None_Some. reflexivity.
Qed.

Lemma as_Impuesto_In (items : list tax_item) (records : list Impuesto.t)
    (i : Impuesto.t) :
  mapM as_Impuesto items = Ok records -> In (Obj i) items -> In i records.
Proof.
  intros Hm. apply mapM_Ok in Hm.
  induction Hm as [|x r l l' Hx _ IH]; simpl; [tauto|].
  intros [-> | Hin]; [left | right; auto].
  simpl in Hx. congruence.
Qed.

Lemma sum_TasaOCuota_Ok (factor : string) (l : list Impuesto.t) (acc : Decimal) :
  Forall (fun t => Impuesto.TipoFactor t = factor ->
                   Impuesto.TasaOCuota t <> None) l ->
  is_Ok (sum_TasaOCuota factor l acc).
Proof.
  intros Hall. revert acc. induction Hall as [|t l Ht _ IH]; intros acc; simpl.
  - eexists. reflexivity.
  - destruct (String.eqb_spec (Impuesto.TipoFactor t) factor) as [E|_]; [|apply IH].
    destruct (Impuesto.TasaOCuota t); [apply IH | exfalso; apply (Ht E); reflexivity].
Qed.

(** The back-solve raises as soon as a rate or fee record carries a base
    or an amount: whatever the sums do, the check after them does not let
    the turn through. *)
Lemma unit_price_ambiguous rnd_fn c trasladados i :
  Concepto._traslados_incluidos c = true ->
  In i trasladados -> carries_Base_or_Importe i = true ->
  is_Err (unit_price rnd_fn c trasladados)
  /\ (is_Ok (sum_TasaOCuota "Tasa" trasladados 0%Q) ->
      is_Ok (sum_TasaOCuota "Cuota" trasladados 0%Q) ->
      unit_price rnd_fn c trasladados
      = Err (ValueError msg_traslados_incluidos)).
Proof.
  intros Hincl Hin Hc. unfold unit_price. rewrite Hincl.
  assert (Hex : existsb carries_Base_or_Importe trasladados = true).
  { apply existsb_exists. exists i. split; assumption. }
  rewrite Hex. split.
  - apply is_Err_bind. intros s_tasa _. apply is_Err_bind. intros s_cuota _.
    eexists. reflexivity.
  - intros [s_tasa ->] [s_cuota ->]. reflexivity.
Qed.

Lemma process_concepto_ambiguous rnd_fn c d i :
  Concepto._traslados_incluidos c = true ->
  Concepto.Impuestos c = Val d ->
  In (Obj i) (ConceptoImpuestos.Traslados d) ->
  carries_Base_or_Importe i = true ->
  is_Err (process_concepto rnd_fn c)
  /\ (forall trasladados,
        parsed ConceptoImpuestos.Traslados c = Ok trasladados ->
        is_Ok (parsed ConceptoImpuestos.Retenciones c) ->
        is_Ok (sum_TasaOCuota "Tasa" trasladados 0%Q) ->
        is_Ok (sum_TasaOCuota "Cuota" trasladados 0%Q) ->
        process_concepto rnd_fn c = Err (ValueError msg_traslados_incluidos)).
Proof.
  intros Hincl Hd Hin Hc. unfold process_concepto, parsed, tax_items.
  rewrite Hd. simpl. split.
  - apply is_Err_bind. intros trasladados Htr.
    apply is_Err_bind. intros retenciones _.
    pose proof (as_Impuesto_In _ _ _ Htr Hin) as Hin'.
    destruct (unit_price_ambiguous rnd_fn c trasladados i Hincl Hin' Hc)
      as [[e He] _].
    rewrite He. eexists. reflexivity.
  - intros trasladados Htr [retenciones Hre] Hst Hsc.
    rewrite Htr, Hre. simpl.
    pose proof (as_Impuesto_In _ _ _ Htr Hin) as Hin'.
    destruct (unit_price_ambiguous rnd_fn c trasladados i Hincl Hin' Hc)
      as [_ He].
    rewrite (He Hst Hsc). reflexivity.
Qed.

(** C4. Let a concept be declared tax-inclusive and let one of its
    transferred records of factor type [Tasa] or [Cuota] carry a [Base] or
    an [Importe].  Then the constructor raises and returns no document,
    wherever the concept stands in the list.  The exception is the
    [ValueError] of the back-solve whenever the turn of that concept gets
    to the check: the currency has a rounding, the concepts before it went
    through, its tax entries parse, and its rate and fee records carry a
    rate. *)
Theorem C4_traslados_incluidos_with_Base_or_Importe
    (pre post : list Concepto.t) (c : Concepto.t) (d : ConceptoImpuestos.t)
    (i : Impuesto.t) :
  Concepto._traslados_incluidos c = true ->
  Concepto.Impuestos c = Val d ->
  In (Obj i) (ConceptoImpuestos.Traslados d) ->
  (Impuesto.TipoFactor i = "Tasa" \/ Impuesto.TipoFactor i = "Cuota") ->
  (Impuesto.Base i <> None \/ Impuesto.Importe i <> None) ->
  (forall doc, build (pre ++ c :: post) <> Ok doc)
  /\ is_Err (build (pre ++ c :: post))
  /\ (forall rnd_fn trasladados,
        rounder moneda = Done rnd_fn ->
        is_Ok (mapM (process_concepto rnd_fn) pre) ->
        parsed ConceptoImpuestos.Traslados c = Ok trasladados ->
        is_Ok (parsed ConceptoImpuestos.Retenciones c) ->
        Forall (fun t => Impuesto.TipoFactor t = "Tasa"
                         \/ Impuesto.TipoFactor t = "Cuota" ->
                         Impuesto.TasaOCuota t <> None) trasladados ->
        build (pre ++ c :: post) = Err (ValueError msg_traslados_incluidos)).
Proof.
  intros Hincl Hd Hin Hfactor Hset.
  assert (Hc : carries_Base_or_Importe i = true)
    by (apply carries_Base_or_Importe_iff; split; assumption).
  assert (Herr : is_Err (build (pre ++ c :: post))).
  { unfold Comprobante_init.
    apply is_Err_bind. intros rnd_fn _.
    destruct (process_concepto_ambiguous rnd_fn c d i Hincl Hd Hin Hc)
      as [Hraise _].
    destruct (mapM_raises (process_concepto rnd_fn) pre post c Hraise)
      as [e He].
    rewrite He. eexists. reflexivity. }
  split; [|split].
  - intros doc Hdoc. destruct Herr as [e He]. congruence.
  - exact Herr.
  - intros rnd_fn trasladados Hr [pre' Hpre] Htr Hre Hrates.
    destruct (process_concepto_ambiguous rnd_fn c d i Hincl Hd Hin Hc)
      as [_ Hvalue].
    unfold Comprobante_init. rewrite Hr. simpl.
    rewrite (mapM_stops _ pre post pre' c
               (ValueError msg_traslados_incluidos) Hpre); [reflexivity|].
    apply (Hvalue trasladados Htr Hre); apply sum_TasaOCuota_Ok;
      (eapply Forall_impl; [exact Hrates|]); simpl; intros t Ht E; auto.
Qed.

(** *** The round trip of a tax-inclusive price *)


End Init.

(** ** Payment documents *)

Lemma mapM_never {A B} (f : A -> result B) (l : list A) (e : error) :
  (forall a, f a <> Err e) -> mapM f l <> Err e.
Proof.
  intros Hf. induction l as [|a l IH]; simpl; [discriminate|].
  intros Hm. apply bind_Err in Hm as [Ha | (b & _ & Hm)]; [exact (Hf a Ha)|].
  apply bind_Err in Hm as [Hl | (k & _ & Hk)]; [exact (IH Hl) | discriminate].
Qed.

Lemma forallb_false_Exists {A} (f : A -> bool) (l : list A) :
  forallb f l = false <-> Exists (fun a => f a = false) l.
Proof.
  induction l as [|a l IH]; simpl.
  - split; [discriminate | intros Hex; inversion Hex].
  - rewrite andb_false_iff, IH. split.
    + intros [Ha | Hl]; [left | right]; assumption.
    + intros Hex. inversion Hex; subst; [left | right]; assumption.
Qed.

Lemma agrees_false_iff (moneda : string) (emisor : Issuer.t)
    (receptor : Receptor.t) (c : CFDI.t) :
  agrees moneda emisor receptor c = false <-> differs moneda emisor receptor c.
Proof.
  unfold agrees, differs.
  rewrite !andb_false_iff, !String.eqb_neq, bool_decide_eq_false. tauto.
Qed.

Section PaymentProperties.
Context `{DecimalModule} `{ComputeModule} `{CfdiModule} `{Pago20Module}.

Lemma UUID_of_no_ValueError (c : CFDI.t) (msg : string) :
  UUID_of c <> Err (ValueError msg).
Proof.
  unfold UUID_of, item, subscript.
  destruct (CFDI.Complemento c) as [| |[| |[| |u]]]; simpl; discriminate.
Qed.

Lemma docto_total_no_ValueError (c : CFDI.t) (msg : string) :
  docto_total c <> Err (ValueError msg).
Proof.
  unfold docto_total. intros Hd.
  apply bind_Err in Hd as [Hu | (uuid & _ & Hd)];
    [exact (UUID_of_no_ValueError _ _ Hu)|].
  apply bind_Err in Hd as [Hm | (metodo & _ & Hd)].
  { destruct (CFDI.MetodoPago c); discriminate. }
  apply bind_Err in Hd as [Hi | (dr & _ & Hd)]; [|discriminate].
  destruct (CFDI.has_Impuestos c); [|discriminate].
  destruct (make_impuestos_dr (CFDI.Conceptos c)); discriminate.
Qed.

(** The constructor on the single concept of a payment document never
    raises a [ValueError]: the concept has no tax entries and is not
    tax-inclusive. *)
Lemma Comprobante_pago_no_ValueError emisor lugar_expedicion receptor
    complemento_pago cfdi_relacionados confirmacion serie folio addenda fecha
    (msg : string) :
  Comprobante_pago emisor lugar_expedicion receptor complemento_pago
    cfdi_relacionados confirmacion serie folio addenda fecha
  <> Err (ValueError msg).
Proof.
  unfold Comprobante_pago, Comprobante_init. intros Hc.
  apply bind_Err in Hc as [Hr | (rnd_fn & _ & Hc)].
  { destruct (rounder "XXX"); discriminate. }
  simpl in Hc.
  apply bind_Err in Hc as [Hm | (impuestos & _ & Hc)].
  { destruct (make_impuestos _); discriminate. }
  apply bind_Err in Hc as [Ha | (total & _ & Hc)].
  { destruct impuestos as [i|]; simpl in Ha; [|discriminate].
    destruct (DocImpuestos.TotalImpuestosTrasladados i); simpl in Ha;
      try discriminate;
      destruct (DocImpuestos.TotalImpuestosRetenidos i); discriminate. }
  destruct (Issuer.signer emisor) as [s|]; [|discriminate].
  apply bind_Err in Hc as [Hs | (cadena & _ & Hc)].
  { destruct (cadena_original _); discriminate. }
  apply bind_Err in Hc as [Hs | (sello & _ & Hc)]; [|discriminate].
  destruct (Signer.sign_sha256 s cadena); discriminate.
Qed.

Variables (emisor : Issuer.t) (lugar_expedicion : string)
  (fecha_pago : datetime) (forma_pago : string) (tipo_cambio : option Decimal)
  (cfdi_relacionados : list Node) (confirmacion serie folio : option string)
  (addenda : option Node) (fecha : option datetime).

Local Abbreviation pay comprobantes :=
  (pago_comprobantes emisor lugar_expedicion comprobantes fecha_pago forma_pago
     tipo_cambio cfdi_relacionados confirmacion serie folio addenda fecha).

(** What [pago_comprobantes] does once the comprobantes agree. *)
Local Abbreviation pay_all first comprobantes :=
  (doctos ← mapM docto_total comprobantes;
   complemento ← call (Pagos
     [ {| Pago.DoctoRelacionado := doctos;
          Pago.FechaPago := fecha_pago;
          Pago.FormaDePagoP := forma_pago;
          Pago.MonedaP := CFDI.Moneda first;
          Pago.TipoCambioP := adjust_tipo_cambio (CFDI.Moneda first) tipo_cambio |} ]);
   Comprobante_pago emisor lugar_expedicion (CFDI.Receptor first) complemento
     cfdi_relacionados confirmacion serie folio addenda fecha).

Lemma pago_comprobantes_guard (first : CFDI.t) (rest : list CFDI.t) :
  pay (first :: rest) =
    if forallb (agrees (CFDI.Moneda first) emisor (CFDI.Receptor first))
               (first :: rest)
    then pay_all first (first :: rest)
    else Err (ValueError msg_mismatch).
Proof.
  unfold pago_comprobantes.
  change (index (first :: rest) 0) with (Ok first). cbn [mbind result_bind].
  destruct (forallb _ (first :: rest)); reflexivity.
Qed.

Lemma pay_all_no_ValueError (first : CFDI.t) (comprobantes : list CFDI.t)
    (msg : string) :
  pay_all first comprobantes <> Err (ValueError msg).
Proof.
  intros Hp. apply bind_Err in Hp as [Hm | (doctos & _ & Hp)].
  { revert Hm. apply mapM_never. intros c. apply docto_total_no_ValueError. }
  apply bind_Err in Hp as [Hc | (complemento & _ & Hp)].
  { destruct (Pagos _); discriminate. }
  revert Hp. apply Comprobante_pago_no_ValueError.
Qed.

(** C7, as the code has it.  For a non-empty sequence of comprobantes,
    [pago_comprobantes] raises its [ValueError] if and only if some
    comprobante differs from the first one in currency, from the paying
    issuer in RFC or tax regime, or from the first one's receiver in RFC or
    tax regime.  When all agree it goes on to build one related-document
    entry per comprobante, paid in full in one instalment
    ([NumParcialidad] 1, [ImpSaldoAnt] and [ImpPagado] both the comprobante's
    [Total]) and hands them as a single payment to the complement and to
    [Comprobante.pago]; the document that comes back holds that complement
    and the first receiver with [UsoCFDI] ['CP01'].  Building an entry
    raises again when a comprobante lacks its stamp's UUID or its
    [MetodoPago] entry. *)
Theorem C7_pago_comprobantes (first : CFDI.t) (rest : list CFDI.t) :
  let comprobantes := first :: rest in
  let mismatch := differs (CFDI.Moneda first) emisor (CFDI.Receptor first) in
  (pay comprobantes = Err (ValueError msg_mismatch)
   <-> Exists mismatch comprobantes)
  /\ (Forall (fun c => ~ mismatch c) comprobantes ->
      pay comprobantes = pay_all first comprobantes)
  /\ (forall c, In c comprobantes ->
      is_Err (UUID_of c) \/ CFDI.MetodoPago c = Missing ->
      is_Err (pay comprobantes))
  /\ (forall doc, pay comprobantes = Ok doc ->
      exists doctos complemento,
        Forall2 (fun c d =>
                   docto_total c = Ok d
                   /\ DoctoRelacionado.NumParcialidad d = 1%Z
                   /\ DoctoRelacionado.ImpSaldoAnt d = CFDI.Total c
                   /\ DoctoRelacionado.ImpPagado d = CFDI.Total c
                   /\ DoctoRelacionado.MonedaDR d = CFDI.Moneda c)
                comprobantes doctos
        /\ Pagos [ {| Pago.DoctoRelacionado := doctos;
                      Pago.FechaPago := fecha_pago;
                      Pago.FormaDePagoP := forma_pago;
                      Pago.MonedaP := CFDI.Moneda first;
                      Pago.TipoCambioP :=
                        adjust_tipo_cambio (CFDI.Moneda first) tipo_cambio |} ]
           = Done complemento
        /\ Comprobante.Complemento doc = Some complemento
        /\ Comprobante.Receptor doc = with_UsoCFDI (CFDI.Receptor first) "CP01").
Proof.
  intros comprobantes mismatch. subst comprobantes mismatch.
  rewrite pago_comprobantes_guard.
  set (ok := agrees (CFDI.Moneda first) emisor (CFDI.Receptor first)).
  set (comprobantes := first :: rest).
  destruct (forallb ok comprobantes) eqn:Hall.
  - assert (Hnone : Forall (fun c => ~ differs (CFDI.Moneda first) emisor
                                        (CFDI.Receptor first) c) comprobantes).
    { apply Forall_forall. intros c Hin Hdiff.
      apply agrees_false_iff in Hdiff.
      rewrite forallb_forall in Hall. unfold ok in Hall.
      rewrite (Hall c) in Hdiff; [discriminate|].
      apply list_elem_of_In. exact Hin. }
    split; [|split; [|split]].
    + split.
      * intros Hp. exfalso. revert Hp. apply pay_all_no_ValueError.
      * intros Hex. exfalso. apply Exists_exists in Hex as (c & Hin & Hdiff).
        rewrite Forall_forall in Hnone. exact (Hnone c Hin Hdiff).
    + reflexivity.
    + intros c Hin Hmissing. apply in_split in Hin as (pre & post & Hsplit).
      rewrite Hsplit.
      apply is_Err_bind. intros doctos Hd. exfalso.
      assert (Hc : is_Err (docto_total c)).
      { unfold docto_total. destruct Hmissing as [[e He] | Hmissing].
        - rewrite He. eexists. reflexivity.
        - apply is_Err_bind. intros uuid _.
          rewrite Hmissing. eexists. reflexivity. }
      destruct (mapM_raises docto_total pre post c Hc) as [e He]. congruence.
    + intros doc Hp.
      apply bind_Ok in Hp as (doctos & Hd & Hp).
      apply bind_Ok in Hp as (complemento & Hc & Hp). apply call_Ok in Hc.
      exists doctos, complemento. split; [|split; [exact Hc|]].
      * apply mapM_Ok in Hd. eapply Forall2_impl; [exact Hd|].
        intros c d Hcd. split; [exact Hcd|].
        unfold docto_total in Hcd.
        apply bind_Ok in Hcd as (uuid & _ & Hcd).
        apply bind_Ok in Hcd as (metodo & _ & Hcd).
        apply bind_Ok in Hcd as (dr & _ & [= <-]).
        repeat split.
      * unfold Comprobante_pago in Hp.
        apply build_Ok in Hp
          as (_ & _ & _ & _ & _ & _ & _ & _ & _ & _ & _ & _ & Hre & Hco).
        split; assumption.
  - split; [|split; [|split]].
    + split; [intros _ | reflexivity].
      apply forallb_false_Exists in Hall.
      eapply Exists_impl; [exact Hall|]. intros c. apply agrees_false_iff.
    + intros Hnone. exfalso.
      apply forallb_false_Exists, Exists_exists in Hall as (c & Hin & Hc).
      apply agrees_false_iff in Hc.
      rewrite Forall_forall in Hnone. exact (Hnone c Hin Hc).
    + intros c _ _. eexists. reflexivity.
    + intros doc Hp. discriminate.
Qed.

End PaymentProperties.

(** ** Rounding at a currency's precision *)

Section Rounding.
Local Open Scope Q_scope.

Lemma nearest_error (y : Q) : Qabs (inject_Z (Spec.nearest y) - y) <= 1 # 2.
Proof.
  apply Qabs_Qle_condition. unfold Spec.nearest.
  destruct (Qle_bool 0 y).
  - pose proof (Qfloor_le (y + (1 # 2))) as Hlo.
    pose proof (Qlt_floor (y + (1 # 2))) as Hhi.
    rewrite inject_Z_plus in Hhi. change (inject_Z 1) with 1 in Hhi.
    split; lra.
  - pose proof (Qfloor_le (- y + (1 # 2))) as Hlo.
    pose proof (Qlt_floor (- y + (1 # 2))) as Hhi.
    rewrite inject_Z_plus in Hhi. change (inject_Z 1) with 1 in Hhi.
    rewrite inject_Z_opp. split; lra.
Qed.

Lemma nearest_comp (x y : Q) : x == y -> Spec.nearest x = Spec.nearest y.
Proof.
  intros E. unfold Spec.nearest.
  assert (Hb : Qle_bool 0 x = Qle_bool 0 y).
  { destruct (Qle_bool 0 x) eqn:Hx, (Qle_bool 0 y) eqn:Hy; try reflexivity.
    - apply Qle_bool_iff in Hx. rewrite E in Hx. apply Qle_bool_iff in Hx. congruence.
    - apply Qle_bool_iff in Hy. rewrite <- E in Hy. apply Qle_bool_iff in Hy. congruence. }
  rewrite Hb. destruct (Qle_bool 0 y).
  - apply Qfloor_comp. rewrite E. reflexivity.
  - f_equal. apply Qfloor_comp. rewrite E. reflexivity.
Qed.

Lemma nearest_inject_Z (n : Z) : Spec.nearest (inject_Z n) = n.
Proof.
  unfold Spec.nearest. destruct (Qle_bool 0 (inject_Z n)).
  - unfold Qfloor, inject_Z, Qplus. simpl.
    rewrite Z.mul_1_r. symmetry. apply (Z.div_unique _ _ _ 1); lia.
  - unfold Qfloor, inject_Z, Qplus, Qopp. simpl.
    change (Z.pos (1 * 2)) with 2%Z.
    assert ((- n * 2 + 1 * 1) / 2 = - n)%Z as ->
      by (symmetry; apply (Z.div_unique _ _ _ 1); lia).
    lia.
Qed.

Lemma quantize_comp (d : nat) (x y : Q) : x == y -> Spec.quantize d x = Spec.quantize d y.
Proof.
  intros E. unfold Spec.quantize. f_equal. apply nearest_comp. rewrite E. reflexivity.
Qed.

Lemma scale_unit (s : positive) : inject_Z (Zpos s) * (1 # s) == 1.
Proof. unfold Qeq, inject_Z, Qmult. simpl. lia. Qed.

Lemma quantize_grid (d : nat) (n : Z) :
  Spec.quantize d (n # Spec.scale d) = n # Spec.scale d.
Proof.
  unfold Spec.quantize. f_equal.
  rewrite <- (nearest_inject_Z n) at 2. apply nearest_comp.
  unfold Qeq, inject_Z, Qmult. simpl. lia.
Qed.

Lemma quantize_error (d : nat) (x : Q) :
  Qabs (Spec.quantize d x - x) <= Spec.unit_of d / 2.
Proof.
  unfold Spec.quantize, Spec.unit_of.
  set (s := Spec.scale d). set (k := inject_Z (Zpos s)).
  set (n := Spec.nearest (x * k)).
  pose proof (nearest_error (x * k)) as Hn. fold n in Hn.
  pose proof (scale_unit s) as Hs. fold k in Hs.
  assert (E : (n # s) - x == (inject_Z n - x * k) * (1 # s)).
  { assert (En : n # s == inject_Z n * (1 # s)).
    { unfold Qeq, inject_Z, Qmult. simpl. lia. }
    rewrite En.
    transitivity (inject_Z n * (1 # s) - x * (k * (1 # s)));
      [rewrite Hs; ring | ring]. }
  rewrite E, Qabs_Qmult.
  assert (Ha : Qabs (1 # s) == 1 # s) by (apply Qabs_pos; discriminate).
  rewrite Ha.
  apply Qle_trans with ((1 # 2) * (1 # s)).
  - apply Qmult_le_compat_r; [exact Hn | discriminate].
  - assert (Eh : (1 # 2) * (1 # s) == (1 # s) / 2) by field.
    rewrite Eh. apply Qle_refl.
Qed.

(** A payment of the whole total takes the whole of an amount that is a
    multiple of the currency unit. *)
Lemma prorate_full (d : nat) (paid total a : Q) (n : Z) :
  ~ total == 0 -> paid == total -> a == n # Spec.scale d ->
  Spec.prorate (Spec.quantize d) paid total a == a.
Proof.
  intros Hnz Hp Ha. unfold Spec.prorate.
  rewrite (quantize_comp d (a * paid / total) (n # Spec.scale d)).
  - rewrite quantize_grid. symmetry. exact Ha.
  - rewrite Hp, <- Ha. field. exact Hnz.
Qed.

(** A payment of half the total takes half of an amount, within half a
    currency unit. *)
Lemma prorate_half (d : nat) (paid total a : Q) :
  ~ total == 0 -> paid == total / 2 ->
  Qabs (Spec.prorate (Spec.quantize d) paid total a - a / 2)
  <= Spec.unit_of d / 2.
Proof.
  intros Hnz Hp. unfold Spec.prorate.
  rewrite (quantize_comp d (a * paid / total) (a / 2)).
  - apply quantize_error.
  - rewrite Hp. field. exact Hnz.
Qed.

End Rounding.

(** * Further properties *)

(** ** Composing and parsing a compact tax string *)

Lemma split_app (sep : ascii) (a b : string) :
  contains sep a = false ->
  split sep (a ++ String sep b) = a :: split sep b.
Proof.
  induction a as [|c a IH]; simpl.
  - intros _. rewrite Ascii.eqb_refl. reflexivity.
  - destruct (Ascii.eqb c sep); [discriminate|].
    intros Ha. rewrite (IH Ha). reflexivity.
Qed.

Section ParseComposed.
Context `{DecimalModule}.

(** X1. Parsing inverts composing: for a kind and a factor that contain no
    bar, the text [kind|factor] parses to that kind (coded) and factor with
    no rate, and [kind|factor|rate] to the same with the rate [Decimal]
    makes of the third part, whatever follows a further bar. *)
Theorem X1_parse_composed (kind factor rate rest : string) :
  contains "|" kind = false ->
  contains "|" factor = false ->
  contains "|" rate = false ->
  Impuesto_parse (kind ++ "|" ++ factor)
  = Ok (Impuesto_init kind factor None None None)
  /\ Impuesto_parse (kind ++ "|" ++ factor ++ "|" ++ rate)
     = (d ← call (Decimal_of_str rate);
        mret (Impuesto_init kind factor (Some d) None None))
  /\ Impuesto_parse (kind ++ "|" ++ factor ++ "|" ++ rate ++ "|" ++ rest)
     = Impuesto_parse (kind ++ "|" ++ factor ++ "|" ++ rate).
Proof.
  intros Hk Hf Hr.
  assert (E2 : split "|" (kind ++ "|" ++ factor) = [kind; factor]).
  { change (kind ++ "|" ++ factor) with (kind ++ String "|" factor).
    rewrite (split_app _ _ _ Hk).
    apply split_one_part in Hf. rewrite Hf. reflexivity. }
  assert (E3 : split "|" (kind ++ "|" ++ factor ++ "|" ++ rate)
               = [kind; factor; rate]).
  { change (kind ++ "|" ++ factor ++ "|" ++ rate)
      with (kind ++ String "|" (factor ++ String "|" rate)).
    rewrite (split_app _ _ _ Hk), (split_app _ _ _ Hf).
    apply split_one_part in Hr. rewrite Hr. reflexivity. }
  assert (E4 : split "|" (kind ++ "|" ++ factor ++ "|" ++ rate ++ "|" ++ rest)
               = kind :: factor :: rate :: split "|" rest).
  { change (kind ++ "|" ++ factor ++ "|" ++ rate ++ "|" ++ rest)
      with (kind ++ String "|" (factor ++ String "|" (rate ++ String "|" rest))).
    rewrite (split_app _ _ _ Hk), (split_app _ _ _ Hf), (split_app _ _ _ Hr).
    reflexivity. }
  rewrite (parse_parts _ _ _ _ E2), (parse_parts _ _ _ _ E3),
    (parse_parts _ _ _ _ E4).
  repeat split.
Qed.

End ParseComposed.

(** X2. Coding the kind is idempotent: an [Impuesto] built from the kind
    another [Impuesto] stores keeps that kind (a code is never the name of
    another tax). *)
Theorem X2_kind_code_idempotent (impuesto f f' : string)
    (r i b r' i' b' : option Decimal) :
  let stored := Impuesto.Impuesto (Impuesto_init impuesto f r i b) in
  Impuesto.Impuesto (Impuesto_init stored f' r' i' b') = stored.
Proof.
  cbv zeta. simpl.
  destruct (String.eqb_spec impuesto "ISR") as [->|H1]; [reflexivity|].
  destruct (String.eqb_spec impuesto "IVA") as [->|H2]; [reflexivity|].
  destruct (String.eqb_spec impuesto "IEPS") as [->|H3]; [reflexivity|].
  rewrite !(_impuestos_other impuesto H1 H2 H3). simpl.
  rewrite (_impuestos_other impuesto H1 H2 H3). reflexivity.
Qed.

(** ** What a turn of the loop leaves in a concept *)

Section Marking.
Context `{DecimalModule} `{ComputeModule} `{CfdiModule}.

(** The three ways a turn of the loop ends. *)
Lemma process_concepto_shape rnd_fn c c' :
  process_concepto rnd_fn c = Ok c' ->
  exists stored importe,
    (not_subject (Concepto.ObjetoImp c) = true
     /\ c' = set_amounts c stored importe (Concepto.ObjetoImp c) PyNone)
    \/ (not_subject (Concepto.ObjetoImp c) = false
        /\ parsed ConceptoImpuestos.Traslados c = Ok []
        /\ parsed ConceptoImpuestos.Retenciones c = Ok []
        /\ c' = set_amounts c stored importe (Some "01") PyNone)
    \/ (not_subject (Concepto.ObjetoImp c) = false
        /\ exists ts rs,
             (ts <> [] \/ rs <> [])
             /\ c' = set_amounts c stored importe (Some "02")
                       (Val {| ConceptoImpuestos.Traslados := Obj <$> ts;
                               ConceptoImpuestos.Retenciones := Obj <$> rs |})).
Proof.
  unfold process_concepto, parsed. intros Hp.
  apply bind_Ok in Hp as (ts & Hts & Hp). rewrite Hts.
  apply bind_Ok in Hp as (trasladados & Htr & Hp).
  apply bind_Ok in Hp as (rs & Hrs & Hp). rewrite Hrs.
  apply bind_Ok in Hp as (retenciones & Hre & Hp).
  apply bind_Ok in Hp as ([valor_unitario stored] & Hup & Hp).
  exists stored, (rnd_fn (Concepto.Cantidad c * valor_unitario)%Q). simpl in *.
  destruct (not_subject (Concepto.ObjetoImp c)) eqn:Hns.
  - left. injection Hp as <-. split; reflexivity.
  - right.
    apply bind_Ok in Hp as (ts' & Hts' & Hp).
    apply bind_Ok in Hp as (rs' & Hrs' & Hp).
    pose proof (Forall2_length _ _ _ (proj1 (mapM_Ok _ _ _) Hts')) as Lt.
    pose proof (Forall2_length _ _ _ (proj1 (mapM_Ok _ _ _) Hrs')) as Lr.
    destruct ts' as [|t ts'], rs' as [|r rs']; injection Hp as <-.
    + left. destruct trasladados; [|discriminate].
      destruct retenciones; [|discriminate].
      rewrite Htr, Hre. repeat split.
    + right. split; [reflexivity|]. exists [], (r :: rs').
      split; [right; discriminate | reflexivity].
    + right. split; [reflexivity|]. exists (t :: ts'), [].
      split; [left; discriminate | reflexivity].
    + right. split; [reflexivity|]. exists (t :: ts'), (r :: rs').
      split; [left; discriminate | reflexivity].
Qed.

Lemma not_subject_true (o : option string) :
  not_subject o = true <-> o = Some "01" \/ o = Some "03".
Proof.
  unfold not_subject. destruct o as [o|].
  - rewrite orb_true_iff, !String.eqb_eq. split.
    + intros [-> | ->]; auto.
    + intros [[= ->] | [= ->]]; auto.
  - split; [discriminate | intros [H'|H']; discriminate].
Qed.

Variables (emisor : Issuer.t) (lugar_expedicion : string)
  (receptor : Receptor.t) (moneda tipo_de_comprobante exportacion : string)
  (serie folio forma_pago condiciones_de_pago : option string)
  (tipo_cambio : option Decimal) (metodo_pago confirmacion : option string)
  (informacion_global : option Node) (cfdi_relacionados : list Node)
  (complemento addenda : option Node) (fecha : option datetime).

Local Abbreviation build conceptos :=
  (Comprobante_init emisor lugar_expedicion receptor conceptos moneda
     tipo_de_comprobante exportacion serie folio forma_pago
     condiciones_de_pago tipo_cambio metodo_pago confirmacion
     informacion_global cfdi_relacionados complemento addenda fecha).

(** X3. In a document the constructor returns, every concept is marked:
    [ObjetoImp] is ['02'] exactly when the concept carries its tax node,
    which then holds at least one record and only computed [Impuesto]
    records; every other concept has [Impuestos] set to [None] and is
    marked ['01'] or ['03'].  No concept is left without a mark. *)
Theorem X3_ObjetoImp_marks_taxes (conceptos : list Concepto.t)
    (doc : Comprobante.t) :
  build conceptos = Ok doc ->
  Forall
    (fun c' =>
       (Concepto.Impuestos c' = PyNone
        /\ (Concepto.ObjetoImp c' = Some "01"
            \/ Concepto.ObjetoImp c' = Some "03"))
       \/ (Concepto.ObjetoImp c' = Some "02"
           /\ exists ts rs,
                (ts <> [] \/ rs <> [])
                /\ Concepto.Impuestos c'
                   = Val {| ConceptoImpuestos.Traslados := Obj <$> ts;
                            ConceptoImpuestos.Retenciones := Obj <$> rs |}))
    (Comprobante.Conceptos doc).
Proof.
  intros Hb. apply build_Ok in Hb as (rnd_fn & _ & _ & _ & Hcs & _).
  apply mapM_Ok in Hcs.
  induction Hcs as [|c c' l l' Hc _ IH]; constructor; [|exact IH].
  apply process_concepto_shape in Hc
    as (stored & importe & [[Hns ->] | [(_ & _ & _ & ->) | (_ & ts & rs & Hne & ->)]]).
  - left. split; [reflexivity|]. apply not_subject_true, Hns.
  - left. split; [reflexivity | left; reflexivity].
  - right. split; [reflexivity|]. exists ts, rs. split; [exact Hne | reflexivity].
Qed.

(** X4. The loop only writes [Importe], [ObjetoImp], [Impuestos] and, for a
    tax-inclusive concept, [ValorUnitario]: product key, quantity, unit,
    description, identification, discount and the tax-inclusive flag of
    every concept are those given, in the order given, and so is the unit
    price of a concept that is not tax-inclusive. *)
Theorem X4_loop_frame (conceptos : list Concepto.t) (doc : Comprobante.t) :
  build conceptos = Ok doc ->
  Forall2
    (fun c c' =>
       Concepto.ClaveProdServ c' = Concepto.ClaveProdServ c
       /\ Concepto.Cantidad c' = Concepto.Cantidad c
       /\ Concepto.ClaveUnidad c' = Concepto.ClaveUnidad c
       /\ Concepto.Descripcion c' = Concepto.Descripcion c
       /\ Concepto.NoIdentificacion c' = Concepto.NoIdentificacion c
       /\ Concepto.Unidad c' = Concepto.Unidad c
       /\ Concepto.Descuento c' = Concepto.Descuento c
       /\ Concepto._traslados_incluidos c' = Concepto._traslados_incluidos c
       /\ (Concepto._traslados_incluidos c = false ->
           Concepto.ValorUnitario c' = Concepto.ValorUnitario c))
    conceptos (Comprobante.Conceptos doc).
Proof.
  intros Hb. apply build_Ok in Hb as (rnd_fn & _ & _ & _ & Hcs & _).
  apply mapM_Ok in Hcs. eapply Forall2_impl; [exact Hcs|].
  intros c c' Hc. pose proof Hc as Hshape.
  apply process_concepto_Ok in Hc as (tr & _ & vu & _ & _ & Hup & _).
  apply process_concepto_shape in Hshape
    as (stored & importe & [[_ ->] | [(_ & _ & _ & ->) | (_ & ts & rs & _ & ->)]]);
    simpl in *; repeat (split; [reflexivity|]);
    intros Hgiven; rewrite (unit_price_given _ _ _ Hgiven) in Hup; congruence.
Qed.

End Marking.

(** ** Entries and concepts the loop cannot take *)

Section Refused.
Context `{DecimalModule} `{ComputeModule} `{CfdiModule}.

Lemma as_Impuesto_refuses (x : tax_item) :
  (exists i, x = Dict i) \/ (exists s, x = Str s /\ contains "|" s = false) ->
  is_Err (as_Impuesto x).
Proof.
  intros [[i ->] | (s & -> & Hs)]; simpl.
  - eexists. reflexivity.
  - apply split_one_part in Hs. unfold Impuesto_parse. rewrite Hs.
    eexists. reflexivity.
Qed.

Lemma process_concepto_refuses rnd_fn c d x :
  Concepto.Impuestos c = Val d ->
  In x (ConceptoImpuestos.Traslados d ++ ConceptoImpuestos.Retenciones d) ->
  is_Err (as_Impuesto x) ->
  is_Err (process_concepto rnd_fn c).
Proof.
  intros Hd Hin Hx. unfold process_concepto, tax_items. rewrite Hd. simpl.
  apply in_app_or in Hin as [Hin | Hin];
    apply in_split in Hin as (pre & post & Hsplit).
  - destruct (mapM_raises as_Impuesto pre post x Hx) as [e He].
    rewrite Hsplit, He. eexists. reflexivity.
  - apply is_Err_bind. intros trasladados _.
    destruct (mapM_raises as_Impuesto pre post x Hx) as [e He].
    rewrite Hsplit, He. eexists. reflexivity.
Qed.

Variables (emisor : Issuer.t) (lugar_expedicion : string)
  (receptor : Receptor.t) (moneda tipo_de_comprobante exportacion : string)
  (serie folio forma_pago condiciones_de_pago : option string)
  (tipo_cambio : option Decimal) (metodo_pago confirmacion : option string)
  (informacion_global : option Node) (cfdi_relacionados : list Node)
  (complemento addenda : option Node) (fecha : option datetime).

Local Abbreviation build conceptos :=
  (Comprobante_init emisor lugar_expedicion receptor conceptos moneda
     tipo_de_comprobante exportacion serie folio forma_pago
     condiciones_de_pago tipo_cambio metodo_pago confirmacion
     informacion_global cfdi_relacionados complemento addenda fecha).

(** The constructor raises what the first turn of the loop that raises
    does. *)
Lemma build_stops (pre post : list Concepto.t) (c : Concepto.t)
    (rnd_fn : Decimal -> Decimal) (e : error) :
  rounder moneda = Done rnd_fn ->
  is_Ok (mapM (process_concepto rnd_fn) pre) ->
  process_concepto rnd_fn c = Err e ->
  build (pre ++ c :: post) = Err e.
Proof.
  intros Hr [pre' Hpre] Hc. unfold Comprobante_init. rewrite Hr. simpl.
  rewrite (mapM_stops _ pre post pre' c e Hpre Hc). reflexivity.
Qed.

Lemma build_raises (pre post : list Concepto.t) (c : Concepto.t) :
  (forall rnd_fn, is_Err (process_concepto rnd_fn c)) ->
  is_Err (build (pre ++ c :: post)).
Proof.
  intros Hc. unfold Comprobante_init.
  apply is_Err_bind. intros rnd_fn _.
  destruct (mapM_raises (process_concepto rnd_fn) pre post c (Hc rnd_fn))
    as [e He].
  rewrite He. eexists. reflexivity.
Qed.

(** X5. A tax entry given as a plain dict, or as a string without a bar,
    in the transferred or withheld entries of any concept makes the
    constructor raise: no document is returned, whatever the concept's
    [ObjetoImp] (the entries are parsed before it is looked at) and wherever
    the concept stands in the list. *)
Theorem X5_unparsable_entry_aborts (pre post : list Concepto.t)
    (c : Concepto.t) (d : ConceptoImpuestos.t) (x : tax_item) :
  Concepto.Impuestos c = Val d ->
  In x (ConceptoImpuestos.Traslados d ++ ConceptoImpuestos.Retenciones d) ->
  (exists i, x = Dict i) \/ (exists s, x = Str s /\ contains "|" s = false) ->
  is_Err (build (pre ++ c :: post))
  /\ forall doc, build (pre ++ c :: post) <> Ok doc.
Proof.
  intros Hd Hin Hx.
  assert (Herr : is_Err (build (pre ++ c :: post))).
  { apply build_raises. intros rnd_fn.
    apply (process_concepto_refuses rnd_fn c d x Hd Hin).
    apply as_Impuesto_refuses, Hx. }
  split; [exact Herr|]. intros doc Hdoc. destruct Herr as [e He]. congruence.
Qed.

(** X6. A concept the constructor has left without taxes cannot go through
    the constructor again: its [Impuestos] entry is [None], on which the
    loop calls [get], an [AttributeError].  So a second document over
    concepts of a first one is refused as soon as one of them is not marked
    ['02']. *)
Theorem X6_untaxed_concept_not_reusable (conceptos pre post : list Concepto.t)
    (doc : Comprobante.t) (c' : Concepto.t) :
  build conceptos = Ok doc ->
  In c' (Comprobante.Conceptos doc) ->
  Concepto.ObjetoImp c' <> Some "02" ->
  (forall rnd_fn, process_concepto rnd_fn c' = Err AttributeError)
  /\ is_Err (build (pre ++ c' :: post))
  /\ (forall rnd_fn, rounder moneda = Done rnd_fn ->
        is_Ok (mapM (process_concepto rnd_fn) pre) ->
        build (pre ++ c' :: post) = Err AttributeError).
Proof.
  intros Hb Hin Hmark.
  assert (Hnone : Concepto.Impuestos c' = PyNone).
  { apply build_Ok in Hb as (rnd_fn & _ & _ & _ & Hcs & _).
    apply mapM_Ok in Hcs. revert Hin.
    induction Hcs as [|c c2 l l' Hc _ IH]; simpl; [tauto|].
    intros [<- | Hin]; [|exact (IH Hin)].
    apply process_concepto_shape in Hc
      as (stored & importe
          & [[_ ->] | [(_ & _ & _ & ->) | (_ & ts & rs & _ & ->)]]);
      try reflexivity.
    exfalso. apply Hmark. reflexivity. }
  assert (Hraise : forall rnd_fn, process_concepto rnd_fn c' = Err AttributeError).
  { intros rnd_fn. unfold process_concepto, tax_items. rewrite Hnone.
    reflexivity. }
  split; [exact Hraise|]. split.
  - apply build_raises. intros rnd_fn. eexists. apply Hraise.
  - intros rnd_fn Hr Hpre. apply (build_stops pre post c' rnd_fn _ Hr Hpre).
    apply Hraise.
Qed.

End Refused.

(** ** Edges of the back-solve *)

Lemma sum_TasaOCuota_skips (factor : string) (l : list Impuesto.t) (acc : Q) :
  Forall (fun t => Impuesto.TipoFactor t <> factor) l ->
  sum_TasaOCuota factor l acc = Ok acc.
Proof.
  intros Hall. revert acc. induction Hall as [|t l Ht _ IH]; intros acc; simpl.
  - reflexivity.
  - apply String.eqb_neq in Ht. rewrite Ht. apply IH.
Qed.

Lemma sum_TasaOCuota_only_TypeError (factor : string) (l : list Impuesto.t)
    (acc : Q) (e : error) :
  sum_TasaOCuota factor l acc = Err e -> e = TypeError.
Proof.
  revert acc. induction l as [|t l IH]; intros acc; simpl; [discriminate|].
  destruct (String.eqb (Impuesto.TipoFactor t) factor); [|apply IH].
  destruct (Impuesto.TasaOCuota t); [apply IH | congruence].
Qed.

Lemma sum_TasaOCuota_None (factor : string) (l : list Impuesto.t) (acc : Q)
    (t : Impuesto.t) :
  In t l -> Impuesto.TipoFactor t = factor -> Impuesto.TasaOCuota t = None ->
  sum_TasaOCuota factor l acc = Err TypeError.
Proof.
  intros Hin Hf Hr. revert acc. induction l as [|x l IH]; intros acc; simpl.
  - destruct Hin.
  - destruct Hin as [-> | Hin].
    + apply String.eqb_eq in Hf. rewrite Hf, Hr. reflexivity.
    + destruct (String.eqb (Impuesto.TipoFactor x) factor); [|apply IH, Hin].
      destruct (Impuesto.TasaOCuota x); [apply IH, Hin | reflexivity].
Qed.

Section BackSolve.
Context `{DecimalModule} `{ComputeModule} `{CfdiModule}.
Variables (emisor : Issuer.t) (lugar_expedicion : string)
  (receptor : Receptor.t) (moneda tipo_de_comprobante exportacion : string)
  (serie folio forma_pago condiciones_de_pago : option string)
  (tipo_cambio : option Decimal) (metodo_pago confirmacion : option string)
  (informacion_global : option Node) (cfdi_relacionados : list Node)
  (complemento addenda : option Node) (fecha : option datetime).

Local Abbreviation build conceptos :=
  (Comprobante_init emisor lugar_expedicion receptor conceptos moneda
     tipo_de_comprobante exportacion serie folio forma_pago
     condiciones_de_pago tipo_cambio metodo_pago confirmacion
     informacion_global cfdi_relacionados complemento addenda fecha).


(** X9. A tax-inclusive concept one of whose rate or fee records has no
    rate (as the string ['IVA|Tasa'] gives) makes the constructor raise a
    [TypeError], from adding [None] to the sum of rates, before the check
    for a base or an amount is reached. *)
Theorem X9_rate_missing_TypeError (pre post : list Concepto.t) (c : Concepto.t)
    (rnd_fn : Decimal -> Decimal) (trasladados : list Impuesto.t)
    (t : Impuesto.t) :
  rounder moneda = Done rnd_fn ->
  is_Ok (mapM (process_concepto rnd_fn) pre) ->
  Concepto._traslados_incluidos c = true ->
  parsed ConceptoImpuestos.Traslados c = Ok trasladados ->
  is_Ok (parsed ConceptoImpuestos.Retenciones c) ->
  In t trasladados ->
  Impuesto.TipoFactor t = "Tasa" \/ Impuesto.TipoFactor t = "Cuota" ->
  Impuesto.TasaOCuota t = None ->
  build (pre ++ c :: post) = Err TypeError.
Proof.
  intros Hr Hpre Hincl Htr [retenciones Hre] Hin Hf Hnone.
  apply build_stops with (rnd_fn := rnd_fn); [exact Hr | exact Hpre |].
  unfold parsed in Htr, Hre. unfold process_concepto.
  apply bind_Ok in Htr as (ts & Hts & Htr). rewrite Hts. simpl. rewrite Htr.
  apply bind_Ok in Hre as (rs & Hrs & Hre). rewrite Hrs. simpl. rewrite Hre.
  simpl. unfold unit_price. rewrite Hincl.
  destruct Hf as [Hf | Hf].
  - rewrite (sum_TasaOCuota_None "Tasa" _ _ t Hin Hf Hnone). reflexivity.
  - destruct (sum_TasaOCuota "Tasa" trasladados 0%Q) as [s_tasa|e] eqn:Hs.
    + simpl. rewrite (sum_TasaOCuota_None "Cuota" _ _ t Hin Hf Hnone).
      reflexivity.
    + apply sum_TasaOCuota_only_TypeError in Hs. subst e. reflexivity.
Qed.

(** X10. A tax-inclusive concept whose rates sum to -1 cannot be
    back-solved: with rates on all its rate and fee records, no base or
    amount on them and a price other than the sum of the fees, the
    constructor raises the decimal division by zero. *)
Theorem X10_rates_sum_minus_one (pre post : list Concepto.t) (c : Concepto.t)
    (rnd_fn : Decimal -> Decimal) (trasladados : list Impuesto.t)
    (s_tasa s_cuota : Decimal) :
  rounder moneda = Done rnd_fn ->
  is_Ok (mapM (process_concepto rnd_fn) pre) ->
  Concepto._traslados_incluidos c = true ->
  parsed ConceptoImpuestos.Traslados c = Ok trasladados ->
  is_Ok (parsed ConceptoImpuestos.Retenciones c) ->
  sum_TasaOCuota "Tasa" trasladados 0%Q = Ok s_tasa ->
  sum_TasaOCuota "Cuota" trasladados 0%Q = Ok s_cuota ->
  existsb carries_Base_or_Importe trasladados = false ->
  (s_tasa == -1)%Q ->
  ~ (Concepto.ValorUnitario c == s_cuota)%Q ->
  build (pre ++ c :: post) = Err DivisionByZero.
Proof.
  intros Hr Hpre Hincl Htr [retenciones Hre] Hst Hsc Hno Hminus Hnum.
  apply build_stops with (rnd_fn := rnd_fn); [exact Hr | exact Hpre |].
  unfold parsed in Htr, Hre. unfold process_concepto.
  apply bind_Ok in Htr as (ts & Hts & Htr). rewrite Hts. simpl. rewrite Htr.
  apply bind_Ok in Hre as (rs & Hrs & Hre). rewrite Hrs. simpl. rewrite Hre.
  simpl. unfold unit_price. rewrite Hincl, Hst. simpl. rewrite Hsc. simpl.
  rewrite Hno. unfold py_div.
  assert (Hz : Qeq_bool (s_tasa + 1) 0 = true).
  { apply Qeq_bool_iff. rewrite Hminus. reflexivity. }
  assert (Hn : Qeq_bool (Concepto.ValorUnitario c - s_cuota) 0 = false).
  { destruct (Qeq_bool (Concepto.ValorUnitario c - s_cuota) 0) eqn:E;
      [|reflexivity].
    exfalso. apply Hnum. apply Qeq_bool_iff in E. lra. }
  rewrite Hz, Hn. reflexivity.
Qed.

End BackSolve.

(** ** Sums over concept lists *)

Lemma fold_left_Qplus_acc (l : list Q) (acc : Q) :
  (fold_left Qplus l acc == acc + fold_left Qplus l 0)%Q.
Proof.
  revert acc. induction l as [|x l IH]; intros acc; simpl.
  - ring.
  - rewrite (IH (acc + x)%Q), (IH (0 + x)%Q). ring.
Qed.

Lemma py_sum_app (l1 l2 : list Q) :
  (py_sum (l1 ++ l2)%list == py_sum l1 + py_sum l2)%Q.
Proof.
  unfold py_sum. rewrite fold_left_app. apply fold_left_Qplus_acc.
Qed.

Lemma py_sum_Permutation (l l' : list Q) :
  Permutation l l' -> (py_sum l == py_sum l')%Q.
Proof.
  unfold py_sum. intros Hp.
  induction Hp as [|x l l' _ IH|x y l|l l' l'' _ IH1 _ IH2]; simpl.
  - reflexivity.
  - rewrite (fold_left_Qplus_acc l), (fold_left_Qplus_acc l'), IH. reflexivity.
  - rewrite (fold_left_Qplus_acc l (0 + y + x)),
      (fold_left_Qplus_acc l (0 + x + y)). ring.
  - rewrite IH1. exact IH2.
Qed.

Lemma Forall2_functional {A B} (f : A -> result B) (l : list A) (k k' : list B) :
  Forall2 (fun a b => f a = Ok b) l k ->
  Forall2 (fun a b => f a = Ok b) l k' -> k = k'.
Proof.
  intros Hk. revert k'. induction Hk as [|a b l k Hab _ IH]; intros k' Hk'.
  - inversion Hk'. reflexivity.
  - inversion Hk' as [|? b' ? k2 Hab' Hk2]; subst.
    f_equal; [congruence | apply IH, Hk2].
Qed.

Lemma mapM_app_Ok {A B} (f : A -> result B) (l1 l2 : list A) (k1 k2 : list B) :
  mapM f l1 = Ok k1 -> mapM f l2 = Ok k2 -> mapM f (l1 ++ l2) = Ok (k1 ++ k2)%list.
Proof.
  rewrite !mapM_Ok. apply Forall2_app.
Qed.

Section Sums.
Context `{DecimalModule} `{ComputeModule} `{CfdiModule}.
Variables (emisor : Issuer.t) (lugar_expedicion : string)
  (receptor : Receptor.t) (moneda tipo_de_comprobante exportacion : string)
  (serie folio forma_pago condiciones_de_pago : option string)
  (tipo_cambio : option Decimal) (metodo_pago confirmacion : option string)
  (informacion_global : option Node) (cfdi_relacionados : list Node)
  (complemento addenda : option Node) (fecha : option datetime).

Local Abbreviation build conceptos :=
  (Comprobante_init emisor lugar_expedicion receptor conceptos moneda
     tipo_de_comprobante exportacion serie folio forma_pago
     condiciones_de_pago tipo_cambio metodo_pago confirmacion
     informacion_global cfdi_relacionados complemento addenda fecha).

(** The subtotal and the discount of a document, from its concepts. *)
Lemma build_sums conceptos doc :
  build conceptos = Ok doc ->
  exists rnd_fn,
    rounder moneda = Done rnd_fn
    /\ mapM (process_concepto rnd_fn) conceptos = Ok (Comprobante.Conceptos doc)
    /\ Comprobante.SubTotal doc
       = py_sum (omap Concepto.Importe (Comprobante.Conceptos doc))
    /\ (or_zero (Comprobante.Descuento doc) == py_sum (descuentos conceptos))%Q.
Proof.
  intros Hb. apply build_Ok in Hb
    as (rnd_fn & importes & total & Hr & Hcs & Him & _ & _ & Hsub & Hdes & _).
  exists rnd_fn. repeat (split; [assumption|]). split.
  - rewrite Hsub, (Importe_of_omap _ _ Him). reflexivity.
  - rewrite Hdes, (processed_Descuento _ _ _ Hcs). apply or_zero_or_None.
Qed.



(** X13. Signing.  Without a signer the document carries an empty [Sello]
    and an empty [Certificado].  With a signer, [Certificado] is the
    signer's certificate and [Sello] is the signer's signature of the
    canonical string of the very document with [Sello] still empty; the
    signer is asked once the totals are in place, and nothing but [Sello]
    changes afterwards. *)
Theorem X13_Sello_signs_the_unsigned_document (conceptos : list Concepto.t)
    (doc : Comprobante.t) :
  build conceptos = Ok doc ->
  match Issuer.signer emisor with
  | None => Comprobante.Sello doc = "" /\ Comprobante.Certificado doc = ""
  | Some s =>
      Comprobante.Certificado doc = Signer.certificate_base64 s
      /\ exists cadena,
           cadena_original (with_Sello doc "") = Done cadena
           /\ Signer.sign_sha256 s cadena = Done (Comprobante.Sello doc)
  end.
Proof.
  unfold Comprobante_init. intros Hb.
  apply bind_Ok in Hb as (rnd_fn & _ & Hb).
  apply bind_Ok in Hb as (cs & _ & Hb).
  apply bind_Ok in Hb as (importes & _ & Hb).
  apply bind_Ok in Hb as (impuestos & _ & Hb).
  apply bind_Ok in Hb as (total & _ & Hb).
  destruct (Issuer.signer emisor) as [s|].
  - apply bind_Ok in Hb as (cadena & Hcad & Hb).
    apply bind_Ok in Hb as (sello & Hsig & [= <-]).
    apply call_Ok in Hcad, Hsig.
    split; [reflexivity|]. exists cadena. split; [exact Hcad | exact Hsig].
  - injection Hb as <-. split; reflexivity.
Qed.

End Sums.

(** ** Payment and payroll documents *)

Section Documents.
Context `{DecimalModule} `{ComputeModule} `{CfdiModule} `{Pago20Module}.
Variables (emisor : Issuer.t) (lugar_expedicion : string)
  (cfdi_relacionados : list Node) (confirmacion serie folio : option string)
  (addenda : option Node) (fecha : option datetime).

Lemma docto_parcial_no_ValueError c num_parcialidad imp_saldo_ant imp_pagado
    (msg : string) :
  docto_parcial c num_parcialidad imp_saldo_ant imp_pagado
  <> Err (ValueError msg).
Proof.
  unfold docto_parcial. intros Hd.
  apply bind_Err in Hd as [Hu | (uuid & _ & Hd)];
    [exact (UUID_of_no_ValueError _ _ Hu)|].
  apply bind_Err in Hd as [Hm | (metodo & _ & Hd)].
  { destruct (CFDI.MetodoPago c); discriminate. }
  apply bind_Err in Hd as [Hi | (dr & _ & Hd)]; [|discriminate].
  destruct (CFDI.has_Impuestos c); [|discriminate].
  apply bind_Err in Hi as [Hr | (rnd_fn & _ & Hi)].
  - destruct (rounder (CFDI.Moneda c)); discriminate.
  - destruct (make_impuestos_dr_parcial _ _ _ _ _); discriminate.
Qed.

(** X14. [pago_comprobante] raises no [ValueError] of its own: the payment
    takes its currency from the comprobante itself, so the comparison of
    the two currencies cannot fail, and neither the related-document entry
    nor the constructor of the payment document raises one (what an
    imported function raises is an [ImportedError]). *)
Theorem X14_pago_comprobante_no_ValueError (comprobante : CFDI.t)
    (num_parcialidad : Z) (imp_saldo_ant imp_pagado : Decimal)
    (fecha_pago : datetime) (forma_pago : string)
    (tipo_cambio : option Decimal) (msg : string) :
  pago_comprobante emisor lugar_expedicion comprobante num_parcialidad
    imp_saldo_ant imp_pagado fecha_pago forma_pago tipo_cambio
    cfdi_relacionados confirmacion serie folio addenda fecha
  <> Err (ValueError msg).
Proof.
  unfold pago_comprobante. rewrite String.eqb_refl. simpl. intros Hp.
  apply bind_Err in Hp as [Hd | (docto & _ & Hp)].
  { revert Hd. apply docto_parcial_no_ValueError. }
  apply bind_Err in Hp as [Hc | (complemento & _ & Hp)].
  { destruct (Pagos _); discriminate. }
  revert Hp. apply Comprobante_pago_no_ValueError.
Qed.

(** X15. Every document [Comprobante.pago] returns is a payment document:
    currency ['XXX'], type ['P'], export ['01'], no payment form, method,
    conditions or exchange rate, no discount and no taxes of its own; its
    only concept is the payment concept ['84111506'] with quantity 1 and
    unit price 0, marked ['01'] and without tax node; the receiver is the
    one given with [UsoCFDI] set to ['CP01'], and the complement is the one
    given. *)
Theorem X15_pago_document (receptor : Receptor.t) (complemento_pago : Node)
    (doc : Comprobante.t) :
  Comprobante_pago emisor lugar_expedicion receptor complemento_pago
    cfdi_relacionados confirmacion serie folio addenda fecha = Ok doc ->
  Comprobante.Moneda doc = "XXX"
  /\ Comprobante.TipoDeComprobante doc = "P"
  /\ Comprobante.Exportacion doc = "01"
  /\ Comprobante.FormaPago doc = None
  /\ Comprobante.MetodoPago doc = None
  /\ Comprobante.CondicionesDePago doc = None
  /\ Comprobante.TipoCambio doc = None
  /\ Comprobante.Descuento doc = None
  /\ Comprobante.Receptor doc = with_UsoCFDI receptor "CP01"
  /\ Comprobante.Complemento doc = Some complemento_pago
  /\ exists rnd_fn c,
       rounder "XXX" = Done rnd_fn
       /\ Comprobante.Conceptos doc = [c]
       /\ Concepto.ClaveProdServ c = "84111506"
       /\ Concepto.Cantidad c = 1%Q
       /\ Concepto.ValorUnitario c = 0%Q
       /\ Concepto.Importe c = Some (rnd_fn (1 * 0)%Q)
       /\ Concepto.ObjetoImp c = Some "01"
       /\ Concepto.Impuestos c = PyNone
       /\ Comprobante.SubTotal doc = (0 + rnd_fn (1 * 0))%Q.
Proof.
  unfold Comprobante_pago, Comprobante_init. intros Hb.
  apply bind_Ok in Hb as (rnd_fn & Hr & Hb). apply call_Ok in Hr.
  simpl in Hb.
  apply bind_Ok in Hb as (impuestos & _ & Hb).
  apply bind_Ok in Hb as (total & _ & Hb).
  destruct (Issuer.signer emisor) as [s|];
    [ apply bind_Ok in Hb as (cadena & _ & Hb);
      apply bind_Ok in Hb as (sello & _ & Hb) | ];
    injection Hb as <-; simpl;
    repeat (split; [reflexivity|]);
    (eexists rnd_fn, _; split; [exact Hr|]; split; [reflexivity|]);
    repeat split.
Qed.

(** X16. The document [pago_comprobante] returns holds the complement built
    from exactly one payment with exactly one related document: the
    instalment number, previous balance and amount paid are those given,
    the currencies of the related document and of the payment are the
    comprobante's, the equivalence is 1, [ObjetoImpDR] is ['02'] exactly
    when the comprobante has an ['Impuestos'] entry and there are no
    related taxes otherwise; the receiver is the comprobante's with
    [UsoCFDI] ['CP01']. *)
Theorem X16_pago_comprobante_entry (comprobante : CFDI.t) (num_parcialidad : Z)
    (imp_saldo_ant imp_pagado : Decimal) (fecha_pago : datetime)
    (forma_pago : string) (tipo_cambio : option Decimal) (doc : Comprobante.t) :
  pago_comprobante emisor lugar_expedicion comprobante num_parcialidad
    imp_saldo_ant imp_pagado fecha_pago forma_pago tipo_cambio
    cfdi_relacionados confirmacion serie folio addenda fecha = Ok doc ->
  exists docto complemento,
    docto_parcial comprobante num_parcialidad imp_saldo_ant imp_pagado
    = Ok docto
    /\ DoctoRelacionado.NumParcialidad docto = num_parcialidad
    /\ DoctoRelacionado.ImpSaldoAnt docto = imp_saldo_ant
    /\ DoctoRelacionado.ImpPagado docto = imp_pagado
    /\ DoctoRelacionado.MonedaDR docto = CFDI.Moneda comprobante
    /\ DoctoRelacionado.EquivalenciaDR docto = 1%Q
    /\ DoctoRelacionado.ObjetoImpDR docto
       = (if CFDI.has_Impuestos comprobante then "02" else "01")
    /\ (CFDI.has_Impuestos comprobante = false ->
        DoctoRelacionado.ImpuestosDR docto = None)
    /\ Pagos [ {| Pago.DoctoRelacionado := [docto];
                  Pago.FechaPago := fecha_pago;
                  Pago.FormaDePagoP := forma_pago;
                  Pago.MonedaP := CFDI.Moneda comprobante;
                  Pago.TipoCambioP :=
                    adjust_tipo_cambio (CFDI.Moneda comprobante) tipo_cambio |} ]
       = Done complemento
    /\ Comprobante.Complemento doc = Some complemento
    /\ Comprobante.Receptor doc
       = with_UsoCFDI (CFDI.Receptor comprobante) "CP01".
Proof.
  unfold pago_comprobante. rewrite String.eqb_refl. simpl. intros Hp.
  apply bind_Ok in Hp as (docto & Hd & Hp).
  apply bind_Ok in Hp as (complemento & Hc & Hp). apply call_Ok in Hc.
  exists docto, complemento. split; [exact Hd|].
  unfold Comprobante_pago in Hp.
  apply build_Ok in Hp
    as (_ & _ & _ & _ & _ & _ & _ & _ & _ & _ & _ & _ & Hre & Hco).
  unfold docto_parcial in Hd.
  apply bind_Ok in Hd as (uuid & _ & Hd).
  apply bind_Ok in Hd as (metodo & _ & Hd).
  apply bind_Ok in Hd as (dr & Hdr & Hd). injection Hd as Hd.
  rewrite <- Hd in *. simpl.
  repeat (split; [reflexivity|]).
  split; [|split; [exact Hc | split; assumption]].
  intros Hno. rewrite Hno in Hdr. injection Hdr as <-. reflexivity.
Qed.

(** X17. Every document [Comprobante.nomina] returns is a payroll document
    in pesos: type ['N'], method ['PUE'], form ['99'], receiver use
    ['CN01'], the complement given, and a single concept ['84111505'] of
    quantity 1 whose unit price is the sum of the complement's
    [TotalPercepciones] and [TotalOtrosPagos] (each 0 when absent), whose
    discount is [TotalDeducciones], and which is marked ['03'] and carries
    no taxes.  [SubTotal] is the rounded unit price, and the document
    discount is [TotalDeducciones] unless that is zero or absent. *)
Theorem X17_nomina_document (receptor : Receptor.t)
    (complemento_nomina : Nomina.t) (doc : Comprobante.t) :
  Comprobante_nomina emisor lugar_expedicion receptor complemento_nomina
    cfdi_relacionados confirmacion serie folio addenda fecha = Ok doc ->
  Comprobante.Moneda doc = "MXN"
  /\ Comprobante.TipoDeComprobante doc = "N"
  /\ Comprobante.MetodoPago doc = Some "PUE"
  /\ Comprobante.FormaPago doc = Some "99"
  /\ Comprobante.Receptor doc = with_UsoCFDI receptor "CN01"
  /\ Comprobante.Complemento doc = Some (Nomina.nodo complemento_nomina)
  /\ exists rnd_fn c,
       rounder "MXN" = Done rnd_fn
       /\ Comprobante.Conceptos doc = [c]
       /\ Concepto.ClaveProdServ c = "84111505"
       /\ Concepto.Cantidad c = 1%Q
       /\ Concepto.ValorUnitario c
          = (total_or_zero (Nomina.TotalPercepciones complemento_nomina)
             + total_or_zero (Nomina.TotalOtrosPagos complemento_nomina))%Q
       /\ Concepto.Descuento c = get (Nomina.TotalDeducciones complemento_nomina)
       /\ Concepto.ObjetoImp c = Some "03"
       /\ Concepto.Impuestos c = PyNone
       /\ Concepto.Importe c
          = Some (rnd_fn (1 * Concepto.ValorUnitario c)%Q)
       /\ Comprobante.SubTotal doc
          = (0 + rnd_fn (1 * Concepto.ValorUnitario c))%Q
       /\ (or_zero (Comprobante.Descuento doc)
           == or_zero (get (Nomina.TotalDeducciones complemento_nomina)))%Q.
Proof.
  unfold Comprobante_nomina. intros Hb.
  apply bind_Ok in Hb as (percepciones & Hper & Hb).
  apply bind_Ok in Hb as (otros & Hotr & Hb).
  apply get_total_Ok in Hper, Hotr. subst percepciones otros.
  pose proof Hb as Hb'.
  apply build_Ok in Hb'
    as (rnd_fn & importes & total & Hr & Hcs & Him & _ & _ & Hsub & Hdes & _
        & Hmon & Hre & Hco).
  simpl in Hcs. injection Hcs as Hcs.
  rewrite <- Hcs in Him, Hdes. simpl in Him. injection Him as <-.
  assert (Hfields : Comprobante.TipoDeComprobante doc = "N"
                    /\ Comprobante.MetodoPago doc = Some "PUE"
                    /\ Comprobante.FormaPago doc = Some "99").
  { unfold Comprobante_init in Hb.
    apply bind_Ok in Hb as (r & _ & Hb).
    apply bind_Ok in Hb as (cs & _ & Hb).
    apply bind_Ok in Hb as (ims & _ & Hb).
    apply bind_Ok in Hb as (imp & _ & Hb).
    apply bind_Ok in Hb as (tot & _ & Hb).
    destruct (Issuer.signer emisor) as [s|].
    - apply bind_Ok in Hb as (cadena & _ & Hb).
      apply bind_Ok in Hb as (sello & _ & [= <-]). repeat split.
    - injection Hb as <-. repeat split. }
  destruct Hfields as (Ht & Hm & Hf).
  repeat (split; [assumption|]).
  eexists rnd_fn, _. split; [exact Hr|]. split; [symmetry; exact Hcs|].
  simpl. repeat (split; [reflexivity|]).
  split; [exact Hsub|].
  rewrite Hdes. unfold descuentos, py_sum. simpl.
  rewrite or_zero_or_None.
  destruct (get (Nomina.TotalDeducciones complemento_nomina)) as [x|]; simpl;
    [|reflexivity].
  destruct (Qeq_bool x 0); ring.
Qed.

End Documents.


(** ** The portal sessions *)

Example replace_once :
  Portal.replace "nidp/wsfed/ep?id=SATUPCFDiCon" "nidp/app/login?id=SATx509Custom"
    "https://cfdiau.sat.gob.mx/nidp/wsfed/ep?id=SATUPCFDiCon&sid=0"
  = "https://cfdiau.sat.gob.mx/nidp/app/login?id=SATx509Custom&sid=0".
Proof. reflexivity. Qed.

Example replace_all_without_overlap :
  Portal.replace "aa" "b" "aaacaa" = "bacb".
Proof. reflexivity. Qed.

Example dict_or_keeps_places :
  Portal.dict_or [("guid", "1"); ("token", "")] [("token", "t"); ("fert", "f")]
  = [("guid", "1"); ("token", "t"); ("fert", "f")].
Proof. reflexivity. Qed.

Lemma dict_get_set_same (d : list (string * string)) (k v : string) :
  Portal.dict_get (Portal.dict_set d k v) k = Ok v.
Proof.
  induction d as [|[k' v'] d IH]; simpl.
  - rewrite String.eqb_refl. reflexivity.
  - destruct (String.eqb k' k) eqn:E; simpl.
    + rewrite String.eqb_refl. reflexivity.
    + rewrite E. exact IH.
Qed.

Lemma dict_get_set_other (d : list (string * string)) (k v k0 : string) :
  k <> k0 ->
  Portal.dict_get (Portal.dict_set d k v) k0 = Portal.dict_get d k0.
Proof.
  intros Hne. induction d as [|[k' v'] d IH]; simpl.
  - destruct (String.eqb k k0) eqn:E; [|reflexivity].
    apply String.eqb_eq in E. contradiction.
  - destruct (String.eqb k' k) eqn:E; simpl.
    + apply String.eqb_eq in E. subst k'.
      destruct (String.eqb k k0) eqn:E0; [|reflexivity].
      apply String.eqb_eq in E0. contradiction.
    + destruct (String.eqb k' k0); [reflexivity | exact IH].
Qed.

Section PortalProperties.
Context `{Portal.PortalModule}.

Lemma request_eq (r : Portal.Request) (s : Portal.Session) :
  Portal.request r s
  = (Portal.lift (fst (Portal.send r (Portal.world s))),
     Portal.mkSession (Portal.signer s)
       (Portal._request_verification_token s) (Portal._ajax_id s)
       (Portal.sent s ++ [r]) (snd (Portal.send r (Portal.world s)))).
Proof.
  unfold Portal.request. destruct (Portal.send r (Portal.world s)). reflexivity.
Qed.

Lemma draw_eq {A} (f : Portal.World -> A * Portal.World) (s : Portal.Session) :
  Portal.draw f s
  = (Portal.Returns (fst (f (Portal.world s))),
     Portal.mkSession (Portal.signer s)
       (Portal._request_verification_token s) (Portal._ajax_id s)
       (Portal.sent s) (snd (f (Portal.world s)))).
Proof. unfold Portal.draw. destruct (f (Portal.world s)). reflexivity. Qed.

Lemma draw_result_eq {A} (f : Portal.World -> result A * Portal.World)
    (s : Portal.Session) :
  Portal.draw_result f s
  = (Portal.lift (fst (f (Portal.world s))),
     Portal.mkSession (Portal.signer s)
       (Portal._request_verification_token s) (Portal._ajax_id s)
       (Portal.sent s) (snd (f (Portal.world s)))).
Proof. unfold Portal.draw_result. destruct (f (Portal.world s)). reflexivity. Qed.

Lemma answered (r : Portal.Request) (w : Portal.World) (res : Portal.Response) :
  fst (Portal.send r w) = Ok res ->
  Portal.send r w = (Ok res, snd (Portal.send r w)).
Proof. destruct (Portal.send r w). simpl. congruence. Qed.

Ltac innermost x :=
  lazymatch x with
  | context [match ?y with _ => _ end] => innermost y
  | _ => destruct x eqn:?
  end.

Ltac split_case :=
  match goal with
  | |- context [match ?x with _ => _ end] => innermost x
  end.

Ltac crunch :=
  repeat first
    [ rewrite request_eq
    | rewrite draw_eq
    | rewrite draw_result_eq
    | progress cbn
    | progress unfold Portal.lift
    | split_case ].

Ltac leaf := intros [= <- <-]; cbn; rewrite <- ?app_assoc; cbn.

Ltac api :=
  unfold Portal.token_header, Portal.api_request; cbn;
  repeat split; try (do 3 right; left; congruence).

Ltac unfold_monad :=
  unfold Portal.form, Portal.assert_, Portal.login_form, Portal.resultado,
    Portal.bind, Portal.read, Portal.ret, Portal.raise, Portal.pure,
    Portal.set_token, Portal.set_ajax_id.

(** What one call of [_request] does to the session, and where its answer
    comes from. *)
Lemma _request_run (meth path : string)
    (d : option (list (string * string)))
    (p : option (list (string * Portal.value))) (s : Portal.Session)
    (a : Portal.answer Portal.Json) (s' : Portal.Session) :
  Portal._request meth path d p s = (a, s') ->
  exists added,
    Portal.sent s' = (Portal.sent s ++ added)%list
    /\ (forall t, Portal._request_verification_token s = Some t ->
          Portal._request_verification_token s' = Some t
          /\ exists r, added = [r] /\ Portal.token_header (Some t) r
                       /\ Portal.api_request meth path d p r)
    /\ (Portal._request_verification_token s = None ->
          added = [Portal.reload_request]
          \/ exists r, added = [Portal.reload_request; r]
                       /\ Portal.token_header
                            (Portal._request_verification_token s') r
                       /\ Portal.api_request meth path d p r)
    /\ Portal.signer s' = Portal.signer s
    /\ Portal._ajax_id s' = Portal._ajax_id s
    /\ (forall body, a = Portal.Returns body ->
          exists r w res,
            Portal.api_request meth path d p r
            /\ Portal.send r w = (Ok res, Portal.world s')
            /\ Portal.status_code res = 200%Z
            /\ Portal.json res = Ok body)
    /\ (forall res, a = Portal.Raises (Portal.ResponseError res) ->
          Portal.status_code res <> 200%Z
          /\ exists r w,
               Portal.api_request meth path d p r
               /\ Portal.send r w = (Ok res, Portal.world s'))
    /\ (forall body, a <> Portal.Raises (Portal.ResponseErrorOf body))
    /\ a <> Portal.Raises Portal.AssertionError.
Proof.
  unfold Portal._request, Portal._reload_verification_token, Portal.request_id.
  unfold_monad.
  crunch.
  all: leaf; eexists; split; [reflexivity|].
  all: split;
    [intros ? ?; first [ discriminate
                       | split; [congruence|];
                         eexists; split; [reflexivity|]; api ]|].
  all: split;
    [intros ?; first [ discriminate
                     | left; reflexivity
                     | right; eexists; split; [reflexivity|]; api ]|].
  all: split; [reflexivity|]; split; [reflexivity|].
  all: split;
    [intros ? E; first [ discriminate E | injection E as <- ]
    |split;
     [intros ? E; first [ discriminate E | injection E as <- ]
     |split; [intros ? E; discriminate E | intros E; discriminate E]]].
  all: first
    [ do 3 eexists;
      (split; [|split; [apply answered; eassumption
                       |split; [apply Z.eqb_eq; eassumption | eassumption]]]);
      api
    | split; [apply Z.eqb_neq; eassumption|];
      do 2 eexists; (split; [|apply answered; eassumption]); api ].
Qed.

(** Every request of one call of [_request] is the reload request or an
    API request. *)
Lemma _request_requests (meth path : string)
    (d : option (list (string * string)))
    (p : option (list (string * Portal.value))) (s : Portal.Session)
    (a : Portal.answer Portal.Json) (s' : Portal.Session) :
  Portal._request meth path d p s = (a, s') ->
  exists added,
    Portal.sent s' = (Portal.sent s ++ added)%list
    /\ Forall (fun r => r = Portal.reload_request
                        \/ Portal.api_request meth path d p r) added.
Proof.
  intros E.
  destruct (_request_run _ _ _ _ _ _ _ E)
    as (added & Hsent & Hsome & Hnone & _).
  exists added. split; [exact Hsent|].
  destruct (Portal._request_verification_token s) as [t|] eqn:Ht.
  - destruct (Hsome t eq_refl) as (_ & r & -> & _ & Hr).
    constructor; [right; exact Hr | constructor].
  - destruct (Hnone eq_refl) as [->|(r & -> & _ & Hr)].
    + constructor; [left; reflexivity | constructor].
    + constructor; [left; reflexivity|].
      constructor; [right; exact Hr | constructor].
Qed.

(** X18.  [_request] hands an API request to the transport only with the
    session's verification token in its ['__RequestVerificationToken']
    header.  With a token in the session, that request is the only one sent
    and the token stays; without one, the reload request goes first, and the
    API request follows, if at all, with the token the session then holds.
    The signer and the ajax identifier are never touched. *)
Theorem X18_request_sends_token (meth path : string)
    (d : option (list (string * string)))
    (p : option (list (string * Portal.value))) (s : Portal.Session) :
  let (a, s') := Portal._request meth path d p s in
  exists added,
    Portal.sent s' = (Portal.sent s ++ added)%list
    /\ (forall t, Portal._request_verification_token s = Some t ->
          Portal._request_verification_token s' = Some t
          /\ exists r, added = [r] /\ Portal.token_header (Some t) r
                       /\ Portal.api_request meth path d p r)
    /\ (Portal._request_verification_token s = None ->
          added = [Portal.reload_request]
          \/ exists r, added = [Portal.reload_request; r]
                       /\ Portal.token_header
                            (Portal._request_verification_token s') r
                       /\ Portal.api_request meth path d p r)
    /\ Portal.signer s' = Portal.signer s
    /\ Portal._ajax_id s' = Portal._ajax_id s.
Proof.
  destruct (Portal._request meth path d p s) as [a s'] eqn:E.
  destruct (_request_run _ _ _ _ _ _ _ E)
    as (added & Hsent & Hsome & Hnone & Hsigner & Hajax & _).
  exists added.
  exact (conj Hsent (conj Hsome (conj Hnone (conj Hsigner Hajax)))).
Qed.

(** X19.  [_request] returns a body only as the JSON of a response with
    status 200 that the transport gave to the API request; a
    [ResponseError] it raises carries a response of another status, given
    to the API request; it raises no [ResponseError] of a body and no
    [AssertionError]. *)
Theorem X19_request_answer (meth path : string)
    (d : option (list (string * string)))
    (p : option (list (string * Portal.value))) (s : Portal.Session) :
  let (a, s') := Portal._request meth path d p s in
  (forall body, a = Portal.Returns body ->
     exists r w res,
       Portal.api_request meth path d p r
       /\ Portal.send r w = (Ok res, Portal.world s')
       /\ Portal.status_code res = 200%Z
       /\ Portal.json res = Ok body)
  /\ (forall res, a = Portal.Raises (Portal.ResponseError res) ->
        Portal.status_code res <> 200%Z
        /\ exists r w,
             Portal.api_request meth path d p r
             /\ Portal.send r w = (Ok res, Portal.world s'))
  /\ (forall body, a <> Portal.Raises (Portal.ResponseErrorOf body))
  /\ a <> Portal.Raises Portal.AssertionError.
Proof.
  destruct (Portal._request meth path d p s) as [a s'] eqn:E.
  destruct (_request_run _ _ _ _ _ _ _ E)
    as (added & _ & _ & _ & _ & _ & Hret & Herr & Hbody & Hassert).
  exact (conj Hret (conj Herr (conj Hbody Hassert))).
Qed.

(** X20.  Without a token in the session, when the portal answers the
    reload request with a status other than 200, [_request] (and with it
    [rfc_valid] and [legal_name_valid]) raises
    [ValueError('Please Login Again')]: only the reload request has been
    sent, and the session still has no token. *)
Theorem X20_reload_refused (s : Portal.Session) (res : Portal.Response)
    (w : Portal.World) (rfc legal_name : string) :
  Portal._request_verification_token s = None ->
  Portal.send Portal.reload_request (Portal.world s) = (Ok res, w) ->
  Portal.status_code res <> 200%Z ->
  (forall meth path d p,
     Portal._request meth path d p s
     = (Portal.Raises (Portal.Py (ValueError "Please Login Again")),
        Portal.mkSession (Portal.signer s) None (Portal._ajax_id s)
          (Portal.sent s ++ [Portal.reload_request]) w))
  /\ Portal.rfc_valid rfc s
     = (Portal.Raises (Portal.Py (ValueError "Please Login Again")),
        Portal.mkSession (Portal.signer s) None (Portal._ajax_id s)
          (Portal.sent s ++ [Portal.reload_request]) w)
  /\ Portal.legal_name_valid rfc legal_name s
     = (Portal.Raises (Portal.Py (ValueError "Please Login Again")),
        Portal.mkSession (Portal.signer s) None (Portal._ajax_id s)
          (Portal.sent s ++ [Portal.reload_request]) w).
Proof.
  intros Htoken Hsend Hstatus.
  apply Z.eqb_neq in Hstatus.
  assert (Hreq : forall meth path d p,
     Portal._request meth path d p s
     = (Portal.Raises (Portal.Py (ValueError "Please Login Again")),
        Portal.mkSession (Portal.signer s) None (Portal._ajax_id s)
          (Portal.sent s ++ [Portal.reload_request]) w)).
  { intros meth path d p.
    unfold Portal._request, Portal._reload_verification_token.
    unfold_monad. rewrite Htoken. rewrite request_eq.
    fold Portal.reload_request. rewrite Hsend. cbn. rewrite Hstatus.
    rewrite Htoken. reflexivity. }
  split; [exact Hreq|].
  unfold Portal.rfc_valid, Portal.legal_name_valid, Portal.bind.
  rewrite !Hreq. split; reflexivity.
Qed.

(** What [rfc_valid] and [legal_name_valid] make of [_request]. *)
Lemma resultado_run (meth path : string)
    (d : option (list (string * string)))
    (p : option (list (string * Portal.value))) (s : Portal.Session)
    (a : Portal.answer Portal.Json) (s' : Portal.Session) :
  Portal.bind (Portal._request meth path d p) Portal.resultado s = (a, s') ->
  (forall v, a = Portal.Returns v ->
     exists res body e,
       Portal.status_code res = 200%Z
       /\ Portal.json res = Ok body
       /\ Portal.json_get body "exitoso" = Ok e
       /\ Portal.truthy e = true
       /\ Portal.json_get body "resultado" = Ok v)
  /\ (forall body, a = Portal.Raises (Portal.ResponseErrorOf body) ->
        exists res e,
          Portal.status_code res = 200%Z
          /\ Portal.json res = Ok body
          /\ Portal.json_get body "exitoso" = Ok e
          /\ Portal.truthy e = false)
  /\ exists added,
       Portal.sent s' = (Portal.sent s ++ added)%list
       /\ Forall (fun r => r = Portal.reload_request
                           \/ Portal.api_request meth path d p r) added.
Proof.
  unfold Portal.bind at 1.
  destruct (Portal._request meth path d p s) as [a1 s1] eqn:E.
  destruct (_request_run _ _ _ _ _ _ _ E)
    as (_ & _ & _ & _ & _ & _ & Hret & _ & Hbody & _).
  destruct (_request_requests _ _ _ _ _ _ _ E) as (added & Hsent & Htrace).
  destruct a1 as [body|f].
  - destruct (Hret body eq_refl) as (r & w & res & _ & _ & H200 & Hjson).
    unfold Portal.resultado. unfold_monad.
    destruct (Portal.json_get body "exitoso") as [e|err] eqn:He; cbn.
    + destruct (Portal.truthy e) eqn:Hte; cbn.
      * intros [= <- <-]. split; [|split].
        -- intros v Hv. exists res, body, e.
           destruct (Portal.json_get body "resultado"); cbn in Hv;
             [|discriminate Hv]. injection Hv as ->. auto.
        -- intros b Hb.
           destruct (Portal.json_get body "resultado"); discriminate Hb.
        -- exists added. auto.
      * intros [= <- <-]. split; [|split].
        -- intros v [=].
        -- intros b [= <-]. exists res, e. auto.
        -- exists added. auto.
    + intros [= <- <-]. split; [|split].
      * intros v [=].
      * intros b [=].
      * exists added. auto.
  - intros [= <- <-]. split; [|split].
    + intros v [=].
    + intros b Hb. exfalso. exact (Hbody b Hb).
    + exists added. auto.
Qed.

(** X21.  [rfc_valid] and [legal_name_valid] return the ['resultado'] of a
    body only when the portal answered with status 200 and the body's
    ['exitoso'] is true; when it is not, they raise a [ResponseError] of
    that body.  The requests they send, apart from the reload, are POSTs to
    their path whose form data is the RFC (and the legal name) in upper
    case. *)
Theorem X21_valid_only_when_exitoso (rfc legal_name : string)
    (s : Portal.Session) :
  (let (a, s') := Portal.rfc_valid rfc s in
   (forall v, a = Portal.Returns v ->
      exists res body e,
        Portal.status_code res = 200%Z
        /\ Portal.json res = Ok body
        /\ Portal.json_get body "exitoso" = Ok e
        /\ Portal.truthy e = true
        /\ Portal.json_get body "resultado" = Ok v)
   /\ (forall body, a = Portal.Raises (Portal.ResponseErrorOf body) ->
         exists res e,
           Portal.status_code res = 200%Z
           /\ Portal.json res = Ok body
           /\ Portal.json_get body "exitoso" = Ok e
           /\ Portal.truthy e = false)
   /\ exists added,
        Portal.sent s' = (Portal.sent s ++ added)%list
        /\ Forall (fun r =>
                     r = Portal.reload_request
                     \/ Portal.api_request "POST" "Clientes/ExisteLrfc"
                          (Some [("rfcValidar", Portal.upper rfc)]) None r)
                  added)
  /\ (let (a, s') := Portal.legal_name_valid rfc legal_name s in
      (forall v, a = Portal.Returns v ->
         exists res body e,
           Portal.status_code res = 200%Z
           /\ Portal.json res = Ok body
           /\ Portal.json_get body "exitoso" = Ok e
           /\ Portal.truthy e = true
           /\ Portal.json_get body "resultado" = Ok v)
      /\ (forall body, a = Portal.Raises (Portal.ResponseErrorOf body) ->
            exists res e,
              Portal.status_code res = 200%Z
              /\ Portal.json res = Ok body
              /\ Portal.json_get body "exitoso" = Ok e
              /\ Portal.truthy e = false)
      /\ exists added,
           Portal.sent s' = (Portal.sent s ++ added)%list
           /\ Forall (fun r =>
                        r = Portal.reload_request
                        \/ Portal.api_request "POST"
                             "Clientes/ValidaRazonSocialRFC"
                             (Some [("rfcValidar", Portal.upper rfc);
                                    ("razonSocial", Portal.upper legal_name)])
                             None r)
                     added).
Proof.
  split.
  - destruct (Portal.rfc_valid rfc s) as [a s'] eqn:E.
    exact (resultado_run _ _ _ _ _ _ _ E).
  - destruct (Portal.legal_name_valid rfc legal_name s) as [a s'] eqn:E.
    exact (resultado_run _ _ _ _ _ _ _ E).
Qed.

(** X22.  [lco_details] reads the clock once, before anything is sent: the
    requests it sends, apart from the reload, are GETs of
    ['Clientes/ValidaLco'] without form data whose parameters are the RFC
    in upper case, the border-region flag and that reading.  What it
    returns is [json.loads] of the body of a response with status 200. *)
Theorem X22_lco_details (rfc : string) (apply_border_region : bool)
    (s : Portal.Session) :
  let (a, s') := Portal.lco_details rfc apply_border_region s in
  (forall v, a = Portal.Returns v ->
     exists res body,
       Portal.status_code res = 200%Z
       /\ Portal.json res = Ok body
       /\ Portal.json_loads body = Ok v)
  /\ exists added,
       Portal.sent s' = (Portal.sent s ++ added)%list
       /\ Forall (fun r =>
                    r = Portal.reload_request
                    \/ Portal.api_request "GET" "Clientes/ValidaLco" None
                         (Some [("rfcValidar", Portal.VStr (Portal.upper rfc));
                                ("aplicaRegionFronteriza",
                                 Portal.VBool apply_border_region);
                                ("_", Portal.VInt (fst (Portal.time_ms
                                                   (Portal.world s))))]) r)
                 added.
Proof.
  unfold Portal.lco_details. unfold Portal.bind at 1. rewrite draw_eq.
  unfold Portal.bind at 1.
  match goal with
  | |- context [Portal._request ?m ?pa ?d ?p ?s0] =>
      destruct (Portal._request m pa d p s0) as [a1 s1] eqn:E
  end.
  destruct (_request_run _ _ _ _ _ _ _ E)
    as (_ & _ & _ & _ & _ & _ & Hret & _).
  destruct (_request_requests _ _ _ _ _ _ _ E) as (added & Hsent & Htrace).
  cbn in Hsent.
  destruct a1 as [body|f]; unfold Portal.pure.
  - destruct (Hret body eq_refl) as (r & w & res & _ & _ & H200 & Hjson).
    split.
    + intros v Hv. exists res, body.
      destruct (Portal.json_loads body); cbn in Hv; [|discriminate Hv].
      injection Hv as ->. auto.
    + exists added. auto.
  - split.
    + intros v [=].
    + exists added. auto.
Qed.

(** X23.  When the portal's first page has no form, [login] raises
    [ValueError('Login form not found, please try again')]; any other
    error of [get_form] is raised as it is.  Either way the first GET is the
    only request sent and the session keeps its token and ajax
    identifier. *)
Theorem X23_login_form_not_found (s : Portal.Session) (res : Portal.Response)
    (w : Portal.World) (e : error) :
  Portal.send (Portal.GET Portal.BASE_URL [] true) (Portal.world s)
  = (Ok res, w) ->
  Portal.status_code res = 200%Z ->
  Portal.get_form res None = Err e ->
  Portal.login s
  = (Portal.Raises
       (Portal.Py (match e with
                   | IndexError =>
                       ValueError "Login form not found, please try again"
                   | _ => e
                   end)),
     Portal.mkSession (Portal.signer s)
       (Portal._request_verification_token s) (Portal._ajax_id s)
       (Portal.sent s ++ [Portal.GET Portal.BASE_URL [] true]) w).
Proof.
  intros Hsend Hstatus Hform.
  apply Z.eqb_eq in Hstatus.
  unfold Portal.login. unfold Portal.bind at 1. rewrite request_eq, Hsend.
  cbn. unfold Portal.bind at 1. unfold Portal.bind at 1.
  unfold Portal.assert_. rewrite Hstatus. cbn.
  unfold Portal.bind at 1. unfold Portal.bind at 1.
  unfold Portal.login_form. rewrite Hform.
  destruct e; reflexivity.
Qed.

(** X24.  [login] starts with a GET of the portal's address and then only
    posts forms, at most four of them.  When it raises, the session keeps
    its token and ajax identifier; when it returns, it has posted one form
    or four, the response it returns has status 200, and the session's
    token is the one read from that response.  The signer is never
    touched. *)
Theorem X24_login_trace (s : Portal.Session) :
  let (a, s') := Portal.login s in
  exists added,
    Portal.sent s'
    = (Portal.sent s ++ Portal.GET Portal.BASE_URL [] true :: added)%list
    /\ (length added <= 4)%nat
    /\ Forall Portal.posts_form added
    /\ (forall f, a = Portal.Raises f ->
          Portal._request_verification_token s'
          = Portal._request_verification_token s
          /\ Portal._ajax_id s' = Portal._ajax_id s)
    /\ (forall res, a = Portal.Returns res ->
          Portal.status_code res = 200%Z
          /\ Portal.request_verification_token res
             = Ok (Portal._request_verification_token s')
          /\ (length added = 1%nat \/ length added = 4%nat))
    /\ Portal.signer s' = Portal.signer s.
Proof.
  destruct (Portal.login s) as [a s'] eqn:E. revert E.
  unfold Portal.login, Portal.fiel_login. unfold_monad.
  crunch.
  all: leaf; eexists; split; [reflexivity|].
  all: split; [cbn; lia|].
  all: split; [repeat (constructor; [unfold Portal.posts_form; cbn;
                          repeat split; discriminate|]); constructor|].
  all: split; [intros ? E; first [discriminate E | split; reflexivity]|].
  all: split; [intros ? E; first [discriminate E | injection E as <-]|reflexivity].
  all: split; [apply Z.eqb_eq; assumption|]; split; [assumption|]; cbn; auto.
Qed.

(** X25.  [SATPortal.login] sends a GET of the login page and then at most
    two forms, [declaraciones_provisionales_login] a GET and then at most
    one; neither touches the token, the ajax identifier or the signer.
    What they return is a response with status 200 to the last form, and
    then every form has been posted. *)
Theorem X25_SATPortal_logins (s : Portal.Session) :
  (let (a, s') := Portal.SATPortal_login s in
   exists added,
     Portal.sent s'
     = (Portal.sent s
        ++ Portal.GET (Portal.SATPortal_BASE_URL ++ "/nidp/app/login?id=fiel")
             [] true :: added)%list
     /\ (length added <= 2)%nat
     /\ Forall Portal.posts_form added
     /\ (forall res, a = Portal.Returns res ->
           Portal.status_code res = 200%Z /\ length added = 2%nat)
     /\ Portal._request_verification_token s'
        = Portal._request_verification_token s
     /\ Portal._ajax_id s' = Portal._ajax_id s
     /\ Portal.signer s' = Portal.signer s)
  /\ (let (a, s') := Portal.declaraciones_provisionales_login s in
      exists added,
        Portal.sent s'
        = (Portal.sent s
           ++ Portal.GET "https://ptscdecprov.clouda.sat.gob.mx" [] true
              :: added)%list
        /\ (length added <= 1)%nat
        /\ Forall Portal.posts_form added
        /\ (forall res, a = Portal.Returns res ->
              Portal.status_code res = 200%Z /\ length added = 1%nat)
        /\ Portal._request_verification_token s'
           = Portal._request_verification_token s
        /\ Portal._ajax_id s' = Portal._ajax_id s
        /\ Portal.signer s' = Portal.signer s).
Proof.
  split.
  - destruct (Portal.SATPortal_login s) as [a s'] eqn:E. revert E.
    unfold Portal.SATPortal_login, Portal.fiel_login. unfold_monad.
    crunch.
    all: leaf; eexists; split; [reflexivity|].
    all: split; [cbn; lia|].
    all: split; [repeat (constructor; [unfold Portal.posts_form; cbn;
                            repeat split; discriminate|]); constructor|].
    all: split; [intros ? E; first [discriminate E | injection E as <-]
                |repeat split].
    all: split; [apply Z.eqb_eq; assumption | reflexivity].
  - destruct (Portal.declaraciones_provisionales_login s) as [a s'] eqn:E.
    revert E.
    unfold Portal.declaraciones_provisionales_login. unfold_monad.
    crunch.
    all: leaf; eexists; split; [reflexivity|].
    all: split; [cbn; lia|].
    all: split; [repeat (constructor; [unfold Portal.posts_form; cbn;
                            repeat split; discriminate|]); constructor|].
    all: split; [intros ? E; first [discriminate E | injection E as <-]
                |repeat split].
    all: split; [apply Z.eqb_eq; assumption | reflexivity].
Qed.

(** X26.  [fiel_login] sends at most one request.  When it returns, that
    request is a POST to the action of the response's ['certform'], with
    the referer headers of the response's URL; its data has under
    ['token'] the token generated for the signer from the form's
    ['guid'], under ['fert'] the signer's certificate expiry, and every
    other field of the form unchanged; and the response returned has
    status 200. *)
Theorem X26_fiel_login_form (login_response : Portal.Response)
    (s : Portal.Session) :
  let (a, s') := Portal.fiel_login login_response s in
  (Portal.sent s' = Portal.sent s
   \/ exists r, Portal.sent s' = (Portal.sent s ++ [r])%list)
  /\ forall res, a = Portal.Returns res ->
       Portal.status_code res = 200%Z
       /\ exists action d guid token f d',
            Portal.get_form login_response (Some "certform") = Ok (action, d)
            /\ Portal.dict_get d "guid" = Ok guid
            /\ fst (Portal.generate_token (Portal.signer s) guid
                      (Portal.world s)) = Ok token
            /\ Portal.fert (Portal.signer s) = Ok f
            /\ Portal.sent s'
               = (Portal.sent s
                  ++ [Portal.POST action
                        (Portal.request_ref_headers
                           (Portal.request_url login_response))
                        (Some d') true])%list
            /\ Portal.dict_get d' "token" = Ok token
            /\ Portal.dict_get d' "fert" = Ok f
            /\ forall k, k <> "token" -> k <> "fert" ->
                         Portal.dict_get d' k = Portal.dict_get d k.
Proof.
  destruct (Portal.fiel_login login_response s) as [a s'] eqn:E. revert E.
  unfold Portal.fiel_login. unfold_monad.
  crunch.
  all: leaf.
  all: split; [first [left; reflexivity | right; eexists; reflexivity]|].
  all: intros ? E; first [discriminate E | injection E as <-].
  split; [apply Z.eqb_eq; assumption|].
  do 6 eexists.
  split; [reflexivity|]. split; [eassumption|]. split; [eassumption|].
  split; [reflexivity|]. split; [reflexivity|].
  split; [|split].
  - rewrite dict_get_set_other by discriminate. apply dict_get_set_same.
  - apply dict_get_set_same.
  - intros k Ht Hf.
    rewrite dict_get_set_other by congruence.
    apply dict_get_set_other. congruence.
Qed.

End PortalProperties.


(** * With the imported functions as specified *)

Import Spec.Instances.

Lemma Forall2_fmap_self {A B} (P : A -> B -> Prop) (f : A -> B) (l : list A) :
  (forall a, P a (f a)) -> Forall2 P l (f <$> l).
Proof. intros Hf. induction l; csimpl; constructor; auto. Qed.

Lemma impuestos_dr_traslados (share : Q -> Q) (conceptos : list Concepto.t) :
  traslados_dr (Spec.impuestos_dr share conceptos)
  = Spec.as_DR share <$> Spec.groups_of ConceptoImpuestos.Traslados conceptos.
Proof.
  unfold Spec.impuestos_dr.
  destruct (Spec.groups_of ConceptoImpuestos.Traslados conceptos),
           (Spec.groups_of ConceptoImpuestos.Retenciones conceptos); reflexivity.
Qed.

Lemma impuestos_dr_retenciones (share : Q -> Q) (conceptos : list Concepto.t) :
  retenciones_dr (Spec.impuestos_dr share conceptos)
  = Spec.as_DR share <$> Spec.groups_of ConceptoImpuestos.Retenciones conceptos.
Proof.
  unfold Spec.impuestos_dr.
  destruct (Spec.groups_of ConceptoImpuestos.Traslados conceptos),
           (Spec.groups_of ConceptoImpuestos.Retenciones conceptos); reflexivity.
Qed.

Section Proration.
Context `{DecimalModule} `{CfdiModule} `{Pago20Module}.


End Proration.

(** With the complement, the rounding table and the aggregation as
    specified and an issuer without signer, [pago_comprobantes] does return
    a document for comprobantes that agree, are stamped and carry a
    [MetodoPago] entry. *)
Lemma pago_comprobantes_produces (emisor : Issuer.t) (lugar_expedicion : string)
    (first : CFDI.t) (rest : list CFDI.t) (fecha_pago : datetime)
    (forma_pago : string) (tipo_cambio : option Q) (cfdi_relacionados : list Node)
    (confirmacion serie folio : option string) (addenda : option Node)
    (fecha : option datetime) :
  Issuer.signer emisor = None ->
  forallb (agrees (CFDI.Moneda first) emisor (CFDI.Receptor first))
          (first :: rest) = true ->
  Forall (fun c => is_Ok (UUID_of c) /\ CFDI.MetodoPago c <> Missing)
         (first :: rest) ->
  is_Ok (pago_comprobantes emisor lugar_expedicion (first :: rest) fecha_pago
           forma_pago tipo_cambio cfdi_relacionados confirmacion serie folio
           addenda fecha).
Proof.
  intros Hsigner Hagree Hstamped.
  rewrite pago_comprobantes_guard, Hagree.
  assert (Hd : is_Ok (mapM docto_total (first :: rest))).
  { apply mapM_is_Ok. eapply Forall_impl; [exact Hstamped|].
    intros c [[uuid Hu] Hm]. unfold docto_total. rewrite Hu. simpl.
    destruct (CFDI.MetodoPago c) as [| |m]; [contradiction| |];
      simpl; destruct (CFDI.has_Impuestos c); eexists; reflexivity. }
  destruct Hd as [doctos Hd]. rewrite Hd. simpl.
  unfold Comprobante_pago, Comprobante_init. simpl. rewrite Hsigner.
  eexists. reflexivity.
Qed.

(** ** The constructor on the sample documents *)

Example parse_rate :
  Impuesto_parse "IVA|Tasa|0.160000"
  = Ok (Impuesto.mk None "002" "Tasa" (Some 0.160000%Q) None).
Proof. reflexivity. Qed.

Example parse_without_rate :
  Impuesto_parse "IEPS|Exento" = Ok (Impuesto.mk None "003" "Exento" None None).
Proof. reflexivity. Qed.

Example parse_without_factor : Impuesto_parse "IVA" = Err IndexError.
Proof. reflexivity. Qed.

(** An empty part is still a part: the kind before the first bar may be
    the empty string. *)
Example parse_empty_kind :
  Impuesto_parse "|Tasa" = Ok (Impuesto.mk None "" "Tasa" None None).
Proof. reflexivity. Qed.

(** C8 as stated fails on ['|Tasa'], ['IVA|'] and ['|']: the kind, the
    factor or both are missing, and the text is parsed all the same, into
    a record whose kind or factor is the empty string. *)
Lemma C8_counterexample :
  Impuesto_parse "|Tasa" = Ok (Impuesto.mk None "" "Tasa" None None)
  /\ Impuesto_parse "IVA|" = Ok (Impuesto.mk None "002" "" None None)
  /\ Impuesto_parse "|" = Ok (Impuesto.mk None "" "" None None).
Proof. repeat split; reflexivity. Defined.

(** More than three parts: the rest is ignored. *)
Example parse_extra_parts :
  Impuesto_parse "ISR|Tasa|0.10|x"
  = Ok (Impuesto.mk None "001" "Tasa" (Some 0.10%Q) None).
Proof. reflexivity. Qed.

Example quantize_half_up : Spec.quantize 2 0.155%Q = 0.16%Q.
Proof. reflexivity. Qed.

Example quantize_negative : Spec.quantize 2 (- 0.155)%Q = (- 16 # 100)%Q.
Proof. reflexivity. Qed.


Lemma C10_witness :
  exists doc,
    Ejemplo.comprobante [Ejemplo.acero; Ejemplo.servicio] = Ok doc
    /\ let descuento := py_sum (descuentos [Ejemplo.acero; Ejemplo.servicio]) in
       (Comprobante.Descuento doc = None <-> (descuento == 0)%Q)
       /\ (Comprobante.Descuento doc = Some descuento <-> ~ (descuento == 0)%Q)
       /\ (Forall (fun c => Concepto.Descuento c = None)
                  [Ejemplo.acero; Ejemplo.servicio] ->
           Comprobante.Descuento doc = None).
Proof.
  eexists. split; [vm_compute; reflexivity|].
  apply (C10_Descuento_absent_iff_zero Ejemplo.emisor "56820" Ejemplo.receptor
           "MXN" "I" "01" None None None None None None None None [] None None
           None).
  vm_compute. reflexivity.
Defined.

(** Without any discount the field is absent, with one it holds the sum. *)
Example Descuento_absent :
  Comprobante.Descuento <$> (match Ejemplo.comprobante [Ejemplo.acero] with
                             | Ok doc => Some doc
                             | Err _ => None
                             end) = Some None.
Proof. vm_compute. reflexivity. Qed.

Example Descuento_present :
  Comprobante.Descuento <$>
    (match Ejemplo.comprobante [Ejemplo.acero; Ejemplo.servicio] with
     | Ok doc => Some doc
     | Err _ => None
     end) = Some (Some 100.50%Q).
Proof. vm_compute. reflexivity. Qed.

Lemma C6_witness :
  exists doc,
    Muestra.comprobante
      [Ejemplo.incluido; Muestra.fraccion_incluida; Ejemplo.servicio] = Ok doc
    /\ exists rnd_fn,
         rounder "MXN" = Done rnd_fn
         /\ Forall2 (fun c c' => exists trasladados valor_unitario,
                       InContext.amounts_of rnd_fn c c' trasladados
                         valor_unitario)
                    [Ejemplo.incluido; Muestra.fraccion_incluida;
                     Ejemplo.servicio]
                    (Comprobante.Conceptos doc).
Proof.
  eexists. split; [vm_compute; reflexivity|].
  apply (C6_Importe_from_unrounded_price Ejemplo.emisor "56820"
           Ejemplo.receptor "MXN" "I" "01" None None None None None None None
           None [] None None None).
  vm_compute. reflexivity.
Defined.

(** C6 as stated fails on 100 pieces at a tax-inclusive 1.00 with the 16%
    rate, in pesos: the concept stores [ValorUnitario] 0.86 and [Importe]
    86.21, whereas [round(Cantidad * ValorUnitario)] is 86.00. *)
Lemma C6_counterexample :
  exists doc c' importe,
    Muestra.comprobante [Ejemplo.incluido] = Ok doc
    /\ Comprobante.Conceptos doc = [c']
    /\ Concepto.Importe c' = Some importe
    /\ (Concepto.ValorUnitario c' == 0.86)%Q
    /\ (importe == 86.21)%Q
    /\ (Spec.quantize 2 (Concepto.Cantidad c' * Concepto.ValorUnitario c')
        == 86)%Q
    /\ ~ (importe
          == Spec.quantize 2 (Concepto.Cantidad c' * Concepto.ValorUnitario c'))%Q.
Proof.
  eexists. eexists. eexists.
  split; [vm_compute; reflexivity|].
  split; [reflexivity|]. split; [reflexivity|].
  repeat split; try (vm_compute; reflexivity).
  intros Hq. vm_compute in Hq. discriminate Hq.
Defined.

(** The context at work: a quotient kept to 28 digits, ties going to the
    even digit, a short product left as it is, and the two exceptions of a
    zero divisor. *)
Example round_quotient :
  Context.div 1.50 1.16 = Ok 1.293103448275862068965517241%Q.
Proof. vm_compute. reflexivity. Qed.

Example round_tie_even :
  (Context.round 1.00000000000000000000000000050
   == 1.000000000000000000000000000)%Q
  /\ (Context.round 1.00000000000000000000000000150
      == 1.000000000000000000000000002)%Q.
Proof. split; vm_compute; reflexivity. Qed.

Example round_short : (Context.mul 0.29 1.29 == 0.3741)%Q.
Proof. vm_compute. reflexivity. Qed.

Example div_by_zero :
  Context.div 1 0 = Err DivisionByZero
  /\ Context.div 0 0 = Err InvalidOperation.
Proof. split; reflexivity. Qed.

(** The local price and the product are what the context leaves of them:
    0.29 of a unit at a tax-inclusive 1.50 with the 16% rate has the local
    price 1.293103448275862068965517241, the product
    0.3749999999999999999999999999 and so the [Importe] 0.37, where the
    exact quotient would give the product 0.375. *)
Example amounts_in_context :
  exists doc c' importe,
    Muestra.comprobante [Muestra.fraccion_incluida] = Ok doc
    /\ Comprobante.Conceptos doc = [c']
    /\ InContext.unit_price (Spec.quantize 2) Muestra.fraccion_incluida
         [Impuesto_init "IVA" "Tasa" (Some 0.16%Q) None None]
       = Ok (1.293103448275862068965517241%Q, Concepto.ValorUnitario c')
    /\ (Concepto.ValorUnitario c' == 1.29)%Q
    /\ (InContext.tax_base Muestra.fraccion_incluida
          1.293103448275862068965517241
        == 0.3749999999999999999999999999)%Q
    /\ Concepto.Importe c' = Some importe
    /\ (importe == 0.37)%Q.
Proof.
  do 3 eexists.
  split; [vm_compute; reflexivity|].
  split; [reflexivity|].
  repeat split; vm_compute; reflexivity.
Qed.

Lemma C3_witness :
  exists doc,
    Muestra.comprobante [Ejemplo.fraccion; Muestra.fraccion_incluida] = Ok doc
    /\ exists rnd_fn,
         rounder "MXN" = Done rnd_fn
         /\ Forall2
              (fun c c' =>
                 not_subject (Concepto.ObjetoImp c) = false ->
                 exists trasladados retenciones valor_unitario,
                   InContext.amounts_of rnd_fn c c' trasladados valor_unitario
                   /\ parsed ConceptoImpuestos.Retenciones c = Ok retenciones
                   /\ let base :=
                        Context.sub
                          (Context.mul (Concepto.Cantidad c) valor_unitario)
                          (or_zero (Concepto.Descuento c)) in
                      Forall2 (fun i o => make_impuesto i base rnd_fn = Done o)
                        trasladados (records_of ConceptoImpuestos.Traslados c')
                      /\ Forall2 (fun i o => make_impuesto i base rnd_fn = Done o)
                        retenciones (records_of ConceptoImpuestos.Retenciones c'))
              [Ejemplo.fraccion; Muestra.fraccion_incluida]
              (Comprobante.Conceptos doc).
Proof.
  eexists. split; [vm_compute; reflexivity|].
  apply (C3_tax_base_is_unrounded Ejemplo.emisor "56820" Ejemplo.receptor
           "MXN" "I" "01" None None None None None None None None [] None None
           None).
  vm_compute. reflexivity.
Defined.

(** C3 as stated fails on half a unit at 0.31 with the 16% rate, in pesos:
    the product is 0.155 and the stored amount 0.16; the record is computed
    against the base 0.155 and carries the tax 0.02, whereas against
    [computed_amount - discount = 0.16] it would carry 0.03. *)
Lemma C3_counterexample :
  exists doc c' i o o' importe a a',
    Muestra.comprobante [Ejemplo.fraccion] = Ok doc
    /\ Comprobante.Conceptos doc = [c']
    /\ Concepto.Importe c' = Some importe
    /\ parsed ConceptoImpuestos.Traslados Ejemplo.fraccion = Ok [i]
    /\ records_of ConceptoImpuestos.Traslados c' = [o]
    /\ make_impuesto i (InContext.tax_base Ejemplo.fraccion 0.31%Q)
         (Spec.quantize 2) = Done o
    /\ make_impuesto i
         (importe - or_zero (Concepto.Descuento Ejemplo.fraccion))%Q
         (Spec.quantize 2) = Done o'
    /\ (InContext.tax_base Ejemplo.fraccion 0.31%Q == 0.155)%Q
    /\ (importe - or_zero (Concepto.Descuento Ejemplo.fraccion) == 0.16)%Q
    /\ Impuesto.Importe o = Some a
    /\ Impuesto.Importe o' = Some a'
    /\ (a == 0.02)%Q /\ (a' == 0.03)%Q /\ ~ (a == a')%Q.
Proof.
  do 8 eexists.
  split; [vm_compute; reflexivity|].
  split; [reflexivity|]. split; [reflexivity|].
  split; [vm_compute; reflexivity|].
  split; [vm_compute; reflexivity|].
  split; [vm_compute; reflexivity|].
  split; [vm_compute; reflexivity|].
  split; [vm_compute; reflexivity|].
  split; [vm_compute; reflexivity|].
  split; [reflexivity|]. split; [reflexivity|].
  split; [vm_compute; reflexivity|].
  split; [vm_compute; reflexivity|].
  intros Hq. vm_compute in Hq. discriminate Hq.
Defined.

Lemma C4_witness :
  Ejemplo.comprobante [Ejemplo.acero; Ejemplo.ambiguo; Ejemplo.servicio]
  = Err (ValueError msg_traslados_incluidos).
Proof.
  refine (proj2 (proj2
    (C4_traslados_incluidos_with_Base_or_Importe Ejemplo.emisor "56820"
       Ejemplo.receptor "MXN" "I" "01" None None None None None None None None
       [] None None None [Ejemplo.acero] [Ejemplo.servicio] Ejemplo.ambiguo
       {| ConceptoImpuestos.Traslados := [Obj Ejemplo.con_base];
          ConceptoImpuestos.Retenciones := [] |}
       Ejemplo.con_base _ _ _ _ _))
    (Spec.quantize 2) [Ejemplo.con_base] _ _ _ _ _).
  - reflexivity.
  - reflexivity.
  - left. reflexivity.
  - left. reflexivity.
  - left. discriminate.
  - reflexivity.
  - eexists. vm_compute. reflexivity.
  - reflexivity.
  - eexists. reflexivity.
  - repeat constructor. discriminate.
Defined.



(** ** Payments of the sample documents *)

(** Two stamped invoices of one issuer and receiver are paid in one
    document. *)
Example pago_total_produces :
  is_Ok (Ejemplo.pago_total [Ejemplo.factura "6d7434a6"; Ejemplo.factura "08849946"]).
Proof. eexists. vm_compute. reflexivity. Qed.

Example pago_total_other_currency :
  Ejemplo.pago_total [Ejemplo.factura "6d7434a6"; Ejemplo.sin_timbre]
  = Err (ValueError msg_mismatch).
Proof. vm_compute. reflexivity. Qed.

(** C7 as stated fails on a single comprobante that carries no stamp, and
    on a stamped one without a [MetodoPago] entry: nothing differs from the
    first comprobante or from the issuer, yet an error is raised and no
    payment document is produced. *)
Lemma C7_counterexample :
  let unstamped := Ejemplo.sin_timbre in
  let no_method :=
    {| CFDI.Moneda := "MXN";
       CFDI.Emisor := CFDI.Emisor (Ejemplo.factura "6d7434a6");
       CFDI.Receptor := Ejemplo.receptor;
       CFDI.Complemento := Val (Val (Val "6d7434a6"));
       CFDI.Serie := Val "A";
       CFDI.Folio := Val "123ABC";
       CFDI.MetodoPago := Missing;
       CFDI.Total := 1500%Q;
       CFDI.has_Impuestos := false;
       CFDI.Conceptos := [] |} in
  agrees (CFDI.Moneda unstamped) Ejemplo.emisor (CFDI.Receptor unstamped)
    unstamped = true
  /\ Ejemplo.pago_total [unstamped] = Err (KeyError "TimbreFiscalDigital")
  /\ agrees (CFDI.Moneda no_method) Ejemplo.emisor (CFDI.Receptor no_method)
       no_method = true
  /\ Ejemplo.pago_total [no_method] = Err (KeyError "MetodoPago").
Proof. cbv zeta. repeat split; vm_compute; reflexivity. Defined.



(** Paying the whole total of the sample invoice reproduces the group
    amounts 360000 and 247500; paying half of it gives their halves. *)
Example parcialidad_produces :
  is_Ok (Ejemplo.parcialidad (Ejemplo.factura "6d7434a6") 1500%Q 750%Q).
Proof. eexists. vm_compute. reflexivity. Qed.

Example parcialidad_full :
  (fun d => (ImpuestoDR.ImporteDR <$> traslados_dr (DoctoRelacionado.ImpuestosDR d),
             ImpuestoDR.ImporteDR <$> retenciones_dr (DoctoRelacionado.ImpuestosDR d)))
  <$> (match docto_parcial (Ejemplo.factura "6d7434a6") 1 1500%Q 1500%Q with
       | Ok d => Some d
       | Err _ => None
       end)
  = Some ([Some 360000.00%Q], [Some 247500.00%Q]).
Proof. vm_compute. reflexivity. Qed.

Example parcialidad_half :
  (fun d => (ImpuestoDR.ImporteDR <$> traslados_dr (DoctoRelacionado.ImpuestosDR d),
             ImpuestoDR.ImporteDR <$> retenciones_dr (DoctoRelacionado.ImpuestosDR d)))
  <$> (match docto_parcial (Ejemplo.factura "6d7434a6") 2 1500%Q 750%Q with
       | Ok d => Some d
       | Err _ => None
       end)
  = Some ([Some 180000.00%Q], [Some 123750.00%Q]).
Proof. vm_compute. reflexivity. Qed.

(** ** The further properties on the sample inputs *)

Lemma X1_witness :
  Impuesto_parse "IVA|Tasa" = Ok (Impuesto_init "IVA" "Tasa" None None None)
  /\ Impuesto_parse "IVA|Tasa|0.16"
     = (d ← call (Decimal_of_str "0.16");
        mret (Impuesto_init "IVA" "Tasa" (Some d) None None))
  /\ Impuesto_parse "IVA|Tasa|0.16|16.00"
     = Impuesto_parse "IVA|Tasa|0.16".
Proof.
  apply (X1_parse_composed "IVA" "Tasa" "0.16" "16.00"); reflexivity.
Defined.

Lemma X3_witness :
  exists doc,
    Ejemplo.comprobante [Ejemplo.acero; Ejemplo.servicio] = Ok doc
    /\ Forall
         (fun c' =>
            (Concepto.Impuestos c' = PyNone
             /\ (Concepto.ObjetoImp c' = Some "01"
                 \/ Concepto.ObjetoImp c' = Some "03"))
            \/ (Concepto.ObjetoImp c' = Some "02"
                /\ exists ts rs,
                     (ts <> [] \/ rs <> [])
                     /\ Concepto.Impuestos c'
                        = Val {| ConceptoImpuestos.Traslados := Obj <$> ts;
                                 ConceptoImpuestos.Retenciones := Obj <$> rs |}))
         (Comprobante.Conceptos doc).
Proof.
  eexists. split; [vm_compute; reflexivity|].
  apply (X3_ObjetoImp_marks_taxes Ejemplo.emisor "56820" Ejemplo.receptor
           "MXN" "I" "01" None None None None None None None None [] None None
           None [Ejemplo.acero; Ejemplo.servicio]).
  vm_compute. reflexivity.
Defined.

Lemma X4_witness :
  exists doc,
    Ejemplo.comprobante [Ejemplo.incluido; Ejemplo.servicio] = Ok doc
    /\ Forall2
         (fun c c' =>
            Concepto.ClaveProdServ c' = Concepto.ClaveProdServ c
            /\ Concepto.Cantidad c' = Concepto.Cantidad c
            /\ Concepto.ClaveUnidad c' = Concepto.ClaveUnidad c
            /\ Concepto.Descripcion c' = Concepto.Descripcion c
            /\ Concepto.NoIdentificacion c' = Concepto.NoIdentificacion c
            /\ Concepto.Unidad c' = Concepto.Unidad c
            /\ Concepto.Descuento c' = Concepto.Descuento c
            /\ Concepto._traslados_incluidos c' = Concepto._traslados_incluidos c
            /\ (Concepto._traslados_incluidos c = false ->
                Concepto.ValorUnitario c' = Concepto.ValorUnitario c))
         [Ejemplo.incluido; Ejemplo.servicio] (Comprobante.Conceptos doc).
Proof.
  eexists. split; [vm_compute; reflexivity|].
  apply (X4_loop_frame Ejemplo.emisor "56820" Ejemplo.receptor
           "MXN" "I" "01" None None None None None None None None [] None None
           None [Ejemplo.incluido; Ejemplo.servicio]).
  vm_compute. reflexivity.
Defined.

Lemma X5_witness :
  is_Err (Ejemplo.comprobante
            [Ejemplo.acero; Muestra.sin_barra; Ejemplo.servicio])
  /\ forall doc,
       Ejemplo.comprobante [Ejemplo.acero; Muestra.sin_barra; Ejemplo.servicio]
       <> Ok doc.
Proof.
  apply (X5_unparsable_entry_aborts Ejemplo.emisor "56820" Ejemplo.receptor
           "MXN" "I" "01" None None None None None None None None [] None None
           None [Ejemplo.acero] [Ejemplo.servicio] Muestra.sin_barra
           {| ConceptoImpuestos.Traslados := [Str "IVA"];
              ConceptoImpuestos.Retenciones := [] |}
           (Str "IVA")).
  - reflexivity.
  - left. reflexivity.
  - right. exists "IVA". split; reflexivity.
Defined.

Lemma X6_witness :
  exists doc c',
    Ejemplo.comprobante [Ejemplo.acero; Ejemplo.servicio] = Ok doc
    /\ In c' (Comprobante.Conceptos doc)
    /\ Concepto.ObjetoImp c' <> Some "02"
    /\ (forall rnd_fn, process_concepto rnd_fn c' = Err AttributeError)
    /\ is_Err (Ejemplo.comprobante ([Ejemplo.acero] ++ c' :: []))
    /\ (forall rnd_fn, rounder "MXN" = Done rnd_fn ->
          is_Ok (mapM (process_concepto rnd_fn) [Ejemplo.acero]) ->
          Ejemplo.comprobante ([Ejemplo.acero] ++ c' :: [])
          = Err AttributeError).
Proof.
  eexists. eexists.
  split; [vm_compute; reflexivity|].
  split; [right; left; reflexivity|].
  split; [vm_compute; discriminate|].
  eapply (X6_untaxed_concept_not_reusable Ejemplo.emisor "56820"
            Ejemplo.receptor "MXN" "I" "01" None None None None None None None
            None [] None None None [Ejemplo.acero; Ejemplo.servicio]
            [Ejemplo.acero] []).
  - vm_compute. reflexivity.
  - right. left. reflexivity.
  - vm_compute. discriminate.
Defined.

Lemma X7_witness :
  exists doc,
    Muestra.comprobante [Ejemplo.incluido; Ejemplo.acero] = Ok doc
    /\ exists rnd_fn,
         rounder "MXN" = Done rnd_fn
         /\ Forall2
              (fun c c' =>
                 Concepto._traslados_incluidos c = true ->
                 exists trasladados s_tasa s_cuota valor_unitario,
                   parsed ConceptoImpuestos.Traslados c = Ok trasladados
                   /\ InContext.sum_TasaOCuota "Tasa" trasladados 0%Q = Ok s_tasa
                   /\ InContext.sum_TasaOCuota "Cuota" trasladados 0%Q
                      = Ok s_cuota
                   /\ ~ (Context.add s_tasa 1 == 0)%Q
                   /\ (Qabs (valor_unitario * Context.add s_tasa 1
                             - Context.sub (Concepto.ValorUnitario c) s_cuota)
                       <= (1 # 2) * Context.pow10 (1 - Context.prec)
                          * Qabs (Context.sub (Concepto.ValorUnitario c)
                                    s_cuota))%Q
                   /\ Concepto.ValorUnitario c' = rnd_fn valor_unitario
                   /\ Concepto.Importe c'
                      = Some (rnd_fn (Context.mul (Concepto.Cantidad c)
                                        valor_unitario)))
              [Ejemplo.incluido; Ejemplo.acero] (Comprobante.Conceptos doc).
Proof.
  eexists. split; [vm_compute; reflexivity|].
  apply (X7_back_solve_to_28_digits Ejemplo.emisor "56820" Ejemplo.receptor
           "MXN" "I" "01" None None None None None None None None [] None None
           None [Ejemplo.incluido; Ejemplo.acero]).
  vm_compute. reflexivity.
Defined.


Lemma X9_witness :
  Ejemplo.comprobante [Ejemplo.acero; Muestra.sin_tasa; Ejemplo.servicio]
  = Err TypeError.
Proof.
  apply (X9_rate_missing_TypeError Ejemplo.emisor "56820" Ejemplo.receptor
           "MXN" "I" "01" None None None None None None None None [] None None
           None [Ejemplo.acero] [Ejemplo.servicio] Muestra.sin_tasa
           (Spec.quantize 2) [Impuesto_init "IVA" "Tasa" None None None]
           (Impuesto_init "IVA" "Tasa" None None None)).
  - reflexivity.
  - eexists. vm_compute. reflexivity.
  - reflexivity.
  - reflexivity.
  - eexists. reflexivity.
  - left. reflexivity.
  - left. reflexivity.
  - reflexivity.
Defined.

Lemma X10_witness :
  Ejemplo.comprobante [Ejemplo.acero; Muestra.tasa_menos_uno]
  = Err DivisionByZero.
Proof.
  apply (X10_rates_sum_minus_one Ejemplo.emisor "56820" Ejemplo.receptor
           "MXN" "I" "01" None None None None None None None None [] None None
           None [Ejemplo.acero] [] Muestra.tasa_menos_uno
           (Spec.quantize 2)
           [Impuesto_init "ISR" "Tasa" (Some (-1)%Q) None None]
           (0 + -1)%Q 0%Q).
  - reflexivity.
  - eexists. vm_compute. reflexivity.
  - reflexivity.
  - reflexivity.
  - eexists. reflexivity.
  - reflexivity.
  - reflexivity.
  - reflexivity.
  - reflexivity.
  - vm_compute. discriminate.
Defined.



Lemma X13_witness :
  exists doc,
    @Comprobante_init Spec.Instances.decimal Spec.Instances.compute
      Muestra.cfdi_firmado Muestra.firmante "56820" Ejemplo.receptor
      [Ejemplo.acero] "MXN" "I" "01" None None None None None None None None
      [] None None None = Ok doc
    /\ Comprobante.Certificado doc = "MIIFuzCCA6OgAwIBAgIU"
    /\ exists cadena,
         @cadena_original Muestra.cfdi_firmado (with_Sello doc "") = Done cadena
         /\ Done ("sello de " ++ cadena) = Done (Comprobante.Sello doc).
Proof.
  eexists. split; [vm_compute; reflexivity|].
  apply (@X13_Sello_signs_the_unsigned_document Spec.Instances.decimal
           Spec.Instances.compute Muestra.cfdi_firmado Muestra.firmante
           "56820" Ejemplo.receptor "MXN" "I" "01" None None None None None
           None None None [] None None None [Ejemplo.acero]).
  vm_compute. reflexivity.
Defined.

Lemma X15_witness :
  exists doc,
    Comprobante_pago Ejemplo.emisor "56820" Ejemplo.receptor
      (node "pago20:Pagos" [("Version", "2.0")] []) [] None None None None
      None = Ok doc
    /\ Comprobante.Moneda doc = "XXX"
    /\ Comprobante.TipoDeComprobante doc = "P"
    /\ Comprobante.Exportacion doc = "01"
    /\ Comprobante.FormaPago doc = None
    /\ Comprobante.MetodoPago doc = None
    /\ Comprobante.CondicionesDePago doc = None
    /\ Comprobante.TipoCambio doc = None
    /\ Comprobante.Descuento doc = None
    /\ Comprobante.Receptor doc = with_UsoCFDI Ejemplo.receptor "CP01"
    /\ Comprobante.Complemento doc
       = Some (node "pago20:Pagos" [("Version", "2.0")] [])
    /\ exists rnd_fn c,
         rounder "XXX" = Done rnd_fn
         /\ Comprobante.Conceptos doc = [c]
         /\ Concepto.ClaveProdServ c = "84111506"
         /\ Concepto.Cantidad c = 1%Q
         /\ Concepto.ValorUnitario c = 0%Q
         /\ Concepto.Importe c = Some (rnd_fn (1 * 0)%Q)
         /\ Concepto.ObjetoImp c = Some "01"
         /\ Concepto.Impuestos c = PyNone
         /\ Comprobante.SubTotal doc = (0 + rnd_fn (1 * 0))%Q.
Proof.
  eexists. split; [vm_compute; reflexivity|].
  apply (X15_pago_document Ejemplo.emisor "56820" [] None None None None None
           Ejemplo.receptor (node "pago20:Pagos" [("Version", "2.0")] [])).
  vm_compute. reflexivity.
Defined.

Lemma X16_witness :
  exists doc docto complemento,
    Ejemplo.parcialidad (Ejemplo.factura "6d7434a6") 1500%Q 500%Q = Ok doc
    /\ docto_parcial (Ejemplo.factura "6d7434a6") 1 1500%Q 500%Q = Ok docto
    /\ DoctoRelacionado.NumParcialidad docto = 1%Z
    /\ DoctoRelacionado.ImpSaldoAnt docto = 1500%Q
    /\ DoctoRelacionado.ImpPagado docto = 500%Q
    /\ DoctoRelacionado.MonedaDR docto = "MXN"
    /\ DoctoRelacionado.EquivalenciaDR docto = 1%Q
    /\ DoctoRelacionado.ObjetoImpDR docto = "02"
    /\ (CFDI.has_Impuestos (Ejemplo.factura "6d7434a6") = false ->
        DoctoRelacionado.ImpuestosDR docto = None)
    /\ Pagos [ {| Pago.DoctoRelacionado := [docto];
                  Pago.FechaPago := "2020-01-02T22:40:38";
                  Pago.FormaDePagoP := "03";
                  Pago.MonedaP := "MXN";
                  Pago.TipoCambioP := adjust_tipo_cambio "MXN" None |} ]
       = Done complemento
    /\ Comprobante.Complemento doc = Some complemento
    /\ Comprobante.Receptor doc = with_UsoCFDI Ejemplo.receptor "CP01".
Proof.
  eexists. 
  assert (Hdoc : Ejemplo.parcialidad (Ejemplo.factura "6d7434a6") 1500%Q 500%Q
                 = Ok ?[doc]) by (vm_compute; reflexivity).
  destruct (X16_pago_comprobante_entry Ejemplo.emisor "56820" [] None None
              None None None (Ejemplo.factura "6d7434a6") 1 1500%Q 500%Q
              "2020-01-02T22:40:38" "03" None _ Hdoc)
    as (docto & complemento & Hrest).
  exists docto, complemento. split; [exact Hdoc | exact Hrest].
Defined.

Lemma X17_witness :
  exists doc,
    Comprobante_nomina Ejemplo.emisor "56820" Ejemplo.receptor Muestra.nomina
      [] None None None None None = Ok doc
    /\ Comprobante.Moneda doc = "MXN"
    /\ Comprobante.TipoDeComprobante doc = "N"
    /\ Comprobante.MetodoPago doc = Some "PUE"
    /\ Comprobante.FormaPago doc = Some "99"
    /\ Comprobante.Receptor doc = with_UsoCFDI Ejemplo.receptor "CN01"
    /\ Comprobante.Complemento doc = Some (Nomina.nodo Muestra.nomina)
    /\ exists rnd_fn c,
         rounder "MXN" = Done rnd_fn
         /\ Comprobante.Conceptos doc = [c]
         /\ Concepto.ClaveProdServ c = "84111505"
         /\ Concepto.Cantidad c = 1%Q
         /\ Concepto.ValorUnitario c
            = (total_or_zero (Nomina.TotalPercepciones Muestra.nomina)
               + total_or_zero (Nomina.TotalOtrosPagos Muestra.nomina))%Q
         /\ Concepto.Descuento c = get (Nomina.TotalDeducciones Muestra.nomina)
         /\ Concepto.ObjetoImp c = Some "03"
         /\ Concepto.Impuestos c = PyNone
         /\ Concepto.Importe c
            = Some (rnd_fn (1 * Concepto.ValorUnitario c)%Q)
         /\ Comprobante.SubTotal doc
            = (0 + rnd_fn (1 * Concepto.ValorUnitario c))%Q
         /\ (or_zero (Comprobante.Descuento doc)
             == or_zero (get (Nomina.TotalDeducciones Muestra.nomina)))%Q.
Proof.
  eexists. split; [vm_compute; reflexivity|].
  apply (X17_nomina_document Ejemplo.emisor "56820" [] None None None None
           None Ejemplo.receptor Muestra.nomina).
  vm_compute. reflexivity.
Defined.

Lemma X20_witness :
  (forall meth path d p,
     @Portal._request Guion.portal meth path d p
       (Guion.session [Ok Muestra.redirigido])
     = (Portal.Raises (Portal.Py (ValueError "Please Login Again")),
        @Portal.mkSession Guion.portal tt None "pR4Px"
          [Portal.reload_request] []))
  /\ @Portal.rfc_valid Guion.portal "xaxx010101000"
       (Guion.session [Ok Muestra.redirigido])
     = (Portal.Raises (Portal.Py (ValueError "Please Login Again")),
        @Portal.mkSession Guion.portal tt None "pR4Px"
          [Portal.reload_request] [])
  /\ @Portal.legal_name_valid Guion.portal "xaxx010101000" "publico en general"
       (Guion.session [Ok Muestra.redirigido])
     = (Portal.Raises (Portal.Py (ValueError "Please Login Again")),
        @Portal.mkSession Guion.portal tt None "pR4Px"
          [Portal.reload_request] []).
Proof.
  apply (@X20_reload_refused Guion.portal
           (Guion.session [Ok Muestra.redirigido]) Muestra.redirigido []
           "xaxx010101000" "publico en general").
  - reflexivity.
  - reflexivity.
  - vm_compute. discriminate.
Defined.

Lemma X23_witness :
  @Portal.login Guion.portal (Guion.session [Ok Muestra.sin_formulario])
  = (Portal.Raises
       (Portal.Py (ValueError "Login form not found, please try again")),
     @Portal.mkSession Guion.portal tt None "pR4Px"
       [Portal.GET Portal.BASE_URL [] true] []).
Proof.
  apply (@X23_login_form_not_found Guion.portal
           (Guion.session [Ok Muestra.sin_formulario]) Muestra.sin_formulario
           [] IndexError).
  - reflexivity.
  - reflexivity.
  - reflexivity.
Defined.

(** Runs of the portal methods against the scripted transport. *)

Example login_runs :
  exists s',
    @Portal.login Guion.portal
      (Guion.session [Ok Muestra.con_formulario; Ok Muestra.con_token])
    = (Portal.Returns Muestra.con_token, s')
    /\ Portal._request_verification_token s' = Some "CfDJ8"
    /\ length (Portal.sent s') = 2%nat.
Proof. eexists. split; [vm_compute; reflexivity|]. split; reflexivity. Qed.

Example rfc_valid_runs :
  exists s',
    @Portal.rfc_valid Guion.portal "XAXX010101000"
      (Guion.session [Ok Muestra.con_token; Ok Muestra.exitoso])
    = (Portal.Returns (Portal.JStr "si"), s')
    /\ Portal._request_verification_token s' = Some "CfDJ8"
    /\ length (Portal.sent s') = 2%nat.
Proof. eexists. split; [vm_compute; reflexivity|]. split; reflexivity. Qed.

Example rfc_valid_refused :
  exists s',
    @Portal.rfc_valid Guion.portal "XAXX010101000"
      (Guion.session [Ok Muestra.con_token; Ok Muestra.rechazado])
    = (Portal.Raises
         (Portal.ResponseErrorOf
            (Portal.JObj [("exitoso", Portal.JBool false);
                          ("resultado", Portal.JStr "no")])), s').
Proof. eexists. vm_compute. reflexivity. Qed.
